(** * Connectivity and alert state machine of the ESP32 alert button

    A shallow embedding of [Firmware_files/src/main.cpp].  The sketch is one
    cooperative control flow over a handful of global variables and the
    Arduino runtime, so it is embedded as a state-and-halt monad over a record
    holding the globals (with the names of the source) next to the part of
    the hardware the sketch can observe or change.

    Timing model.  The sketch reads time through [millis()] only, and the
    only construct of the source that lets time pass is [delay(ms)]; the
    embedding keeps a millisecond [clock], [delay] adds to it, and every other
    statement is instantaneous.  Between two runs of [loop()] the scheduler may
    let any amount of time pass ([advance]).  [millis()] is the clock
    truncated to the 32 bits of [unsigned long].

    Environment.  Pin levels and the WiFi link status are signals over time;
    datagrams, HTTP results and captive-portal requests are answered by the
    number of the poll that asks for them.  Nothing is assumed about any of
    them: they are the fields of [Env].  [Serial] output is diagnostic and is
    left out.

    Memory.  The fields of [struct Config] are byte buffers with no
    terminator of their own.  Where the sketch reads one as a C string
    (line 235), the read goes on past a field that holds no zero byte, into
    the member that follows and out of the struct; what lies behind the
    struct is the environment's to say ([beyond_config]).

    Power-on.  [checkForResetCondition()] waits for the boot button in a
    loop without [delay()]; in this timing model no time passes in it, so a
    button that is down at power-on and stays down keeps it spinning.  What
    is proved about [setup()] is proved of a device whose boot button is up,
    or up again, when that loop is reached; the hold of the boot button is
    followed through the passes of [loop()]. *)

From Stdlib Require Import ZArith List String Ascii Bool Lia RelationClasses.
From Stdlib Require Import Strings.Byte.
Import ListNotations.

Open Scope string_scope.
Open Scope list_scope.
Open Scope Z_scope.

(** ** Data model *)

Inductive level : Type := LOW | HIGH.

Definition level_eqb (a b : level) : bool :=
  match a, b with
  | LOW, LOW | HIGH, HIGH => true
  | _, _ => false
  end.

Definition level_of_bool (b : bool) : level := if b then HIGH else LOW.

(** [wl_status_t] of the WiFi library, the cases [printNetworkInfo] tells apart. *)
Inductive wl_status_t : Type :=
| WL_NO_SHIELD | WL_IDLE_STATUS | WL_NO_SSID_AVAIL | WL_SCAN_COMPLETED
| WL_CONNECTED | WL_CONNECT_FAILED | WL_CONNECTION_LOST | WL_DISCONNECTED.

Definition is_connected (st : wl_status_t) : bool :=
  match st with WL_CONNECTED => true | _ => false end.

(** [struct Config]: three [char[32]] buffers and a flag. *)
Record Config : Type := mkConfig {
  ssid : list byte;
  password : list byte;
  deviceName : list byte;
  configured : bool
}.

Definition set_configured (b : bool) (c : Config) : Config :=
  mkConfig (ssid c) (password c) (deviceName c) b.

(** [Config blank = {0}] *)
Definition blank : Config :=
  mkConfig (repeat x00 32) (repeat x00 32) (repeat x00 32) false.

(** Pins and constants of the sketch *)
Definition buttonPin : Z := 25.
Definition ledPin : Z := 18.
Definition bootButtonPin : Z := 0.
Definition UDP_PORT : Z := 12345.
Definition UDP_REQUEST : string := "WHERE_IS_SERVER".
Definition debounceDelay : Z := 500.
Definition blinkInterval : Z := 300.
Definition serverBlinkInterval : Z := 1000.
Definition serverCheckInterval : Z := 10000.

(** A request reaching the captive portal's web server. *)
Inductive PortalRequest : Type :=
| GetPage (uri : string)
| PostSave (arg_ssid arg_password arg_deviceName : list byte).

(** What the sketch does to the outside, in the order it does it. *)
Inductive Event : Type :=
| EvDigitalWrite (pin : Z) (l : level)
| EvUdpBroadcast (host : string) (port : Z) (payload : string)
| EvHttpBegin (url : string)
| EvHttpHeader (name value : string)
| EvHttpPost (body : string)
| EvHttpEnd
| EvEepromPut (c : Config)
| EvEepromCommit
| EvWifiDisconnect
| EvWifiBegin (net secret : list byte)
| EvWifiReconnect
| EvSoftAP (name : string)
| EvPortalStart
| EvPortalSend (code : Z)
| EvRestart.

(** What the outside does to the sketch. *)
Record Env : Type := mkEnv {
  digital_in : Z -> Z -> level;            (* pin, time *)
  wifi_status_at : Z -> wl_status_t;       (* time *)
  udp_packet_at : nat -> option (list byte);  (* n-th parsePacket *)
  http_code_at : nat -> Z;                 (* n-th POST *)
  portal_request_at : nat -> option PortalRequest;  (* n-th handleClient *)
  beyond_config : nat -> list byte
    (* what lies behind [config] in memory, as far as its first zero byte,
       when the body of the n-th POST is built *)
}.

(** The globals of the sketch, under their names, and the state of the
    runtime under them. *)
Record State : Type := mkState {
  config : Config;  (* line 44 *)
  alertState : bool;  (* line 47 *)
  lastDebounceTime : Z;  (* line 48 *)
  buttonPressStartTime : Z;  (* line 50 *)
  resetTriggered : bool;  (* line 51 *)
  serverConnected : bool;  (* line 52 *)
  isBlinking : bool;  (* line 55 *)
  lastBlinkTime : Z;  (* line 56 *)
  ledState : bool;  (* line 59 *)
  lastServerCheckTime : Z;  (* line 60 *)

  clock : Z;  (* milliseconds since power-on *)
  udp_polls : nat;  (* calls of udp.parsePacket() so far *)
  udp_rx : list byte;  (* what is left of the datagram being read *)
  http_reqs : nat;  (* calls of http.POST() so far *)
  portal_polls : nat;  (* calls of server.handleClient() so far *)
  eeprom_buf : Config;  (* the EEPROM library's copy in RAM *)
  eeprom_flash : Config;  (* what the flash holds *)
  led_out : level;  (* the level driven on ledPin *)
  trace : list Event  (* the events so far, latest first *)
}.

Definition set_config (v : Config) (s : State) : State :=
  mkState v (alertState s) (lastDebounceTime s) (buttonPressStartTime s)
    (resetTriggered s) (serverConnected s) (isBlinking s) (lastBlinkTime s)
    (ledState s) (lastServerCheckTime s) (clock s) (udp_polls s) (udp_rx s)
    (http_reqs s) (portal_polls s) (eeprom_buf s) (eeprom_flash s) (led_out s)
    (trace s).

Definition set_alertState (v : bool) (s : State) : State :=
  mkState (config s) v (lastDebounceTime s) (buttonPressStartTime s)
    (resetTriggered s) (serverConnected s) (isBlinking s) (lastBlinkTime s)
    (ledState s) (lastServerCheckTime s) (clock s) (udp_polls s) (udp_rx s)
    (http_reqs s) (portal_polls s) (eeprom_buf s) (eeprom_flash s) (led_out s)
    (trace s).

Definition set_lastDebounceTime (v : Z) (s : State) : State :=
  mkState (config s) (alertState s) v (buttonPressStartTime s) (resetTriggered
    s) (serverConnected s) (isBlinking s) (lastBlinkTime s) (ledState s)
    (lastServerCheckTime s) (clock s) (udp_polls s) (udp_rx s) (http_reqs s)
    (portal_polls s) (eeprom_buf s) (eeprom_flash s) (led_out s) (trace s).

Definition set_buttonPressStartTime (v : Z) (s : State) : State :=
  mkState (config s) (alertState s) (lastDebounceTime s) v (resetTriggered s)
    (serverConnected s) (isBlinking s) (lastBlinkTime s) (ledState s)
    (lastServerCheckTime s) (clock s) (udp_polls s) (udp_rx s) (http_reqs s)
    (portal_polls s) (eeprom_buf s) (eeprom_flash s) (led_out s) (trace s).

Definition set_resetTriggered (v : bool) (s : State) : State :=
  mkState (config s) (alertState s) (lastDebounceTime s) (buttonPressStartTime
    s) v (serverConnected s) (isBlinking s) (lastBlinkTime s) (ledState s)
    (lastServerCheckTime s) (clock s) (udp_polls s) (udp_rx s) (http_reqs s)
    (portal_polls s) (eeprom_buf s) (eeprom_flash s) (led_out s) (trace s).

Definition set_serverConnected (v : bool) (s : State) : State :=
  mkState (config s) (alertState s) (lastDebounceTime s) (buttonPressStartTime
    s) (resetTriggered s) v (isBlinking s) (lastBlinkTime s) (ledState s)
    (lastServerCheckTime s) (clock s) (udp_polls s) (udp_rx s) (http_reqs s)
    (portal_polls s) (eeprom_buf s) (eeprom_flash s) (led_out s) (trace s).

Definition set_isBlinking (v : bool) (s : State) : State :=
  mkState (config s) (alertState s) (lastDebounceTime s) (buttonPressStartTime
    s) (resetTriggered s) (serverConnected s) v (lastBlinkTime s) (ledState s)
    (lastServerCheckTime s) (clock s) (udp_polls s) (udp_rx s) (http_reqs s)
    (portal_polls s) (eeprom_buf s) (eeprom_flash s) (led_out s) (trace s).

Definition set_lastBlinkTime (v : Z) (s : State) : State :=
  mkState (config s) (alertState s) (lastDebounceTime s) (buttonPressStartTime
    s) (resetTriggered s) (serverConnected s) (isBlinking s) v (ledState s)
    (lastServerCheckTime s) (clock s) (udp_polls s) (udp_rx s) (http_reqs s)
    (portal_polls s) (eeprom_buf s) (eeprom_flash s) (led_out s) (trace s).

Definition set_ledState (v : bool) (s : State) : State :=
  mkState (config s) (alertState s) (lastDebounceTime s) (buttonPressStartTime
    s) (resetTriggered s) (serverConnected s) (isBlinking s) (lastBlinkTime s)
    v (lastServerCheckTime s) (clock s) (udp_polls s) (udp_rx s) (http_reqs s)
    (portal_polls s) (eeprom_buf s) (eeprom_flash s) (led_out s) (trace s).

Definition set_lastServerCheckTime (v : Z) (s : State) : State :=
  mkState (config s) (alertState s) (lastDebounceTime s) (buttonPressStartTime
    s) (resetTriggered s) (serverConnected s) (isBlinking s) (lastBlinkTime s)
    (ledState s) v (clock s) (udp_polls s) (udp_rx s) (http_reqs s)
    (portal_polls s) (eeprom_buf s) (eeprom_flash s) (led_out s) (trace s).

Definition set_clock (v : Z) (s : State) : State :=
  mkState (config s) (alertState s) (lastDebounceTime s) (buttonPressStartTime
    s) (resetTriggered s) (serverConnected s) (isBlinking s) (lastBlinkTime s)
    (ledState s) (lastServerCheckTime s) v (udp_polls s) (udp_rx s) (http_reqs
    s) (portal_polls s) (eeprom_buf s) (eeprom_flash s) (led_out s) (trace s).

Definition set_udp_polls (v : nat) (s : State) : State :=
  mkState (config s) (alertState s) (lastDebounceTime s) (buttonPressStartTime
    s) (resetTriggered s) (serverConnected s) (isBlinking s) (lastBlinkTime s)
    (ledState s) (lastServerCheckTime s) (clock s) v (udp_rx s) (http_reqs s)
    (portal_polls s) (eeprom_buf s) (eeprom_flash s) (led_out s) (trace s).

Definition set_udp_rx (v : list byte) (s : State) : State :=
  mkState (config s) (alertState s) (lastDebounceTime s) (buttonPressStartTime
    s) (resetTriggered s) (serverConnected s) (isBlinking s) (lastBlinkTime s)
    (ledState s) (lastServerCheckTime s) (clock s) (udp_polls s) v (http_reqs
    s) (portal_polls s) (eeprom_buf s) (eeprom_flash s) (led_out s) (trace s).

Definition set_http_reqs (v : nat) (s : State) : State :=
  mkState (config s) (alertState s) (lastDebounceTime s) (buttonPressStartTime
    s) (resetTriggered s) (serverConnected s) (isBlinking s) (lastBlinkTime s)
    (ledState s) (lastServerCheckTime s) (clock s) (udp_polls s) (udp_rx s) v
    (portal_polls s) (eeprom_buf s) (eeprom_flash s) (led_out s) (trace s).

Definition set_portal_polls (v : nat) (s : State) : State :=
  mkState (config s) (alertState s) (lastDebounceTime s) (buttonPressStartTime
    s) (resetTriggered s) (serverConnected s) (isBlinking s) (lastBlinkTime s)
    (ledState s) (lastServerCheckTime s) (clock s) (udp_polls s) (udp_rx s)
    (http_reqs s) v (eeprom_buf s) (eeprom_flash s) (led_out s) (trace s).

Definition set_eeprom_buf (v : Config) (s : State) : State :=
  mkState (config s) (alertState s) (lastDebounceTime s) (buttonPressStartTime
    s) (resetTriggered s) (serverConnected s) (isBlinking s) (lastBlinkTime s)
    (ledState s) (lastServerCheckTime s) (clock s) (udp_polls s) (udp_rx s)
    (http_reqs s) (portal_polls s) v (eeprom_flash s) (led_out s) (trace s).

Definition set_eeprom_flash (v : Config) (s : State) : State :=
  mkState (config s) (alertState s) (lastDebounceTime s) (buttonPressStartTime
    s) (resetTriggered s) (serverConnected s) (isBlinking s) (lastBlinkTime s)
    (ledState s) (lastServerCheckTime s) (clock s) (udp_polls s) (udp_rx s)
    (http_reqs s) (portal_polls s) (eeprom_buf s) v (led_out s) (trace s).

Definition set_led_out (v : level) (s : State) : State :=
  mkState (config s) (alertState s) (lastDebounceTime s) (buttonPressStartTime
    s) (resetTriggered s) (serverConnected s) (isBlinking s) (lastBlinkTime s)
    (ledState s) (lastServerCheckTime s) (clock s) (udp_polls s) (udp_rx s)
    (http_reqs s) (portal_polls s) (eeprom_buf s) (eeprom_flash s) v (trace s).

Definition set_trace (v : list Event) (s : State) : State :=
  mkState (config s) (alertState s) (lastDebounceTime s) (buttonPressStartTime
    s) (resetTriggered s) (serverConnected s) (isBlinking s) (lastBlinkTime s)
    (ledState s) (lastServerCheckTime s) (clock s) (udp_polls s) (udp_rx s)
    (http_reqs s) (portal_polls s) (eeprom_buf s) (eeprom_flash s) (led_out s)
    v.

Arguments set_config v s /.
Arguments set_alertState v s /.
Arguments set_lastDebounceTime v s /.
Arguments set_buttonPressStartTime v s /.
Arguments set_resetTriggered v s /.
Arguments set_serverConnected v s /.
Arguments set_isBlinking v s /.
Arguments set_lastBlinkTime v s /.
Arguments set_ledState v s /.
Arguments set_lastServerCheckTime v s /.
Arguments set_clock v s /.
Arguments set_udp_polls v s /.
Arguments set_udp_rx v s /.
Arguments set_http_reqs v s /.
Arguments set_portal_polls v s /.
Arguments set_eeprom_buf v s /.
Arguments set_eeprom_flash v s /.
Arguments set_led_out v s /.
Arguments set_trace v s /.

(** ** 32-bit unsigned arithmetic and C strings *)

Definition wrap32 (z : Z) : Z := z mod 2 ^ 32.

(** [a - b] on [unsigned long] *)
Definition usub (a b : Z) : Z := wrap32 (a - b).

(** The text a NUL-terminated buffer holds: [String(buffer)]. *)
Fixpoint String_of_cbuf (b : list byte) : string :=
  match b with
  | [] => EmptyString
  | c :: rest =>
      if Byte.eqb c x00 then EmptyString
      else String (ascii_of_byte c) (String_of_cbuf rest)
  end.

(** The bytes of a C string, up to its terminator. *)
Fixpoint c_text (b : list byte) : list byte :=
  match b with
  | [] => []
  | c :: rest => if Byte.eqb c x00 then [] else c :: c_text rest
  end.

(** A [bool] as the byte it is in memory. *)
Definition byte_of_bool (b : bool) : byte := if b then x01 else x00.

(** [String(config.deviceName)]: the C string that starts at the field.  It
    ends at the first zero byte: inside the field when the name is
    terminated; if not, in [config.configured], the member that follows the
    field in [struct Config], or in [beyond], what lies behind the struct. *)
Definition String_deviceName (cfg : Config) (beyond : list byte) : string :=
  String_of_cbuf (deviceName cfg ++ byte_of_bool (configured cfg) :: beyond).

(** [strncpy(dst, src, 32)] into a 32-byte buffer: the text of [src], cut at
    32 bytes, padded with NUL. *)
Definition strncpy32 (src : list byte) : list byte :=
  firstn 32 (c_text src ++ repeat x00 32).

(** [String::isEmpty()] *)
Definition isEmpty (s : string) : bool :=
  match s with EmptyString => true | _ => false end.

(** ** The monad: state, plus a halt for [ESP.restart()]

    A function of the sketch either returns to its caller with a result and
    a state, or restarts the device and is never resumed.  The [while] loops
    of the source are run on fuel, one unit a round; [OutOfFuel] is the loop
    that has not finished when the fuel is spent.  The theorems say how much
    fuel is enough. *)

Inductive Res (A : Type) : Type :=
| Ret (a : A) (s : State)
| Rebooted (s : State)
| OutOfFuel.

Arguments Ret {A} a s.
Arguments Rebooted {A} s.
Arguments OutOfFuel {A}.

Definition M (A : Type) : Type := State -> Res A.

Definition ret {A} (a : A) : M A := fun s => Ret a s.

Definition bind {A B} (m : M A) (f : A -> M B) : M B :=
  fun s =>
    match m s with
    | Ret a s' => f a s'
    | Rebooted s' => Rebooted s'
    | OutOfFuel => OutOfFuel
    end.

Notation "x <- m ;; k" := (bind m (fun x => k))
  (at level 61, m at next level, right associativity).
Notation "m ;; k" := (bind m (fun _ => k))
  (at level 61, right associativity).

Definition gets {A} (f : State -> A) : M A := fun s => Ret (f s) s.
Definition modify (f : State -> State) : M unit := fun s => Ret tt (f s).
Definition halt {A} : M A := fun s => Rebooted s.
Definition when (b : bool) (m : M unit) : M unit := if b then m else ret tt.

(** A C loop.  [cond] is the loop test; the body either goes round again with
    new values of the loop's local variables or leaves the enclosing function
    with a result ([return] inside the loop). *)
Inductive Flow (L R : Type) : Type :=
| Continue (l : L)
| Return (r : R).

Arguments Continue {L R} l.
Arguments Return {L R} r.

Fixpoint while {L R} (fuel : nat) (cond : L -> M bool)
         (body : L -> M (Flow L R)) (l : L) : M (Flow L R) :=
  match fuel with
  | O => fun _ => OutOfFuel
  | S fuel' =>
      c <- cond l ;;
      if c then
        r <- body l ;;
        match r with
        | Continue l' => while fuel' cond body l'
        | Return r => ret (Return r)
        end
      else ret (Continue l)
  end.

(** ** The Arduino runtime *)

Section Firmware.

Variable env : Env.
Variable fuel : nat.

Definition log (e : Event) : M unit :=
  modify (fun s => set_trace (e :: trace s) s).

Definition millis : M Z := gets (fun s => wrap32 (clock s)).

Definition delay (ms : Z) : M unit :=
  modify (fun s => set_clock (clock s + ms) s).

Definition digitalRead (pin : Z) : M level :=
  gets (fun s => digital_in env pin (clock s)).

Definition digitalWrite (pin : Z) (l : level) : M unit :=
  log (EvDigitalWrite pin l) ;;
  when (pin =? ledPin) (modify (set_led_out l)).

Definition WiFi_status : M wl_status_t :=
  gets (fun s => wifi_status_at env (clock s)).

Definition udp_broadcast (host : string) (port : Z) (payload : string) : M unit :=
  log (EvUdpBroadcast host port payload).

(** [udp.parsePacket()]: the size of the next datagram, 0 when there is none. *)
Definition udp_parsePacket : M Z :=
  k <- gets udp_polls ;;
  modify (set_udp_polls (S k)) ;;
  match udp_packet_at env k with
  | Some p => modify (set_udp_rx p) ;; ret (Z.of_nat (List.length p))
  | None => modify (set_udp_rx []) ;; ret 0
  end.

(** [len = udp.read(buffer, n); buffer[len] = 0]: the buffer as left by both. *)
Definition udp_read (n : nat) : M (list byte) :=
  rx <- gets udp_rx ;;
  modify (set_udp_rx (skipn n rx)) ;;
  ret (firstn n rx ++ [x00]).

Definition http_POST (body : string) : M Z :=
  log (EvHttpPost body) ;;
  k <- gets http_reqs ;;
  modify (set_http_reqs (S k)) ;;
  ret (http_code_at env k).

Definition EEPROM_begin : M unit := modify (fun s => set_eeprom_buf (eeprom_flash s) s).
Definition EEPROM_get : M Config := gets eeprom_buf.

Definition EEPROM_put (c : Config) : M unit :=
  log (EvEepromPut c) ;; modify (set_eeprom_buf c).

Definition EEPROM_commit : M unit :=
  log EvEepromCommit ;; modify (fun s => set_eeprom_flash (eeprom_buf s) s).

Definition ESP_restart {A} : M A := log EvRestart ;; halt.

(** ** The sketch *)

(** lines 315-326: the wait for a reply to the request sent at [start] *)
Definition await_reply (start : Z) : M (Flow unit string) :=
  while fuel
    (fun _ => now <- millis ;; ret (usub now start <? 1000))
    (fun _ =>
       packetSize <- udp_parsePacket ;;
       if negb (packetSize =? 0) then
         buffer <- udp_read 15 ;;
         ret (Return (String_of_cbuf buffer))
       else
         delay 50 ;; ret (Continue tt))
    tt.

(** lines 309-327: one pass of the [for] loop *)
Definition discovery_attempt (attempt : Z) : M (Flow Z string) :=
  udp_broadcast "255.255.255.255" UDP_PORT UDP_REQUEST ;;
  start <- millis ;;
  r <- await_reply start ;;
  match r with
  | Return ip => ret (Return ip)
  | Continue _ => ret (Continue (attempt + 1))
  end.

(** lines 304-332 *)
Definition improvedDiscoverServer : M string :=
  r <- while fuel (fun attempt => ret (attempt <? 3)) discovery_attempt 0 ;;
  match r with
  | Return ip => ret ip
  | Continue _ => ret EmptyString
  end.

Definition discoverServer : M string := improvedDiscoverServer.


(** lines 491-516 and 518-535: they read the link status and print. *)
Definition printNetworkInfo : M unit :=
  _ <- WiFi_status ;;
  _ <- WiFi_status ;;
  _ <- gets serverConnected ;;
  ret tt.

Definition networkDiagnostics : M unit :=
  _ <- gets config ;;
  printNetworkInfo.

(** lines 173-190 *)
Definition blinkLED (stop : bool) (interval : Z) : M unit :=
  if stop then
    modify (set_isBlinking false) ;;
    a <- gets alertState ;;
    modify (set_ledState a) ;;
    a <- gets alertState ;;
    digitalWrite ledPin (level_of_bool a)
  else
    let actualInterval := if interval >? 0 then interval else blinkInterval in
    b <- gets isBlinking ;;
    now <- millis ;;
    last <- gets lastBlinkTime ;;
    when (b && (usub now last >? actualInterval)) (
      now <- millis ;;
      modify (set_lastBlinkTime now) ;;
      l <- gets ledState ;;
      modify (set_ledState (negb l)) ;;
      l <- gets ledState ;;
      digitalWrite ledPin (level_of_bool l)).

(** The association loops of [reconnectWiFi] and [enhancedWiFiConnect]:
    [while (WiFi.status() != WL_CONNECTED && attempts < limit)
       { delay(500); attempts++; }] *)
Definition await_link (limit : Z) : M Z :=
  r <- while (R := unit) fuel
         (fun attempts =>
            st <- WiFi_status ;;
            ret (negb (is_connected st) && (attempts <? limit)))
         (fun attempts => delay 500 ;; ret (Continue (attempts + 1)))
         0 ;;
  match r with
  | Continue attempts => ret attempts
  | Return _ => ret 0
  end.

(** lines 260-298 *)
Definition reconnectWiFi : M bool :=
  modify (set_isBlinking true) ;;
  log EvWifiReconnect ;;
  _ <- await_link 5 ;;
  st <- WiFi_status ;;
  if is_connected st then
    printNetworkInfo ;;
    serverIP <- discoverServer ;;
    if isEmpty serverIP then
      modify (set_serverConnected false) ;;
      modify (set_isBlinking true) ;;
      ret true
    else
      modify (set_serverConnected true) ;;
      blinkLED true 0 ;;
      ret true
  else
    modify (set_serverConnected false) ;;
    ret false.

(** [alertState = !alertState] *)
Definition flip_alertState : M unit :=
  a <- gets alertState ;;
  modify (set_alertState (negb a)).

(** [ledState = alertState; digitalWrite(ledPin, alertState ? HIGH : LOW)] *)
Definition show_alertState : M unit :=
  a <- gets alertState ;;
  modify (set_ledState a) ;;
  a <- gets alertState ;;
  digitalWrite ledPin (level_of_bool a).

(** lines 213-257: find the server and post the alert *)
Definition deliver_alert (state : bool) : M unit :=
  serverIP <- discoverServer ;;
  if isEmpty serverIP then
    modify (set_serverConnected false) ;;
    modify (set_isBlinking true) ;;
    flip_alertState
  else
    modify (set_serverConnected true) ;;
    log (EvHttpBegin (String.append "http://" (String.append serverIP ":5000/alert"))) ;;
    log (EvHttpHeader "Content-Type" "application/x-www-form-urlencoded") ;;
    cfg <- gets config ;;
    k <- gets http_reqs ;;
    let postData :=
      String.append "name=" (String_deviceName cfg (beyond_config env k)) in
    httpCode <- http_POST postData ;;
    (if httpCode >? 0 then ret tt
     else flip_alertState ;; show_alertState) ;;
    log EvHttpEnd.

(** lines 200-258 *)
Definition sendAlert (state : bool) : M unit :=
  st <- WiFi_status ;;
  r <- (if negb (is_connected st) then
          ok <- reconnectWiFi ;;
          if negb ok then
            flip_alertState ;;
            show_alertState ;;
            ret (Return tt)
          else ret (Continue tt)
        else ret (Continue tt)) ;;
  match r with
  | Return _ => ret tt
  | Continue _ => deliver_alert state
  end.

(** lines 192-198 *)
Definition toggleAlertState : M unit :=
  flip_alertState ;;
  show_alertState ;;
  a <- gets alertState ;;
  sendAlert a.

(** lines 347-359 *)
Definition triggerReset : M unit :=
  digitalWrite ledPin HIGH ;;
  EEPROM_put blank ;;
  EEPROM_commit ;;
  delay 1000 ;;
  digitalWrite ledPin LOW ;;
  modify (set_resetTriggered true) ;;
  ESP_restart.

(** lines 334-345 *)
Definition checkForResetCondition : M unit :=
  l <- digitalRead bootButtonPin ;;
  when (level_eqb l LOW) (
    delay 100 ;;
    startTime <- millis ;;
    _ <- while fuel
           (fun _ : unit => l <- digitalRead bootButtonPin ;; ret (level_eqb l LOW))
           (fun _ =>
              now <- millis ;;
              if usub now startTime >? 3000 then triggerReset ;; ret (Return tt)
              else ret (Continue tt))
           tt ;;
    ret tt).

(** lines 361-394 *)
Definition improvedCaptivePortal : M unit :=
  log (EvSoftAP "EMERGENCY ALERT SETUP") ;;
  log EvPortalStart.

Definition startCaptivePortal : M unit := improvedCaptivePortal.

(** lines 396-426 *)
Definition handleRoot : M unit := log (EvPortalSend 200).

(** lines 428-441 *)
Definition handleSave (arg_ssid arg_password arg_deviceName : list byte) : M unit :=
  modify (set_config (mkConfig (strncpy32 arg_ssid) (strncpy32 arg_password)
                               (strncpy32 arg_deviceName) true)) ;;
  cfg <- gets config ;;
  EEPROM_put cfg ;;
  EEPROM_commit ;;
  log (EvPortalSend 200) ;;
  delay 2000 ;;
  ESP_restart.

(** The pages registered with [server.on] in lines 377-385. *)
Definition root_pages : list string :=
  ["/"; "/generate_204"; "/favicon.ico"; "/hotspot-detect.html"; "/ncsi.txt";
   "/connecttest.txt"].

(** [server.handleClient()]: serve the request that is waiting, if any. *)
Definition server_handleClient : M unit :=
  k <- gets portal_polls ;;
  modify (set_portal_polls (S k)) ;;
  match portal_request_at env k with
  | None => ret tt
  | Some (GetPage uri) =>
      if existsb (String.eqb uri) root_pages then handleRoot
      else log (EvPortalSend 302)
  | Some (PostSave a b c) => handleSave a b c
  end.

(** lines 447-489 *)
Definition enhancedWiFiConnect : M bool :=
  log EvWifiDisconnect ;;
  delay 100 ;;
  cfg <- gets config ;;
  log (EvWifiBegin (ssid cfg) (password cfg)) ;;
  _ <- await_link 20 ;;
  st <- WiFi_status ;;
  if is_connected st then
    printNetworkInfo ;;
    serverIP <- discoverServer ;;
    if isEmpty serverIP then
      modify (set_serverConnected false) ;;
      modify (set_isBlinking true) ;;
      ret true
    else
      modify (set_serverConnected true) ;;
      blinkLED true 0 ;;
      ret true
  else
    cfg <- gets config ;;
    modify (set_config (set_configured false cfg)) ;;
    cfg <- gets config ;;
    EEPROM_put cfg ;;
    EEPROM_commit ;;
    modify (set_serverConnected false) ;;
    startCaptivePortal ;;
    ret false.

(** lines 443-445 *)
Definition connectToWiFi : M unit :=
  _ <- enhancedWiFiConnect ;;
  ret tt.

(** lines 63-96 *)
Definition setup : M unit :=
  digitalWrite ledPin LOW ;;
  modify (set_ledState false) ;;
  modify (set_alertState false) ;;
  modify (set_serverConnected false) ;;
  EEPROM_begin ;;
  cfg <- EEPROM_get ;;
  modify (set_config cfg) ;;
  checkForResetCondition ;;
  cfg <- gets config ;;
  (if negb (configured cfg) then
     modify (set_isBlinking true) ;;
     startCaptivePortal
   else
     modify (set_isBlinking true) ;;
     connectToWiFi) ;;
  networkDiagnostics.

(** lines 100-105: the blink cadence chosen on this pass. *)
Definition currentInterval : M Z :=
  cfg <- gets config ;;
  if negb (configured cfg) then ret blinkInterval
  else
    st <- WiFi_status ;;
    sc <- gets serverConnected ;;
    ret (if is_connected st && negb sc then serverBlinkInterval else blinkInterval).

Definition indicator_tick : M unit :=
  b <- gets isBlinking ;;
  when b (
    interval <- currentInterval ;;
    blinkLED false interval).

(** lines 108-117 *)
Definition reset_button_check : M unit :=
  l <- digitalRead bootButtonPin ;;
  rt <- gets resetTriggered ;;
  if level_eqb l LOW && negb rt then
    t0 <- gets buttonPressStartTime ;;
    if t0 =? 0 then
      now <- millis ;;
      modify (set_buttonPressStartTime now)
    else
      now <- millis ;;
      t0 <- gets buttonPressStartTime ;;
      when (usub now t0 >? 3000) triggerReset
  else modify (set_buttonPressStartTime 0).

(** lines 122-149 *)
Definition periodic_server_check : M unit :=
  now <- millis ;;
  last <- gets lastServerCheckTime ;;
  when (usub now last >? serverCheckInterval) (
    now <- millis ;;
    modify (set_lastServerCheckTime now) ;;
    serverIP <- discoverServer ;;
    if isEmpty serverIP then
      sc <- gets serverConnected ;;
      b <- gets isBlinking ;;
      when (sc || negb b) (
        modify (set_serverConnected false) ;;
        modify (set_isBlinking true))
    else
      sc <- gets serverConnected ;;
      when (negb sc) (
        modify (set_serverConnected true) ;;
        b <- gets isBlinking ;;
        when b (blinkLED true 0))).

(** line 152: the test that guards the toggle *)
Definition alert_button_due : M bool :=
  sc <- gets serverConnected ;;
  l <- digitalRead buttonPin ;;
  now <- millis ;;
  last <- gets lastDebounceTime ;;
  ret (sc && level_eqb l LOW && (usub now last >? debounceDelay)).

(** lines 151-156 *)
Definition alert_button_check : M unit :=
  due <- alert_button_due ;;
  when due (
    now <- millis ;;
    modify (set_lastDebounceTime now) ;;
    toggleAlertState).

(** lines 157-164 *)
Definition periodic_reconnect : M unit :=
  now <- millis ;;
  last <- gets lastServerCheckTime ;;
  when (usub now last >? serverCheckInterval) (
    now <- millis ;;
    modify (set_lastServerCheckTime now) ;;
    _ <- reconnectWiFi ;;
    ret tt).

(** lines 119-164 *)
Definition connection_tick : M unit :=
  cfg <- gets config ;;
  st <- WiFi_status ;;
  if configured cfg && is_connected st then
    periodic_server_check ;;
    alert_button_check
  else
    cfg <- gets config ;;
    st <- WiFi_status ;;
    when (configured cfg && negb (is_connected st)) periodic_reconnect.

(** lines 166-170 *)
Definition portal_tick : M unit :=
  cfg <- gets config ;;
  when (negb (configured cfg)) server_handleClient.

(** lines 98-171 *)
Definition loop : M unit :=
  indicator_tick ;;
  reset_button_check ;;
  connection_tick ;;
  portal_tick.

(** The scheduler calls [loop()] again and again; [gap] milliseconds pass
    before each call. *)
Definition advance (gap : Z) : M unit := delay gap.

Fixpoint run_loop (gaps : list Z) : M unit :=
  match gaps with
  | [] => ret tt
  | gap :: rest => advance gap ;; loop ;; run_loop rest
  end.

End Firmware.

(** The machine at power-on: the globals as their initialisers leave them
    (line 44: [config] is zero-initialised), the EEPROM holding [flash]. *)
Definition power_on (flash : Config) : State :=
  {| config := blank; alertState := false; lastDebounceTime := 0;
     buttonPressStartTime := 0; resetTriggered := false;
     serverConnected := false; isBlinking := false; lastBlinkTime := 0;
     ledState := false; lastServerCheckTime := 0;
     clock := 0; udp_polls := 0%nat; udp_rx := []; http_reqs := 0%nat;
     portal_polls := 0%nat; eeprom_buf := blank; eeprom_flash := flash;
     led_out := LOW; trace := [] |}.

(** The monad's operations and the runtime's primitives compute as soon as
    they are handed a state. *)
Arguments ret {A} a s /.
Arguments bind {A B} m f s /.
Arguments gets {A} f s /.
Arguments modify f s /.
Arguments halt {A} s /.
Arguments log e s /.
Arguments millis s /.
Arguments delay ms s /.
Arguments digitalRead env pin s /.
Arguments digitalWrite pin l s /.
Arguments WiFi_status env s /.
Arguments udp_broadcast host port payload s /.
Arguments udp_parsePacket env s /.
Arguments udp_read n s /.
Arguments http_POST env body s /.
Arguments EEPROM_begin s /.
Arguments EEPROM_get s /.
Arguments EEPROM_put c s /.
Arguments EEPROM_commit s /.
Arguments ESP_restart {A} s /.

(** * What the theorems are stated with *)

(** ** Observations *)

(** What the sketch has done to the outside so far, oldest first. *)
Definition history (s : State) : list Event := rev (trace s).

(** The bodies of the alert requests in a trace, oldest first. *)
Fixpoint posted (tr : list Event) : list string :=
  match tr with
  | [] => []
  | EvHttpPost body :: rest => posted rest ++ [body]
  | _ :: rest => posted rest
  end.

(** Events that change what is stored or restart the device. *)
Definition persists (e : Event) : bool :=
  match e with
  | EvEepromPut _ | EvEepromCommit | EvRestart => true
  | _ => false
  end.

(** The request datagram of lines 311-313. *)
Definition request : Event := EvUdpBroadcast "255.255.255.255" UDP_PORT UDP_REQUEST.

(** What [triggerReset()] does to the outside. *)
Definition reset_events : list Event :=
  [EvDigitalWrite ledPin HIGH; EvEepromPut blank; EvEepromCommit;
   EvDigitalWrite ledPin LOW; EvRestart].

(** The body of the [k]-th alert request as line 235 builds it from the
    configuration [c]. *)
Definition alert_body (env : Env) (k : nat) (c : Config) : string :=
  String.append "name=" (String_deviceName c (beyond_config env k)).

(** The address text read out of a datagram: at most 15 bytes, up to a NUL. *)
Definition address_of (p : list byte) : string := String_of_cbuf (firstn 15 p).

(** A reply as section 6 of the specification frames it: ASCII address text,
    at most 15 bytes, no NUL inside. *)
Definition well_framed (p : list byte) : Prop :=
  (List.length p <= 15)%nat /\ Forall (fun b => b <> x00) p.

Definition text_of (p : list byte) : string :=
  string_of_list_ascii (map ascii_of_byte p).

(** The state that [k] polls, the last leaving [rx] in the receive buffer,
    [dt] milliseconds of waiting and [n] requests leave behind. *)
Definition polled (k : nat) (rx : list byte) (dt : Z) (n : nat) (s : State) : State :=
  set_trace (repeat request n ++ trace s)
    (set_clock (clock s + dt)
       (set_udp_rx rx (set_udp_polls (k + udp_polls s) s))).

Arguments polled k rx dt n s /.

(** The state after [ledState = l; digitalWrite(ledPin, l ? HIGH : LOW)]. *)
Definition led_written (l : bool) (s : State) : State :=
  set_led_out (level_of_bool l)
    (set_trace (EvDigitalWrite ledPin (level_of_bool l) :: trace s)
       (set_ledState l s)).

(** ** What the environment has in store *)

(** The first of the [n] polls from poll [k] on that finds a datagram, with
    its offset: what a wait of [n] polls will see. *)
Fixpoint first_packet (env : Env) (k n : nat) : option (nat * list byte) :=
  match n with
  | O => None
  | S n' =>
      match udp_packet_at env k with
      | Some (b :: p) => Some (O, b :: p)
      | _ =>
          match first_packet env (S k) n' with
          | Some (j, p) => Some (S j, p)
          | None => None
          end
      end
  end.

(** How many of [n] half-second waits the association loops make from time
    [t] on: as many as it takes the link to come up, [n] at most. *)
Fixpoint link_wait (env : Env) (t : Z) (n : nat) : nat :=
  match n with
  | O => O
  | S n' =>
      if is_connected (wifi_status_at env t) then O
      else S (link_wait env (t + 500) n')
  end.

(** The link status the sketch finds when such a loop is over. *)
Definition link_up_after (env : Env) (t : Z) (n : nat) : bool :=
  is_connected (wifi_status_at env (t + 500 * Z.of_nat (link_wait env t n))).

(** The test that guards [triggerReset()] in lines 108-112: the boot pin
    reads low, no reset is under way, an earlier pass has noted when the
    press began, and more than 3000 ms have gone by since. *)
Definition reset_due (env : Env) (s : State) : bool :=
  level_eqb (digital_in env bootButtonPin (clock s)) LOW
  && negb (resetTriggered s)
  && negb (buttonPressStartTime s =? 0)
  && (usub (wrap32 (clock s)) (buttonPressStartTime s) >? 3000).

(** The alert button is held down for good, nobody touches the boot button,
    the link is up, the server answers every poll with an address and every
    request with a response. *)
Definition held_in_reach (env : Env) : Prop :=
  (forall t, digital_in env buttonPin t = LOW) /\
  (forall t, digital_in env bootButtonPin t = HIGH) /\
  (forall t, wifi_status_at env t = WL_CONNECTED) /\
  (forall k, exists b p,
       udp_packet_at env k = Some (b :: p) /\
       isEmpty (address_of (b :: p)) = false) /\
  (forall k, 0 < http_code_at env k).

(** ** States *)

(** The sketch between two passes, provisioned, connected to the server
    and having just reported an event. *)
Definition settled (s : State) : Prop :=
  configured (config s) = true /\ serverConnected s = true /\
  isBlinking s = false /\ lastDebounceTime s = wrap32 (clock s).

(** The LED shows the alert state. *)
Definition synced (s : State) : Prop :=
  ledState s = alertState s /\ led_out s = level_of_bool (alertState s).

(** The LED shows the alert state whenever it is not blinking. *)
Definition in_step (s : State) : Prop := isBlinking s = false -> synced s.

(** ** A small program logic *)

(** [keeps R m]: however [m] ends, the state it ends in is [R]-related to
    the state it started in. *)
Definition keeps {A} (R : State -> State -> Prop) (m : M A) : Prop :=
  forall s,
    match m s with
    | Ret _ s' => R s s'
    | Rebooted s' => R s s'
    | OutOfFuel => True
    end.

(** [holds P Q m]: started in a state with [P], [m] returns in a state
    with [Q], if it returns. *)
Definition holds {A} (P Q : State -> Prop) (m : M A) : Prop :=
  forall s, P s ->
    match m s with
    | Ret _ s' => Q s'
    | _ => True
    end.

(** [returns m]: [m] comes back to its caller, whatever the state. *)
Definition returns {A} (m : M A) : Prop :=
  forall s, exists a s', m s = Ret a s'.

(** [finishes m]: [m] returns or restarts the device; it does not run on. *)
Definition finishes {A} (m : M A) : Prop :=
  forall s, m s <> OutOfFuel.

(** A field [f] of the state is left as it was. *)
Definition same {A} (f : State -> A) (s s' : State) : Prop := f s' = f s.

(** Time does not run backwards. *)
Definition later (s s' : State) : Prop := clock s <= clock s'.

(** Every event the sketch has added since [s] satisfies [ok]. *)
Definition adds (ok : Event -> bool) (s s' : State) : Prop :=
  exists evs, trace s' = evs ++ trace s /\ Forall (fun e => ok e = true) evs.

(** Neither the LED nor what it should show has been touched. *)
Definition led_same (s s' : State) : Prop :=
  isBlinking s' = isBlinking s /\ ledState s' = ledState s /\
  led_out s' = led_out s /\ alertState s' = alertState s.

(** No alert has been reported between [s] and [s']: the alert state, the
    time of the last report, and the requests sent are as they were. *)
Definition undisturbed (s s' : State) : Prop :=
  alertState s' = alertState s /\
  lastDebounceTime s' = lastDebounceTime s /\
  http_reqs s' = http_reqs s /\
  posted (trace s') = posted (trace s).

(** [calm t0 m]: [m] finishes, takes time rather than gives it, and, run
    after an alert reported at [t0], reports none if it is over within
    [debounceDelay] of [t0]. *)
Definition calm (t0 : Z) {A} (m : M A) : Prop :=
  forall s,
    match m s with
    | Ret _ s' | Rebooted s' =>
        later s s' /\
        (lastDebounceTime s = wrap32 t0 -> t0 <= clock s ->
         clock s' <= t0 + debounceDelay -> undisturbed s s')
    | OutOfFuel => False
    end.

(** ** The specification's words, where the sketch is compared with them *)

(** Sections 3 and 4.4: the connectivity states and the indicator they call
    for. *)
Inductive ConnectivityState : Type :=
| Unprovisioned | Connecting | WifiUpNoServer | WifiUpServerUp | WifiDown.

Inductive IndicatorState : Type :=
| FastBlink | SlowBlink | Solid (l : level).

Definition spec_indicator (c : ConnectivityState) (alert : bool) : IndicatorState :=
  match c with
  | Unprovisioned | Connecting | WifiDown => FastBlink
  | WifiUpNoServer => SlowBlink
  | WifiUpServerUp => Solid (level_of_bool alert)
  end.

(** Section 4.4: the periods of the two blinks. *)
Definition period (i : IndicatorState) : Z :=
  match i with
  | FastBlink => 300
  | SlowBlink => 1000
  | Solid _ => 0
  end.

(** The connectivity state of the sketch between two passes of the loop, in
    the terms the claims give: provisioned or not, link up or not,
    [serverConnected] or not.  (Connecting is the state of [setup()] while it
    waits for the link; no pass of the loop sees it.) *)
Definition connectivity (env : Env) (s : State) : ConnectivityState :=
  if negb (configured (config s)) then Unprovisioned
  else if is_connected (wifi_status_at env (clock s)) then
         if serverConnected s then WifiUpServerUp else WifiUpNoServer
       else WifiDown.

(** What the indicator does on the next pass: it blinks, with the cadence of
    lines 101-103, when [isBlinking] is set, and stays at its level when not. *)
Definition indicator_of (env : Env) (s : State) : IndicatorState :=
  if isBlinking s then
    match currentInterval env s with
    | Ret interval _ =>
        if interval =? serverBlinkInterval then SlowBlink else FastBlink
    | _ => FastBlink
    end
  else Solid (led_out s).

(** "Pure function of (ConnectivityState, AlertState)": whenever the sketch
    is between two passes, the indicator is the one its state calls for. *)
Definition indicator_is_pure : Prop :=
  forall env fuel flash gaps s,
    (setup env fuel ;; run_loop env fuel gaps) (power_on flash) = Ret tt s ->
    indicator_of env s = spec_indicator (connectivity env s) (alertState s).

(** "Send one request encoding deviceLabel and the new AlertState": the new
    alert state can be read off the body of the request a toggle sends. *)
Definition body_encodes_alert_state : Prop :=
  exists decode : string -> bool,
    forall env fuel s s' body,
      toggleAlertState env fuel s = Ret tt s' ->
      posted (trace s') = posted (trace s) ++ [body] ->
      decode body = alertState s'.

(** "A continuously held level yields at most one event", an event sending
    at most one request. *)
Definition held_level_reports_once : Prop :=
  forall env fuel gaps s s',
    (forall t, digital_in env buttonPin t = LOW) ->
    run_loop env fuel gaps s = Ret tt s' ->
    (List.length (posted (trace s')) <= S (List.length (posted (trace s))))%nat.

(** ** Environments and states to run the sketch in *)

Definition door_config : Config :=
  mkConfig (strncpy32 (list_byte_of_string "home"))
           (strncpy32 (list_byte_of_string "secret"))
           (strncpy32 (list_byte_of_string "door")) true.

Definition server_reply : list byte := list_byte_of_string "192.168.1.5".

(** Link up, server answering every poll, every request answered with 200,
    nobody at the buttons, a zero byte behind [config]. *)
Definition env_ready : Env :=
  mkEnv (fun _ _ => HIGH) (fun _ => WL_CONNECTED) (fun _ => Some server_reply)
        (fun _ => 200) (fun _ => None) (fun _ => []).

(** As [env_ready], the server answering the 26th poll only. *)
Definition env_slow_server : Env :=
  mkEnv (fun _ _ => HIGH) (fun _ => WL_CONNECTED)
        (fun k => if (k =? 25)%nat then Some server_reply else None)
        (fun _ => 200) (fun _ => None) (fun _ => []).

(** No link at all. *)
Definition env_offline : Env :=
  mkEnv (fun _ _ => HIGH) (fun _ => WL_DISCONNECTED) (fun _ => None)
        (fun _ => 200) (fun _ => None) (fun _ => []).

(** As [env_ready], with the alert button held down for good. *)
Definition env_button_held : Env :=
  mkEnv (fun pin _ => if pin =? buttonPin then LOW else HIGH)
        (fun _ => WL_CONNECTED) (fun _ => Some server_reply)
        (fun _ => 200) (fun _ => None) (fun _ => []).




(** Link and server are there when the device starts; the link is lost one
    second later. *)
Definition env_link_lost : Env :=
  mkEnv (fun _ _ => HIGH)
        (fun t => if t <? 1000 then WL_CONNECTED else WL_CONNECTION_LOST)
        (fun _ => Some server_reply) (fun _ => 200) (fun _ => None) (fun _ => []).

(** The link drops for half a second just as the button is pressed, and the
    server, found by the periodic check a moment before, keeps silent for
    three seconds after the link is back. *)
Definition env_link_drop : Env :=
  mkEnv (fun pin t =>
           if (pin =? buttonPin) && (10101 <=? t) && (t <=? 10200)
           then LOW else HIGH)
        (fun t =>
           if (10151 <=? t) && (t <? 10651) then WL_CONNECTION_LOST
           else WL_CONNECTED)
        (fun k =>
           if (k =? 0)%nat || (k =? 2)%nat || (63 <=? k)%nat
           then Some server_reply else None)
        (fun _ => 200) (fun _ => None) (fun _ => []).

(** The sketch as [setup()] leaves it when it has found link and server. *)
Definition state_ready : State :=
  {| config := door_config; alertState := false; lastDebounceTime := 0;
     buttonPressStartTime := 0; resetTriggered := false;
     serverConnected := true; isBlinking := false; lastBlinkTime := 0;
     ledState := false; lastServerCheckTime := 0;
     clock := 100; udp_polls := 1%nat; udp_rx := []; http_reqs := 0%nat;
     portal_polls := 0%nat; eeprom_buf := door_config;
     eeprom_flash := door_config; led_out := LOW;
     trace := [EvDigitalWrite ledPin LOW; request;
               EvWifiBegin (ssid door_config) (password door_config);
               EvWifiDisconnect; EvDigitalWrite ledPin LOW] |}.

(** [state_ready] just after an event was reported. *)
Definition state_reported : State := set_lastDebounceTime 100 state_ready.

(** ** Provisioning, discovery and accounting, in closed form *)

(** The configuration [handleSave()] builds from the three fields of the
    form (lines 429-432). *)
Definition saved_config (arg_ssid arg_password arg_deviceName : list byte) : Config :=
  mkConfig (strncpy32 arg_ssid) (strncpy32 arg_password)
           (strncpy32 arg_deviceName) true.

(** What a [char[32]] field holds of the text [x] copied into it: the whole
    text, terminated, when the text is shorter than the field; else its first
    32 bytes and no terminator. *)
Definition stored_as (x buf : list byte) : Prop :=
  List.length buf = 32%nat /\
  if (List.length (c_text x) <? 32)%nat
  then String_of_cbuf buf = String_of_cbuf x
  else buf = firstn 32 x /\ Forall (fun b => b <> x00) buf.

(** Whether a discovery that starts with poll [k] comes back with an
    address: one of its 60 polls finds a datagram, and the text read out of
    the first one found is not empty. *)
Definition server_found (env : Env) (k : nat) : bool :=
  match first_packet env k 60 with
  | Some (_, p) => negb (isEmpty (address_of p))
  | None => false
  end.

(** How many polls a discovery that starts with poll [k] makes. *)
Definition polls_used (env : Env) (k : nat) : nat :=
  match first_packet env k 60 with
  | Some (j, _) => S j
  | None => 60%nat
  end.

(** What can become of a toggle, in the words of section 4.3 of the
    specification: the request was sent and answered; it was sent and no
    response came; the server was not found; the link was down and could
    not be restored. *)
Inductive Fate : Type :=
| Committed | SendFailed | ServerUnreachable | NoConnectivity.

(** What becomes of a toggle once the link is there: the discovery that
    starts with poll [k] decides whether the request, the [n]-th, is sent,
    and the response to it whether the toggle stands. *)
Definition send_fate (env : Env) (k n : nat) : Fate :=
  if server_found env k then
    if http_code_at env n >? 0 then Committed else SendFailed
  else ServerUnreachable.

(** What becomes of a toggle called in state [s], read off the environment:
    the link is up at the call, or it is back within the 5 waits of the
    reconnection, whose own discovery comes before the one that decides, or
    it is not. *)
Definition toggle_fate (env : Env) (s : State) : Fate :=
  if is_connected (wifi_status_at env (clock s)) then
    send_fate env (udp_polls s) (http_reqs s)
  else if link_up_after env (clock s) 5 then
    send_fate env (polls_used env (udp_polls s) + udp_polls s) (http_reqs s)
  else NoConnectivity.

(** Whether a request goes out. *)
Definition sends (f : Fate) : bool :=
  match f with
  | Committed | SendFailed => true
  | ServerUnreachable | NoConnectivity => false
  end.


(** [idle_from t0 m]: run at [t0] or later, [m] finishes, takes time rather
    than gives it, and reports no alert. *)
Definition idle_from (t0 : Z) {A} (m : M A) : Prop :=
  forall s,
    t0 <= clock s ->
    match m s with
    | Ret _ s' | Rebooted s' => later s s' /\ undisturbed s s'
    | OutOfFuel => False
    end.




(** How many of the first [n] alert requests got a response. *)
Fixpoint acked (env : Env) (n : nat) : nat :=
  match n with
  | O => O
  | S k => if http_code_at env k >? 0 then S (acked env k) else acked env k
  end.

(** Events that go out over the radio. *)
Definition on_air (e : Event) : bool :=
  match e with
  | EvUdpBroadcast _ _ _ | EvHttpBegin _ | EvHttpHeader _ _ | EvHttpPost _
  | EvHttpEnd | EvWifiDisconnect | EvWifiBegin _ _ | EvWifiReconnect => true
  | _ => false
  end.

(** The time a run of passes takes the scheduler. *)
Definition total (gaps : list Z) : Z := fold_right Z.add 0 gaps.

(** [takes d m]: [m] finishes, and no more than [d] ms after it started. *)
Definition takes (d : Z) {A} (m : M A) : Prop :=
  forall s,
    match m s with
    | Ret _ s' | Rebooted s' => clock s <= clock s' <= clock s + d
    | OutOfFuel => False
    end.

(** Nothing is waiting to be committed: the flash holds what the EEPROM
    library's buffer holds. *)
Definition durable (s : State) : Prop := eeprom_buf s = eeprom_flash s.

(** The alert state is the parity of the requests that got a response. *)
Definition in_balance (env : Env) (s : State) : Prop :=
  alertState s = Nat.odd (acked env (http_reqs s)).

(** No press of the alert button has been taken between [s] and [s'], and
    nothing has gone out over the radio. *)
Definition off_air (s s' : State) : Prop :=
  alertState s' = alertState s /\
  lastDebounceTime s' = lastDebounceTime s /\
  http_reqs s' = http_reqs s /\
  udp_polls s' = udp_polls s /\
  adds (fun e => negb (on_air e)) s s'.

(** An unprovisioned device with a save request waiting at the portal. *)
Definition env_portal_save : Env :=
  mkEnv (fun _ _ => HIGH) (fun _ => WL_DISCONNECTED) (fun _ => None)
        (fun _ => 200)
        (fun k => if (k =? 2)%nat
                  then Some (PostSave (list_byte_of_string "home")
                                      (list_byte_of_string "secret")
                                      (list_byte_of_string "door"))
                  else None)
        (fun _ => []).

(** The sketch as [setup()] leaves it on a blank device, two passes later. *)
Definition state_portal : State :=
  {| config := blank; alertState := false; lastDebounceTime := 0;
     buttonPressStartTime := 0; resetTriggered := false;
     serverConnected := false; isBlinking := true; lastBlinkTime := 0;
     ledState := false; lastServerCheckTime := 0;
     clock := 200; udp_polls := 0%nat; udp_rx := []; http_reqs := 0%nat;
     portal_polls := 2%nat; eeprom_buf := blank; eeprom_flash := blank;
     led_out := LOW;
     trace := [EvPortalStart; EvSoftAP "EMERGENCY ALERT SETUP";
               EvDigitalWrite ledPin LOW] |}.

(** How long [checkForResetCondition()] takes at power-on when the boot
    button is not held: the 100 ms of line 336 if the pin reads low at
    first, no time if it reads high. *)
Definition boot_check_time (env : Env) : Z :=
  if level_eqb (digital_in env bootButtonPin 0) LOW then 100 else 0.

(** The boot button is up at power-on, or up again 100 ms later. *)
Definition boot_button_free (env : Env) : Prop :=
  digital_in env bootButtonPin (boot_check_time env) = HIGH.

(** The books of the sketch powered on with [flash]: the alert state is in
    balance with the responses, the requests sent so far had the bodies that
    line 235 builds from [flash], the device name in memory is that of
    [flash], and a configuration in memory that is provisioned is [flash]. *)
Definition ledger (env : Env) (flash : Config) (s : State) : Prop :=
  in_balance env s /\
  posted (trace s) =
    map (fun k => alert_body env k flash) (seq 0 (http_reqs s)) /\
  deviceName (config s) = deviceName flash /\
  (configured (config s) = true -> config s = flash).

(** [s] begins with [p]. *)
Fixpoint begins_with (p s : string) : bool :=
  match p with
  | EmptyString => true
  | String a p' =>
      match s with
      | EmptyString => false
      | String b s' => Ascii.eqb a b && begins_with p' s'
      end
  end.

(** What the sketch may do to the outside: drive the LED pin, broadcast the
    discovery request, post a form with a name to an http address, open its
    own access point and answer the portal with 200 or 302. *)
Definition conforms (e : Event) : bool :=
  match e with
  | EvDigitalWrite pin _ => pin =? ledPin
  | EvUdpBroadcast host port payload =>
      String.eqb host "255.255.255.255" && (port =? UDP_PORT)
      && String.eqb payload UDP_REQUEST
  | EvHttpBegin url => begins_with "http://" url
  | EvHttpHeader name value =>
      String.eqb name "Content-Type"
      && String.eqb value "application/x-www-form-urlencoded"
  | EvHttpPost body => begins_with "name=" body
  | EvSoftAP name => String.eqb name "EMERGENCY ALERT SETUP"
  | EvPortalSend code => (code =? 200) || (code =? 302)
  | _ => true
  end.

(** The sketch with the alert button held down, three passes after
    [setup()]: at 601 ms, 1201 ms and 1702 ms. *)
Definition state_pressed_thrice : State :=
  Eval vm_compute in
    match (setup env_button_held 21 ;; run_loop env_button_held 21 [501; 600; 501])
            (power_on door_config) with
    | Ret _ s => s
    | _ => power_on door_config
    end.

(** What is in the flash stays there, or what replaces it is committed. *)
Definition stays_durable (s s' : State) : Prop := durable s -> durable s'.


(** The variable [ledState] says what the LED pin shows. *)
Definition mirrors (s : State) : Prop := led_out s = level_of_bool (ledState s).

(** Link up, nobody answering the discovery request. *)
Definition env_no_server : Env :=
  mkEnv (fun _ _ => HIGH) (fun _ => WL_CONNECTED) (fun _ => None)
        (fun _ => 200) (fun _ => None) (fun _ => []).

(** * Proofs *)

(** ** Arithmetic on [unsigned long] *)

Lemma usub_elapsed c d : 0 <= d < 2 ^ 32 -> usub (wrap32 (c + d)) (wrap32 c) = d.
Proof.
  intros H. unfold usub, wrap32.
  rewrite <- Zminus_mod.
  replace (c + d - c) with d by lia.
  now apply Z.mod_small.
Qed.

(** ** C strings *)

Lemma String_of_cbuf_terminated b :
  String_of_cbuf (b ++ [x00]) = String_of_cbuf b.
Proof.
  induction b as [|c b IH]; simpl; [reflexivity|].
  destruct (Byte.eqb c x00); [reflexivity|]. now rewrite IH.
Qed.

Lemma String_of_cbuf_text p :
  Forall (fun b => b <> x00) p -> String_of_cbuf p = text_of p.
Proof.
  induction 1 as [|c p Hc _ IH]; simpl; [reflexivity|].
  destruct (Byte.eqb c x00) eqn:E.
  - apply Byte.byte_dec_bl in E. contradiction.
  - unfold text_of in *. simpl. now rewrite IH.
Qed.

Lemma address_of_well_framed p : well_framed p -> address_of p = text_of p.
Proof.
  intros [Hlen Hnul]. unfold address_of.
  rewrite firstn_all2 by exact Hlen.
  now apply String_of_cbuf_text.
Qed.

(** ** Running the sketch symbolically *)

Lemma while_S {L R} f (cond : L -> M bool) (body : L -> M (Flow L R)) l :
  while (S f) cond body l =
  (c <- cond l ;;
   if c then
     r <- body l ;;
     match r with
     | Continue l' => while f cond body l'
     | Return r => ret (Return r)
     end
   else ret (Continue l)).
Proof. reflexivity. Qed.

Ltac step :=
  cbn [bind ret gets modify halt when log millis delay digitalRead digitalWrite
       WiFi_status udp_broadcast udp_parsePacket udp_read http_POST
       EEPROM_begin EEPROM_get EEPROM_put EEPROM_commit ESP_restart
       set_config set_alertState set_lastDebounceTime set_buttonPressStartTime
       set_resetTriggered set_serverConnected set_isBlinking set_lastBlinkTime
       set_ledState set_lastServerCheckTime set_clock set_udp_polls set_udp_rx
       set_http_reqs set_portal_polls set_eeprom_buf set_eeprom_flash
       set_led_out set_trace
       config alertState lastDebounceTime buttonPressStartTime resetTriggered
       serverConnected isBlinking lastBlinkTime ledState lastServerCheckTime
       clock udp_polls udp_rx http_reqs portal_polls eeprom_buf eeprom_flash
       led_out trace negb andb orb is_connected level_eqb isEmpty].

(** The same, with the states discovery leaves behind written out. *)
Ltac run :=
  cbn [polled]; step;
  repeat (progress change (ledPin =? ledPin) with true; step).

Lemma state_ext (s s' : State) :
  config s = config s' ->
  alertState s = alertState s' ->
  lastDebounceTime s = lastDebounceTime s' ->
  buttonPressStartTime s = buttonPressStartTime s' ->
  resetTriggered s = resetTriggered s' ->
  serverConnected s = serverConnected s' ->
  isBlinking s = isBlinking s' ->
  lastBlinkTime s = lastBlinkTime s' ->
  ledState s = ledState s' ->
  lastServerCheckTime s = lastServerCheckTime s' ->
  clock s = clock s' ->
  udp_polls s = udp_polls s' ->
  udp_rx s = udp_rx s' ->
  http_reqs s = http_reqs s' ->
  portal_polls s = portal_polls s' ->
  eeprom_buf s = eeprom_buf s' ->
  eeprom_flash s = eeprom_flash s' ->
  led_out s = led_out s' ->
  trace s = trace s' ->
  s = s'.
Proof. destruct s, s'. cbn. intros. subst. reflexivity. Qed.

Ltac same_state :=
  run;
  repeat match goal with
         | |- Ret _ _ = Ret _ _ => f_equal
         | |- Rebooted _ = Rebooted _ => f_equal
         | |- Continue _ = Continue _ => f_equal
         | |- Return _ = Return _ => f_equal
         | |- @eq State _ _ => apply state_ext; run
         end;
  try reflexivity; try lia; try congruence.

Lemma packet_size_nonzero (b : byte) (p : list byte) :
  negb (Z.of_nat (List.length (b :: p)) =? 0) = true.
Proof. cbn [List.length]. rewrite Nat2Z.inj_succ. destruct (Z.eqb_spec (Z.succ (Z.of_nat (List.length p))) 0); [lia | reflexivity]. Qed.

(** ** Discovery *)

Section Discovery.

Variable env : Env.

Lemma await_reply_timeout f start s :
  (usub (wrap32 (clock s)) start <? 1000) = false ->
  await_reply env (S f) start s = Ret (Continue tt) s.
Proof.
  intros H. unfold await_reply. rewrite while_S. step. rewrite H. reflexivity.
Qed.

Lemma await_reply_packet f start s b p :
  (usub (wrap32 (clock s)) start <? 1000) = true ->
  udp_packet_at env (udp_polls s) = Some (b :: p) ->
  await_reply env (S f) start s =
  Ret (Return (address_of (b :: p))) (polled 1 (skipn 15 (b :: p)) 0 0 s).
Proof.
  intros H Hp. unfold await_reply. rewrite while_S. step. rewrite H. step.
  rewrite Hp. step. rewrite packet_size_nonzero. step.
  rewrite String_of_cbuf_terminated. unfold address_of, polled. step.
  cbn [repeat app]. same_state.
Qed.

Lemma await_reply_idle f start s :
  (usub (wrap32 (clock s)) start <? 1000) = true ->
  (udp_packet_at env (udp_polls s) = None \/
   udp_packet_at env (udp_polls s) = Some []) ->
  await_reply env (S f) start s =
  await_reply env f start (polled 1 [] 50 0 s).
Proof.
  intros H Hp. unfold await_reply at 1. rewrite while_S. step. rewrite H. step.
  destruct Hp as [-> | ->]; step; cbn [List.length Z.of_nat Z.eqb negb];
    unfold polled; cbn [repeat app]; step; unfold await_reply; same_state.
Qed.

Lemma polled_nothing s : polled 0 (udp_rx s) 0 0 s = s.
Proof. destruct s. unfold polled. step. cbn [repeat app Nat.add]. same_state. Qed.

Lemma polled_polled k1 rx1 dt1 n1 k2 rx2 dt2 n2 s :
  polled k2 rx2 dt2 n2 (polled k1 rx1 dt1 n1 s) =
  polled (k2 + k1) rx2 (dt1 + dt2) (n2 + n1) s.
Proof.
  unfold polled. step. rewrite repeat_app, <- app_assoc. same_state.
Qed.

Lemma polled_ext k k' rx dt dt' n n' s :
  k = k' -> dt = dt' -> n = n' -> polled k rx dt n s = polled k' rx dt' n' s.
Proof. now intros -> -> ->. Qed.

Lemma first_packet_bound n : forall k j p,
  first_packet env k n = Some (j, p) -> (j < n)%nat.
Proof.
  induction n as [|n IH]; intros k j p; cbn [first_packet]; [discriminate|].
  destruct (udp_packet_at env k) as [[|b q]|];
    try (destruct (first_packet env (S k) n) as [[j' p']|] eqn:E;
         [specialize (IH _ _ _ E)|]);
    intros [= <- <-] || discriminate; lia.
Qed.

Lemma first_packet_head k n b p :
  udp_packet_at env k = Some (b :: p) ->
  first_packet env k (S n) = Some (0%nat, b :: p).
Proof. intros E. cbn [first_packet]. now rewrite E. Qed.

Lemma first_packet_app a : forall k b,
  first_packet env k (a + b) =
  match first_packet env k a with
  | Some r => Some r
  | None =>
      match first_packet env (a + k) b with
      | Some (j, p) => Some ((a + j)%nat, p)
      | None => None
      end
  end.
Proof.
  induction a as [|a IH]; intros k b; cbn [first_packet Nat.add].
  - destruct (first_packet env k b) as [[j p]|]; reflexivity.
  - rewrite IH, <- plus_n_Sm.
    destruct (udp_packet_at env k) as [[|c q]|]; try reflexivity;
      destruct (first_packet env (S k) a) as [[j p]|]; try reflexivity;
      destruct (first_packet env (S (a + k)) b) as [[j p]|]; reflexivity.
Qed.

(** A wait window that has [n] polls left sees what the next [n] polls hold. *)
Lemma await_reply_window n :
  forall i f s c0,
    (i + n = 20)%nat -> (n < f)%nat -> clock s = c0 + 50 * Z.of_nat i ->
    await_reply env f (wrap32 c0) s =
    match first_packet env (udp_polls s) n with
    | Some (j, p) =>
        Ret (Return (address_of p))
            (polled (S j) (skipn 15 p) (50 * Z.of_nat j) 0 s)
    | None =>
        Ret (Continue tt)
            (polled n (match n with O => udp_rx s | _ => [] end)
                    (50 * Z.of_nat n) 0 s)
    end.
Proof.
  induction n as [|n IH]; intros i f s c0 Hi Hf Hc;
    (destruct f as [|f]; [lia|]).
  - cbn [first_packet]. rewrite await_reply_timeout.
    + change (50 * Z.of_nat 0) with 0. now rewrite polled_nothing.
    + rewrite Hc, usub_elapsed by lia. apply Z.ltb_ge. lia.
  - assert (Hcond : (usub (wrap32 (clock s)) (wrap32 c0) <? 1000) = true).
    { rewrite Hc, usub_elapsed by lia. apply Z.ltb_lt. lia. }
    assert (Hidle : await_reply env (S f) (wrap32 c0) s =
                    await_reply env f (wrap32 c0) (polled 1 [] 50 0 s) ->
                    await_reply env (S f) (wrap32 c0) s =
                    match first_packet env (S (udp_polls s)) n with
                    | Some (j, p) =>
                        Ret (Return (address_of p))
                            (polled (S (S j)) (skipn 15 p)
                                    (50 * Z.of_nat (S j)) 0 s)
                    | None =>
                        Ret (Continue tt)
                            (polled (S n) [] (50 * Z.of_nat (S n)) 0 s)
                    end).
    { intros ->.
      rewrite (IH (S i) f (polled 1 [] 50 0 s) c0); [| lia | lia |].
      - change (udp_polls (polled 1 [] 50 0 s)) with (S (udp_polls s)).
        destruct (first_packet env (S (udp_polls s)) n) as [[j p]|].
        + rewrite polled_polled. f_equal. apply polled_ext; lia.
        + rewrite polled_polled.
          replace (match n with O => udp_rx (polled 1 [] 50 0 s) | _ => [] end)
            with (@nil byte) by (destruct n; reflexivity).
          f_equal. apply polled_ext; lia.
      - change (clock (polled 1 [] 50 0 s)) with (clock s + 50). lia. }
    cbn [first_packet].
    destruct (udp_packet_at env (udp_polls s)) as [[|b p]|] eqn:Hp.
    + rewrite Hidle by (apply await_reply_idle; auto).
      destruct (first_packet env (S (udp_polls s)) n) as [[j p]|]; reflexivity.
    + rewrite (await_reply_packet f _ s b p Hcond Hp). reflexivity.
    + rewrite Hidle by (apply await_reply_idle; auto).
      destruct (first_packet env (S (udp_polls s)) n) as [[j p]|]; reflexivity.
Qed.

(** One attempt: a request, then a window of 20 polls, 1000 ms if none
    answers. *)
Lemma discovery_attempt_spec f attempt s :
  (20 < f)%nat ->
  discovery_attempt env f attempt s =
  match first_packet env (udp_polls s) 20 with
  | Some (j, p) =>
      Ret (Return (address_of p))
          (polled (S j) (skipn 15 p) (50 * Z.of_nat j) 1 s)
  | None => Ret (Continue (attempt + 1)) (polled 20 [] 1000 1 s)
  end.
Proof.
  intros Hf. unfold discovery_attempt. step.
  rewrite (await_reply_window 20 0 f _ (clock s)); [| lia | lia | step; lia].
  step. destruct (first_packet env (udp_polls s) 20) as [[j p]|];
    unfold polled; cbn [repeat app]; same_state.
Qed.

Lemma discovery_attempts_spec f r :
  forall g attempt s,
    (20 < f)%nat -> (r < g)%nat -> attempt + Z.of_nat r = 3 ->
    while g (fun attempt => ret (attempt <? 3)) (discovery_attempt env f)
          attempt s =
    match first_packet env (udp_polls s) (r * 20) with
    | Some (j, p) =>
        Ret (Return (address_of p))
            (polled (S j) (skipn 15 p) (50 * Z.of_nat j) (S (j / 20)) s)
    | None =>
        Ret (Continue 3)
            (polled (r * 20) (match r with O => udp_rx s | _ => [] end)
                    (1000 * Z.of_nat r) r s)
    end.
Proof.
  induction r as [|r IH]; intros g attempt s Hf Hg Ha;
    (destruct g as [|g]; [lia|]); rewrite while_S.
  - assert (attempt = 3) as -> by lia. step. change (3 <? 3) with false.
    cbn [Nat.mul first_packet]. same_state.
  - step. destruct (Z.ltb_spec attempt 3) as [_|]; [|lia]. step.
    rewrite discovery_attempt_spec by exact Hf.
    change (S r * 20)%nat with (20 + r * 20)%nat. rewrite first_packet_app.
    destruct (first_packet env (udp_polls s) 20) as [[j p]|] eqn:E.
    + apply first_packet_bound in E.
      rewrite (Nat.div_small j 20) by exact E. reflexivity.
    + rewrite (IH g (attempt + 1) _ Hf) by lia.
      change (udp_polls (polled 20 [] 1000 1 s)) with (20 + udp_polls s)%nat.
      destruct (first_packet env (20 + udp_polls s) (r * 20)) as [[j p]|].
      * rewrite polled_polled.
        replace ((20 + j) / 20)%nat with (S (j / 20)).
        2:{ change (20 + j)%nat with (1 * 20 + j)%nat.
            rewrite Nat.div_add_l by lia. reflexivity. }
        f_equal. apply polled_ext; lia.
      * rewrite polled_polled.
        replace (match r with O => udp_rx (polled 20 [] 1000 1 s) | _ => [] end)
          with (@nil byte) by (destruct r; reflexivity).
        f_equal. apply polled_ext; lia.
Qed.

(** The whole of [improvedDiscoverServer], as one equation. *)
Lemma improvedDiscoverServer_spec f s :
  (20 < f)%nat ->
  improvedDiscoverServer env f s =
  match first_packet env (udp_polls s) 60 with
  | Some (j, p) =>
      Ret (address_of p)
          (polled (S j) (skipn 15 p) (50 * Z.of_nat j) (S (j / 20)) s)
  | None => Ret EmptyString (polled 60 [] 3000 3 s)
  end.
Proof.
  intros Hf. unfold improvedDiscoverServer. step.
  rewrite (discovery_attempts_spec f 3) by lia.
  change (3 * 20)%nat with 60%nat.
  destruct (first_packet env (udp_polls s) 60) as [[j p]|]; reflexivity.
Qed.

End Discovery.

(** ** Association *)

Section Association.

Variable env : Env.

Lemma link_wait_bound n : forall t, (link_wait env t n <= n)%nat.
Proof.
  induction n as [|n IH]; intros t; cbn [link_wait]; [lia|].
  destruct (is_connected (wifi_status_at env t)); [lia|].
  specialize (IH (t + 500)). lia.
Qed.

(** If the link is down at every poll, the loop makes all its waits. *)
Lemma link_wait_exhausted n : forall t,
  (forall k, (k < n)%nat ->
             is_connected (wifi_status_at env (t + 500 * Z.of_nat k)) = false) ->
  link_wait env t n = n.
Proof.
  induction n as [|n IH]; intros t H; cbn [link_wait]; [reflexivity|].
  assert (E : is_connected (wifi_status_at env t) = false).
  { specialize (H 0%nat). replace (t + 500 * Z.of_nat 0) with t in H by lia.
    apply H. lia. }
  rewrite E. f_equal. apply IH. intros k Hk.
  replace (t + 500 + 500 * Z.of_nat k) with (t + 500 * Z.of_nat (S k)) by lia.
  apply H. lia.
Qed.

(** A loop that stops early stops because the link is up. *)
Lemma link_wait_early n : forall t,
  (link_wait env t n < n)%nat -> link_up_after env t n = true.
Proof.
  unfold link_up_after.
  induction n as [|n IH]; intros t; cbn [link_wait]; [lia|].
  destruct (is_connected (wifi_status_at env t)) eqn:E.
  - intros _. now replace (t + 500 * Z.of_nat 0) with t by lia.
  - intros H. specialize (IH (t + 500)).
    replace (t + 500 * Z.of_nat (S (link_wait env (t + 500) n)))
      with (t + 500 + 500 * Z.of_nat (link_wait env (t + 500) n)) by lia.
    apply IH. lia.
Qed.

Lemma link_down_exhausted t n :
  link_up_after env t n = false -> link_wait env t n = n.
Proof.
  intros H. pose proof (link_wait_bound n t) as Hle.
  destruct (Nat.eq_dec (link_wait env t n) n) as [|Hne]; [assumption|].
  rewrite link_wait_early in H by lia. discriminate.
Qed.

Lemma await_link_loop limit r :
  forall g attempts s,
    (r < g)%nat -> attempts + Z.of_nat r = limit ->
    while (R := unit) g
          (fun attempts =>
             st <- WiFi_status env ;;
             ret (negb (is_connected st) && (attempts <? limit)))
          (fun attempts => delay 500 ;; ret (Continue (attempts + 1)))
          attempts s =
    Ret (Continue (attempts + Z.of_nat (link_wait env (clock s) r)))
        (set_clock (clock s + 500 * Z.of_nat (link_wait env (clock s) r)) s).
Proof.
  induction r as [|r IH]; intros g attempts s Hg Ha;
    (destruct g as [|g]; [lia|]); rewrite while_S; cbn [link_wait].
  - run. destruct (Z.ltb_spec attempts limit) as [|_]; [lia|].
    rewrite andb_false_r. same_state.
  - run. destruct (Z.ltb_spec attempts limit) as [_|]; [|lia].
    rewrite andb_true_r.
    destruct (is_connected (wifi_status_at env (clock s))); cbn [negb].
    + same_state.
    + run. rewrite IH by lia. same_state.
Qed.

Lemma await_link_spec f (n : nat) s :
  (n < f)%nat ->
  await_link env f (Z.of_nat n) s =
  Ret (Z.of_nat (link_wait env (clock s) n))
      (set_clock (clock s + 500 * Z.of_nat (link_wait env (clock s) n)) s).
Proof.
  intros Hf. unfold await_link.
  unfold bind at 1. rewrite (await_link_loop (Z.of_nat n) n) by lia.
  reflexivity.
Qed.

End Association.

(** ** Rules of the program logic *)

#[export] Instance same_PreOrder {A} (f : State -> A) : PreOrder (same f).
Proof. split; unfold same; congruence. Qed.

#[export] Instance later_PreOrder : PreOrder later.
Proof. split; unfold later; intros ?; intros; lia. Qed.

Section Keeps.

Context {R : State -> State -> Prop} {R_pre : PreOrder R}.

Lemma keeps_ret {A} (a : A) : keeps R (ret a).
Proof. intros s. cbn. reflexivity. Qed.

Lemma keeps_gets {A} (f : State -> A) : keeps R (gets f).
Proof. intros s. cbn. reflexivity. Qed.

Lemma keeps_halt {A} : keeps R (@halt A).
Proof. intros s. cbn. reflexivity. Qed.

Lemma keeps_modify (f : State -> State) :
  (forall s, R s (f s)) -> keeps R (modify f).
Proof. intros H s. apply H. Qed.

Lemma keeps_bind {A B} (m : M A) (f : A -> M B) :
  keeps R m -> (forall a, keeps R (f a)) -> keeps R (bind m f).
Proof.
  intros Hm Hf s. unfold bind. specialize (Hm s).
  destruct (m s) as [a s1| |]; auto.
  specialize (Hf a s1). destruct (f a s1); auto; etransitivity; eauto.
Qed.

Lemma keeps_when (b : bool) (m : M unit) : keeps R m -> keeps R (when b m).
Proof. destruct b; cbn [when]; auto using keeps_ret. Qed.

Lemma keeps_while {L X} fuel (cond : L -> M bool) (body : L -> M (Flow L X)) :
  (forall l, keeps R (cond l)) -> (forall l, keeps R (body l)) ->
  forall l, keeps R (while fuel cond body l).
Proof.
  intros Hc Hb. induction fuel as [|fuel IH]; intros l.
  - intros s. exact I.
  - rewrite while_S. apply keeps_bind; [apply Hc|].
    intros [|]; [|apply keeps_ret].
    apply keeps_bind; [apply Hb|].
    intros [l'|x]; [apply IH | apply keeps_ret].
Qed.

Lemma keeps_result {A} (m : M A) s a s' :
  keeps R m -> m s = Ret a s' -> R s s'.
Proof. intros H E. specialize (H s). now rewrite E in H. Qed.

End Keeps.

Lemma returns_ret {A} (a : A) : returns (ret a).
Proof. intros s. now exists a, s. Qed.

Lemma returns_gets {A} (f : State -> A) : returns (gets f).
Proof. intros s. now exists (f s), s. Qed.

Lemma returns_modify (f : State -> State) : returns (modify f).
Proof. intros s. now exists tt, (f s). Qed.

Lemma returns_bind {A B} (m : M A) (f : A -> M B) :
  returns m -> (forall a, returns (f a)) -> returns (bind m f).
Proof.
  intros Hm Hf s. destruct (Hm s) as (a & s1 & E).
  destruct (Hf a s1) as (b & s2 & E2).
  exists b, s2. unfold bind. now rewrite E.
Qed.

Lemma returns_when (b : bool) (m : M unit) : returns m -> returns (when b m).
Proof. destruct b; cbn [when]; auto using returns_ret. Qed.

Create HintDb sketch.

#[local] Hint Unfold log millis delay digitalRead digitalWrite WiFi_status
  udp_broadcast udp_parsePacket udp_read http_POST EEPROM_begin EEPROM_get
  EEPROM_put EEPROM_commit ESP_restart
  printNetworkInfo networkDiagnostics blinkLED reconnectWiFi flip_alertState
  show_alertState deliver_alert sendAlert toggleAlertState triggerReset
  improvedCaptivePortal startCaptivePortal handleRoot handleSave
  server_handleClient enhancedWiFiConnect connectToWiFi setup currentInterval
  indicator_tick reset_button_check periodic_server_check alert_button_due
  alert_button_check periodic_reconnect connection_tick portal_tick loop
  advance : sketch.

Create HintDb loops.

#[local] Hint Unfold await_reply discovery_attempt improvedDiscoverServer
  discoverServer await_link checkForResetCondition : loops.

(** Walks through the text of a sketch function with the rules above and
    leaves what each assignment has to respect to [leaf]. *)
Ltac keeps_with leaf :=
  repeat autounfold with sketch loops;
  repeat
    (cbv beta;
     match goal with
     | |- keeps _ (bind _ _) => apply keeps_bind; [|intro]
     | |- keeps _ (ret _) => apply keeps_ret
     | |- keeps _ (gets _) => apply keeps_gets
     | |- keeps _ halt => apply keeps_halt
     | |- keeps _ (when _ _) => apply keeps_when
     | |- keeps _ (while _ _ _ _) => apply keeps_while; intro
     | |- keeps _ (modify _) => apply keeps_modify; intro; leaf
     | |- keeps _ (match ?x with _ => _ end) => destruct x
     end).

Ltac unchanged := keeps_with ltac:(exact eq_refl).
Ltac onward := keeps_with ltac:(unfold later; run; lia).


#[export] Instance adds_PreOrder (ok : Event -> bool) : PreOrder (adds ok).
Proof.
  split.
  - intros s. exists []. split; [reflexivity | constructor].
  - intros s1 s2 s3 (e1 & E1 & F1) (e2 & E2 & F2).
    exists (e2 ++ e1). split.
    + now rewrite E2, E1, app_assoc.
    + apply Forall_app. now split.
Qed.

Ltac adds_leaf :=
  first [ exists []; split; [reflexivity | constructor]
        | eexists [_]; split; [reflexivity | repeat constructor] ].

Ltac adding := keeps_with adds_leaf.

(** ** What the network functions leave alone *)

Lemma improvedDiscoverServer_returns env fuel :
  (20 < fuel)%nat -> returns (improvedDiscoverServer env fuel).
Proof.
  intros enough s. rewrite improvedDiscoverServer_spec by exact enough.
  destruct (first_packet env (udp_polls s) 60) as [[j p]|]; eauto.
Qed.

Lemma await_link_returns env fuel (n : nat) :
  (20 < fuel)%nat -> (n <= 20)%nat -> returns (await_link env fuel (Z.of_nat n)).
Proof. intros enough Hn s. rewrite await_link_spec by lia. eauto. Qed.

(** Walks through a sketch function that has no loop of its own. *)
Ltac returning :=
  repeat autounfold with sketch;
  repeat
    (cbv beta;
     match goal with
     | |- returns (bind _ _) => apply returns_bind; [|intro]
     | |- returns (ret _) => apply returns_ret
     | |- returns (gets _) => apply returns_gets
     | |- returns (modify _) => apply returns_modify
     | |- returns (when _ _) => apply returns_when
     | |- returns (discoverServer _ _) =>
         apply improvedDiscoverServer_returns; assumption
     | |- returns (await_link _ _ 5) =>
         apply (await_link_returns _ _ 5); [assumption | lia]
     | |- returns (await_link _ _ 20) =>
         apply (await_link_returns _ _ 20); [assumption | lia]
     | |- returns (match ?x with _ => _ end) => destruct x
     end).

Section Frames.

Variable env : Env.
Variable fuel : nat.
Hypothesis enough : (20 < fuel)%nat.

Lemma reconnectWiFi_returns : returns (reconnectWiFi env fuel).
Proof. returning. Qed.

Lemma toggleAlertState_returns : returns (toggleAlertState env fuel).
Proof. returning. Qed.

Lemma indicator_tick_returns : returns (indicator_tick env).
Proof. returning. Qed.

Lemma connection_tick_returns : returns (connection_tick env fuel).
Proof. returning. Qed.

Lemma reconnectWiFi_alertState : keeps (same alertState) (reconnectWiFi env fuel).
Proof. unchanged. Qed.

Lemma reconnectWiFi_http_reqs : keeps (same http_reqs) (reconnectWiFi env fuel).
Proof. unchanged. Qed.

Lemma reconnectWiFi_config : keeps (same config) (reconnectWiFi env fuel).
Proof. unchanged. Qed.

End Frames.

(** ** Reconnecting and delivering *)

Section Alert.

Variable env : Env.
Variable fuel : nat.
Hypothesis enough : (20 < fuel)%nat.

(** [reconnectWiFi] when the link stays down: lines 262-271 and 292-297. *)
Lemma reconnectWiFi_down s :
  link_up_after env (clock s) 5 = false ->
  reconnectWiFi env fuel s =
  Ret false
      (set_serverConnected false
         (set_clock (clock s + 2500)
            (set_trace (EvWifiReconnect :: trace s) (set_isBlinking true s)))).
Proof.
  intros H. pose proof (link_down_exhausted env _ _ H) as Hk.
  unfold link_up_after in H. rewrite Hk in H.
  unfold reconnectWiFi. run.
  rewrite (await_link_spec env fuel 5) by lia. run.
  rewrite Hk, H. same_state.
Qed.

Lemma reconnectWiFi_up s :
  link_up_after env (clock s) 5 = true ->
  exists s', reconnectWiFi env fuel s = Ret true s'.
Proof.
  intros H. unfold link_up_after in H.
  unfold reconnectWiFi. run.
  rewrite (await_link_spec env fuel 5) by lia. run.
  rewrite H. unfold printNetworkInfo, discoverServer. run.
  rewrite improvedDiscoverServer_spec by exact enough. run.
  destruct (first_packet env (udp_polls s) 60) as [[j p]|];
    [destruct (isEmpty (address_of p))|];
    run; unfold blinkLED; run; eexists; reflexivity.
Qed.

Lemma posted_requests n tr : posted (repeat request n ++ tr) = posted tr.
Proof. induction n as [|n IH]; cbn [repeat app posted request]; auto. Qed.

(** What [deliver_alert] does to the alert state and the requests: it
    leaves the state when a response came, flips it when none came, and
    flips it without a request when the server was not found. *)
Lemma deliver_alert_outcome state s :
  exists s',
    deliver_alert env fuel state s = Ret tt s' /\
    config s' = config s /\
    ((alertState s' = alertState s /\ http_reqs s' = S (http_reqs s) /\
      0 < http_code_at env (http_reqs s) /\
      posted (trace s') = posted (trace s) ++ [alert_body env (http_reqs s) (config s)]) \/
     (alertState s' = negb (alertState s) /\ http_reqs s' = S (http_reqs s) /\
      http_code_at env (http_reqs s) <= 0 /\
      posted (trace s') = posted (trace s) ++ [alert_body env (http_reqs s) (config s)]) \/
     (alertState s' = negb (alertState s) /\ http_reqs s' = http_reqs s /\
      serverConnected s' = false /\
      posted (trace s') = posted (trace s))).
Proof.
  unfold deliver_alert, discoverServer. run.
  rewrite improvedDiscoverServer_spec by exact enough.
  destruct (first_packet env (udp_polls s) 60) as [[j p]|];
    [destruct (isEmpty (address_of p)) eqn:Eip|]; run;
    try rewrite Eip; unfold flip_alertState, show_alertState; run.
  - eexists. split; [reflexivity|]. run. split; [reflexivity|].
    right. right. rewrite posted_requests. auto.
  - destruct (Z.gtb_spec (http_code_at env (http_reqs s)) 0); run;
      (eexists; split; [reflexivity|]); run; (split; [reflexivity|]);
      cbn [posted]; rewrite posted_requests; [left | right; left]; auto.
  - eexists. split; [reflexivity|]. run. split; [reflexivity|].
    right. right. rewrite posted_requests. auto.
Qed.

Lemma reconnectWiFi_posted :
  keeps (same (fun s => posted (trace s))) (reconnectWiFi env fuel).
Proof. unchanged. Qed.

(** Everything a toggle can come to. *)
Lemma toggle_outcome s :
  exists s',
    toggleAlertState env fuel s = Ret tt s' /\
    config s' = config s /\
    ((alertState s' = negb (alertState s) /\
      http_reqs s' = S (http_reqs s) /\ 0 < http_code_at env (http_reqs s) /\
      posted (trace s') = posted (trace s) ++ [alert_body env (http_reqs s) (config s)]) \/
     (alertState s' = alertState s /\
      http_reqs s' = S (http_reqs s) /\ http_code_at env (http_reqs s) <= 0 /\
      posted (trace s') = posted (trace s) ++ [alert_body env (http_reqs s) (config s)]) \/
     (alertState s' = alertState s /\
      http_reqs s' = http_reqs s /\ serverConnected s' = false /\
      posted (trace s') = posted (trace s))).
Proof.
  unfold toggleAlertState, flip_alertState, show_alertState, sendAlert. run.
  destruct (is_connected (wifi_status_at env (clock s))) eqn:Eup; run.
  - match goal with
    | |- context [deliver_alert env fuel ?st ?s1] =>
        destruct (deliver_alert_outcome st s1) as (s' & E & Hc & H)
    end.
    exists s'. split; [exact E|]. cbn in Hc, H. rewrite negb_involutive in H.
    tauto.
  - destruct (link_up_after env (clock s) 5) eqn:Elink.
    + match goal with
      | |- context [reconnectWiFi env fuel ?s1] =>
          destruct (reconnectWiFi_up s1 Elink) as (s2 & E2);
          pose proof (keeps_result _ _ _ _ (reconnectWiFi_alertState env fuel) E2)
            as Ha;
          pose proof (keeps_result _ _ _ _ (reconnectWiFi_http_reqs env fuel) E2)
            as Hh;
          pose proof (keeps_result _ _ _ _ (reconnectWiFi_config env fuel) E2)
            as Hg;
          pose proof (keeps_result _ _ _ _ reconnectWiFi_posted E2) as Hp
      end.
      rewrite E2. run.
      destruct (deliver_alert_outcome (negb (alertState s)) s2)
        as (s' & E & Hc & H).
      exists s'. split; [exact E|].
      unfold same in Ha, Hh, Hg, Hp. cbn in Ha, Hh, Hg, Hp.
      rewrite Ha, Hh, Hg, Hp in H. rewrite Hg in Hc.
      rewrite negb_involutive in H. tauto.
    + rewrite reconnectWiFi_down by exact Elink. run.
      eexists. split; [reflexivity|]. run. split; [reflexivity|].
      right. right. rewrite negb_involutive. auto.
Qed.

End Alert.

(** ** One pass of the loop *)

Section Pass.

Variable env : Env.
Variable fuel : nat.
Hypothesis enough : (20 < fuel)%nat.

Lemma indicator_tick_clock : keeps (same clock) (indicator_tick env).
Proof. unchanged. Qed.

Lemma indicator_tick_press : keeps (same buttonPressStartTime) (indicator_tick env).
Proof. unchanged. Qed.

Lemma indicator_tick_reset : keeps (same resetTriggered) (indicator_tick env).
Proof. unchanged. Qed.

Lemma indicator_tick_config : keeps (same config) (indicator_tick env).
Proof. unchanged. Qed.

Lemma indicator_tick_flash : keeps (same eeprom_flash) (indicator_tick env).
Proof. unchanged. Qed.

Lemma indicator_tick_buf : keeps (same eeprom_buf) (indicator_tick env).
Proof. unchanged. Qed.

Lemma indicator_tick_quiet :
  keeps (adds (fun e => negb (persists e))) (indicator_tick env).
Proof. adding. Qed.

Lemma connection_tick_config : keeps (same config) (connection_tick env fuel).
Proof. unchanged. Qed.

Lemma connection_tick_flash : keeps (same eeprom_flash) (connection_tick env fuel).
Proof. unchanged. Qed.

Lemma connection_tick_buf : keeps (same eeprom_buf) (connection_tick env fuel).
Proof. unchanged. Qed.

Lemma connection_tick_quiet :
  keeps (adds (fun e => negb (persists e))) (connection_tick env fuel).
Proof. adding. Qed.

(** Lines 108-117 when the test is met: [triggerReset()] runs and the sketch
    does not come back. *)
Lemma reset_button_check_fires s :
  reset_due env s = true ->
  reset_button_check env s =
  Rebooted
    (set_trace (rev reset_events ++ trace s)
       (set_resetTriggered true
          (set_led_out LOW
             (set_clock (clock s + 1000)
                (set_eeprom_flash blank (set_eeprom_buf blank s)))))).
Proof.
  unfold reset_due. intros H.
  apply andb_prop in H as [H Ht]. apply andb_prop in H as [H H0].
  apply andb_prop in H as [Hl Hr].
  unfold reset_button_check, triggerReset. run.
  rewrite Hl, Hr. run.
  destruct (buttonPressStartTime s =? 0); [discriminate|]. run.
  rewrite Ht. run. same_state.
Qed.

(** Lines 108-117 when the test is not met: the start of the press is
    noted, kept or forgotten, and nothing else happens. *)
Lemma reset_button_check_idle s :
  reset_due env s = false ->
  exists t0, reset_button_check env s = Ret tt (set_buttonPressStartTime t0 s).
Proof.
  unfold reset_due, reset_button_check. intros H. run.
  destruct (level_eqb (digital_in env bootButtonPin (clock s)) LOW
            && negb (resetTriggered s)) eqn:Eg; run;
    [|eexists; reflexivity].
  destruct (buttonPressStartTime s =? 0) eqn:E0; run; [eexists; reflexivity|].
  cbn [negb andb] in H. rewrite H. run.
  exists (buttonPressStartTime s). same_state.
Qed.

End Pass.

(** ** Passes in which no alert is reported *)

#[export] Instance undisturbed_PreOrder : PreOrder undisturbed.
Proof.
  split.
  - intros s. repeat split.
  - intros s1 s2 s3 (A1 & B1 & C1 & D1) (A2 & B2 & C2 & D2).
    repeat split; congruence.
Qed.

Ltac resting := keeps_with ltac:(repeat split; exact eq_refl).

Lemma finishes_returns {A} (m : M A) : returns m -> finishes m.
Proof. intros H s. destruct (H s) as (a & s' & ->). discriminate. Qed.

Lemma finishes_halt {A} : finishes (@halt A).
Proof. intros s. discriminate. Qed.

Lemma finishes_bind {A B} (m : M A) (f : A -> M B) :
  finishes m -> (forall a, finishes (f a)) -> finishes (bind m f).
Proof.
  intros Hm Hf s. unfold bind. specialize (Hm s).
  destruct (m s) as [a s1| |]; [apply Hf | discriminate | contradiction].
Qed.

Lemma finishes_when (b : bool) (m : M unit) : finishes m -> finishes (when b m).
Proof. destruct b; cbn [when]; auto using finishes_returns, returns_ret. Qed.

Ltac finishing :=
  repeat autounfold with sketch;
  repeat
    (cbv beta;
     match goal with
     | |- finishes (bind _ _) => apply finishes_bind; [|intro]
     | |- finishes (ret _) => apply finishes_returns, returns_ret
     | |- finishes (gets _) => apply finishes_returns, returns_gets
     | |- finishes (modify _) => apply finishes_returns, returns_modify
     | |- finishes halt => apply finishes_halt
     | |- finishes (when _ _) => apply finishes_when
     | |- finishes (discoverServer _ _) =>
         apply finishes_returns, improvedDiscoverServer_returns; assumption
     | |- finishes (await_link _ _ 5) =>
         apply finishes_returns, (await_link_returns _ _ 5); [assumption | lia]
     | |- finishes (match ?x with _ => _ end) => destruct x
     end).

Section Calm.

Variable env : Env.
Variable fuel : nat.
Hypothesis enough : (20 < fuel)%nat.
Variable t0 : Z.

Lemma calm_quiet {A} (m : M A) :
  finishes m -> keeps later m -> keeps undisturbed m -> calm t0 m.
Proof.
  intros Hf Hl Hu s. specialize (Hf s). specialize (Hl s). specialize (Hu s).
  destruct (m s); auto.
Qed.

Lemma calm_bind {A B} (m : M A) (f : A -> M B) :
  calm t0 m -> (forall a, calm t0 (f a)) -> calm t0 (bind m f).
Proof.
  intros Hm Hf s. unfold bind. specialize (Hm s).
  destruct (m s) as [a s1| |]; auto.
  destruct Hm as [L1 U1]. specialize (Hf a s1).
  destruct (f a s1) as [b s2|s2|]; auto; destruct Hf as [L2 U2];
    (split; [etransitivity; eassumption|]);
    intros Hd Ht Hc; unfold later in *;
    (assert (U : undisturbed s s1) by (apply U1; auto; lia));
    (transitivity s1; [exact U|]);
    destruct U as (_ & Hd1 & _); apply U2; try lia; congruence.
Qed.

Lemma calm_ret {A} (a : A) : calm t0 (ret a).
Proof. apply calm_quiet; [apply finishes_returns, returns_ret | | ]; apply keeps_ret. Qed.

Lemma calm_gets {A} (f : State -> A) : calm t0 (gets f).
Proof. apply calm_quiet; [apply finishes_returns, returns_gets | | ]; apply keeps_gets. Qed.

Lemma calm_when (b : bool) (m : M unit) : calm t0 m -> calm t0 (when b m).
Proof. destruct b; cbn [when]; auto using calm_ret. Qed.

Lemma indicator_tick_calm : calm t0 (indicator_tick env).
Proof. apply calm_quiet; [finishing | onward | resting]. Qed.

Lemma reset_button_check_calm : calm t0 (reset_button_check env).
Proof. apply calm_quiet; [finishing | onward | resting]. Qed.

Lemma periodic_server_check_calm : calm t0 (periodic_server_check env fuel).
Proof. apply calm_quiet; [finishing | onward | resting]. Qed.

Lemma periodic_reconnect_calm : calm t0 (periodic_reconnect env fuel).
Proof. apply calm_quiet; [finishing | onward | resting]. Qed.

Lemma portal_tick_calm : calm t0 (portal_tick env).
Proof. apply calm_quiet; [finishing | onward | resting]. Qed.

Lemma toggleAlertState_later : keeps later (toggleAlertState env fuel).
Proof. onward. Qed.

(** Lines 151-156: within [debounceDelay] of the last report the test fails,
    whatever the button reads. *)
Lemma alert_button_check_calm : calm t0 (alert_button_check env fuel).
Proof.
  intros s. unfold alert_button_check, alert_button_due. run.
  destruct (serverConnected s
            && level_eqb (digital_in env buttonPin (clock s)) LOW
            && (usub (wrap32 (clock s)) (lastDebounceTime s) >? debounceDelay))
    eqn:Edue; run.
  - match goal with
    | |- context [toggleAlertState env fuel ?s1] =>
        destruct (toggleAlertState_returns env fuel enough s1) as ([] & s' & E);
        pose proof (keeps_result _ _ _ _ toggleAlertState_later E) as L
    end.
    rewrite E. split; [exact L|].
    intros Hd Ht Hc. exfalso.
    unfold later in L. cbn in L.
    apply andb_prop in Edue as [_ Edue]. rewrite Hd in Edue.
    replace (clock s) with (t0 + (clock s - t0)) in Edue by lia.
    unfold debounceDelay in *.
    rewrite usub_elapsed in Edue by lia.
    apply Z.gtb_lt in Edue. lia.
  - split; reflexivity.
Qed.

Lemma connection_tick_calm : calm t0 (connection_tick env fuel).
Proof.
  unfold connection_tick.
  apply calm_bind; [apply calm_gets | intros cfg].
  apply calm_bind; [apply calm_quiet; [finishing | onward | resting] | intros st].
  destruct (configured cfg && is_connected st).
  - apply calm_bind; [apply periodic_server_check_calm | intros _].
    apply alert_button_check_calm.
  - apply calm_bind; [apply calm_gets | intros cfg'].
    apply calm_bind; [apply calm_quiet; [finishing | onward | resting] | intros st'].
    apply calm_when, periodic_reconnect_calm.
Qed.

Lemma loop_calm : calm t0 (loop env fuel).
Proof.
  unfold loop.
  apply calm_bind; [apply indicator_tick_calm | intros _].
  apply calm_bind; [apply reset_button_check_calm | intros _].
  apply calm_bind; [apply connection_tick_calm | intros _].
  apply portal_tick_calm.
Qed.

Lemma advance_calm gap : 0 <= gap -> calm t0 (advance gap).
Proof.
  intros Hg. apply calm_quiet; [finishing | onward | resting].
Qed.

Lemma run_loop_calm gaps :
  Forall (fun gap => 0 <= gap) gaps -> calm t0 (run_loop env fuel gaps).
Proof.
  induction 1 as [|gap gaps Hg _ IH]; cbn [run_loop]; [apply calm_ret|].
  apply calm_bind; [apply advance_calm, Hg | intros _].
  apply calm_bind; [apply loop_calm | intros _]. exact IH.
Qed.

End Calm.

(** ** Passes with the button held down and everything in reach *)

Section Held.

Variable env : Env.
Variable fuel : nat.
Hypothesis enough : (20 < fuel)%nat.
Hypothesis button_held : forall t, digital_in env buttonPin t = LOW.
Hypothesis boot_free : forall t, digital_in env bootButtonPin t = HIGH.
Hypothesis link_up : forall t, wifi_status_at env t = WL_CONNECTED.
Hypothesis server_answers :
  forall k, exists b p,
      udp_packet_at env k = Some (b :: p) /\ isEmpty (address_of (b :: p)) = false.
Hypothesis server_responds : forall k, 0 < http_code_at env k.

(** Discovery is answered by its first poll. *)
Lemma discovery_answered s :
  exists b p,
    isEmpty (address_of (b :: p)) = false /\
    discoverServer env fuel s =
    Ret (address_of (b :: p)) (polled 1 (skipn 15 (b :: p)) 0 1 s).
Proof.
  destruct (server_answers (udp_polls s)) as (b & p & Ek & Hne).
  exists b, p. split; [exact Hne|].
  unfold discoverServer. rewrite improvedDiscoverServer_spec by exact enough.
  rewrite (first_packet_head env _ 59 b p Ek). reflexivity.
Qed.

Lemma toggle_delivered s :
  serverConnected s = true ->
  exists s',
    toggleAlertState env fuel s = Ret tt s' /\
    alertState s' = negb (alertState s) /\
    http_reqs s' = S (http_reqs s) /\
    posted (trace s') = posted (trace s) ++ [alert_body env (http_reqs s) (config s)] /\
    config s' = config s /\ clock s' = clock s /\
    serverConnected s' = true /\ isBlinking s' = isBlinking s /\
    lastDebounceTime s' = lastDebounceTime s.
Proof.
  intros Hsc.
  unfold toggleAlertState, flip_alertState, show_alertState, sendAlert. run.
  rewrite link_up. run. unfold deliver_alert. run.
  match goal with
  | |- context [discoverServer env fuel ?s1] =>
      destruct (discovery_answered s1) as (b & p & Hne & E)
  end.
  rewrite E. run. rewrite Hne. run.
  destruct (Z.gtb_spec (http_code_at env (http_reqs s)) 0) as [_|Hle];
    [|pose proof (server_responds (http_reqs s)); lia].
  run. eexists. split; [reflexivity|]. run. cbn [posted].
  repeat split; try reflexivity; lia.
Qed.

(** Lines 151-156 with the button down and the debounce time over: the
    event is reported, whatever the button did before. *)
Lemma alert_button_check_held s :
  serverConnected s = true ->
  debounceDelay < usub (wrap32 (clock s)) (lastDebounceTime s) ->
  exists s',
    alert_button_check env fuel s = Ret tt s' /\
    alertState s' = negb (alertState s) /\
    http_reqs s' = S (http_reqs s) /\
    posted (trace s') = posted (trace s) ++ [alert_body env (http_reqs s) (config s)] /\
    config s' = config s /\ clock s' = clock s /\
    serverConnected s' = true /\ isBlinking s' = isBlinking s /\
    lastDebounceTime s' = wrap32 (clock s).
Proof.
  intros Hsc Hd. unfold alert_button_check, alert_button_due. run.
  rewrite Hsc, button_held. run.
  destruct (Z.gtb_spec (usub (wrap32 (clock s)) (lastDebounceTime s)) debounceDelay)
    as [_|]; [|lia].
  run.
  match goal with
  | |- context [toggleAlertState env fuel ?s1] =>
      destruct (toggle_delivered s1 Hsc) as (s' & E & H)
  end.
  exists s'. split; [exact E|]. cbn in H. exact H.
Qed.

(** Lines 122-149 with the server known and answering: nothing changes but
    the time of the last check, the polls and the trace. *)
Lemma periodic_server_check_steady s :
  serverConnected s = true ->
  exists s',
    periodic_server_check env fuel s = Ret tt s' /\
    undisturbed s s' /\
    config s' = config s /\ clock s' = clock s /\
    serverConnected s' = true /\ isBlinking s' = isBlinking s.
Proof.
  intros Hsc. unfold periodic_server_check. run.
  destruct (usub (wrap32 (clock s)) (lastServerCheckTime s) >? serverCheckInterval);
    run.
  - match goal with
    | |- context [discoverServer env fuel ?s1] =>
        destruct (discovery_answered s1) as (b & p & Hne & E)
    end.
    rewrite E. run. rewrite Hne. run. rewrite Hsc. run.
    eexists. split; [reflexivity|]. unfold undisturbed. run.
    repeat split; try reflexivity; try lia; assumption.
  - exists s. repeat split; assumption.
Qed.

(** One pass, [gap] after an event was reported. *)
Lemma held_pass gap s :
  settled s -> debounceDelay < gap < 2 ^ 32 ->
  exists s',
    (advance gap ;; loop env fuel) s = Ret tt s' /\
    settled s' /\ config s' = config s /\
    alertState s' = negb (alertState s) /\
    http_reqs s' = S (http_reqs s) /\
    posted (trace s') = posted (trace s) ++ [alert_body env (http_reqs s) (config s)].
Proof.
  intros (Hc & Hs & Hb & Hd) Hg.
  unfold advance, loop, indicator_tick. run. rewrite Hb. run.
  unfold reset_button_check. run. rewrite boot_free. run.
  unfold connection_tick. run. rewrite Hc, link_up. run.
  match goal with
  | |- context [periodic_server_check env fuel ?s1] =>
      destruct (periodic_server_check_steady s1 Hs)
        as (s2 & E2 & (Ha2 & Hd2 & Hh2 & Hp2) & Hc2 & Ht2 & Hs2 & Hb2)
  end.
  rewrite E2. cbn in Ha2, Hd2, Hh2, Hp2, Hc2, Ht2, Hb2.
  destruct (alert_button_check_held s2 Hs2)
    as (s3 & E3 & Ha3 & Hh3 & Hp3 & Hc3 & Ht3 & Hs3 & Hb3 & Hd3).
  { unfold debounceDelay in *. rewrite Hd2, Hd, Ht2, usub_elapsed; lia. }
  rewrite E3. unfold portal_tick. run.
  rewrite Hc3, Hc2, Hc. run.
  exists s3. split; [reflexivity|]. unfold settled.
  repeat split; congruence.
Qed.

(** As many passes as there are gaps, each reporting an event. *)
Lemma held_run gaps :
  forall s,
    settled s -> Forall (fun gap => debounceDelay < gap < 2 ^ 32) gaps ->
    exists s',
      run_loop env fuel gaps s = Ret tt s' /\
      settled s' /\ config s' = config s /\
      alertState s' =
        (if Nat.even (List.length gaps) then alertState s
         else negb (alertState s)) /\
      http_reqs s' = (http_reqs s + List.length gaps)%nat /\
      posted (trace s') =
        posted (trace s) ++
        map (fun k => alert_body env k (config s))
            (seq (http_reqs s) (List.length gaps)).
Proof.
  induction gaps as [|gap gaps IH]; intros s Hs Hg.
  - exists s. cbn. rewrite app_nil_r, Nat.add_0_r.
    split; [reflexivity|]. split; [exact Hs|]. repeat split.
  - inversion Hg as [|? ? Hgap Hrest]; subst.
    destruct (held_pass gap s Hs Hgap) as (s1 & E1 & Hs1 & Hc1 & Ha1 & Hh1 & Hp1).
    destruct (IH s1 Hs1 Hrest) as (s' & E & Hs' & Hc & Ha & Hh & Hp).
    exists s'. split.
    + cbn [run_loop]. cbn [bind] in E1 |- *.
      destruct (advance gap s) as [[] sa| |]; try discriminate E1.
      cbn [bind] in E1 |- *. rewrite E1. exact E.
    + split; [exact Hs'|]. split; [congruence|].
      rewrite Ha, Hh, Hp, Ha1, Hh1, Hp1, Hc1.
      change (List.length (gap :: gaps)) with (S (List.length gaps)).
      rewrite Nat.even_succ, <- Nat.negb_even, negb_involutive.
      repeat split.
      * destruct (Nat.even (List.length gaps)); cbn [negb];
          now rewrite ?negb_involutive.
      * lia.
      * cbn [seq map]. now rewrite <- app_assoc.
Qed.

End Held.

(** ** The LED and the alert state *)

#[export] Instance led_same_PreOrder : PreOrder led_same.
Proof.
  split.
  - intros s. repeat split.
  - intros s1 s2 s3 (A1 & B1 & C1 & D1) (A2 & B2 & C2 & D2).
    repeat split; congruence.
Qed.

Lemma holds_ret {A} (P : State -> Prop) (a : A) : holds P P (ret a).
Proof. intros s H. exact H. Qed.

Lemma holds_bind {A B} (P Q R : State -> Prop) (m : M A) (f : A -> M B) :
  holds P Q m -> (forall a, holds Q R (f a)) -> holds P R (bind m f).
Proof.
  intros Hm Hf s HP. unfold bind. specialize (Hm s HP).
  destruct (m s) as [a s1| |]; auto. apply Hf, Hm.
Qed.

Lemma holds_when (P : State -> Prop) (b : bool) (m : M unit) :
  holds P P m -> holds P P (when b m).
Proof. destruct b; cbn [when]; auto using holds_ret. Qed.

Lemma holds_result {A} (P Q : State -> Prop) (m : M A) s a s' :
  holds P Q m -> P s -> m s = Ret a s' -> Q s'.
Proof. intros H HP E. specialize (H s HP). now rewrite E in H. Qed.

(** What leaves the LED alone leaves it in step. *)
Lemma in_step_led_same {A} (m : M A) : keeps led_same m -> holds in_step in_step m.
Proof.
  intros H s Hs. specialize (H s). destruct (m s) as [a s'| |]; auto.
  destruct H as (Hb & Hl & Ho & Ha). unfold in_step, synced in *.
  rewrite Hb, Hl, Ho, Ha. exact Hs.
Qed.

Lemma synced_led_same {A} (m : M A) : keeps led_same m -> holds synced synced m.
Proof.
  intros H s Hs. specialize (H s). destruct (m s) as [a s'| |]; auto.
  destruct H as (Hb & Hl & Ho & Ha). unfold synced in *.
  rewrite Hl, Ho, Ha. exact Hs.
Qed.

Section Lockstep.

Variable env : Env.
Variable fuel : nat.
Hypothesis enough : (20 < fuel)%nat.

(** [reconnectWiFi] leaves the alert state alone, and either leaves the LED
    alone and blinking or stops the blink with the LED in step. *)
Lemma reconnectWiFi_led :
  keeps (fun s s' =>
           alertState s' = alertState s /\
           ((isBlinking s' = true /\ ledState s' = ledState s /\
             led_out s' = led_out s) \/
            (isBlinking s' = false /\ synced s')))
        (reconnectWiFi env fuel).
Proof.
  intros s. unfold reconnectWiFi. run.
  rewrite (await_link_spec env fuel 5) by lia. run.
  destruct (is_connected (wifi_status_at env _)); run.
  - unfold printNetworkInfo, discoverServer. run.
    rewrite improvedDiscoverServer_spec by exact enough. run.
    destruct (first_packet env (udp_polls s) 60) as [[j p]|];
      [destruct (isEmpty (address_of p))|]; run; unfold blinkLED; run;
      unfold synced; run; auto 6.
  - auto 6.
Qed.

Lemma deliver_alert_led state : holds synced in_step (deliver_alert env fuel state).
Proof.
  intros s (Hl & Ho). unfold deliver_alert, discoverServer. run.
  rewrite improvedDiscoverServer_spec by exact enough. run.
  destruct (first_packet env (udp_polls s) 60) as [[j p]|];
    [destruct (isEmpty (address_of p))|]; run;
    unfold flip_alertState, show_alertState; run;
    try (intros H; discriminate H).
  destruct (http_code_at env (http_reqs s) >? 0); run;
    intros _; split; run; auto.
Qed.

Lemma sendAlert_led state : holds synced in_step (sendAlert env fuel state).
Proof.
  intros s Hs. unfold sendAlert. run.
  destruct (is_connected (wifi_status_at env (clock s))); run.
  - exact (deliver_alert_led state s Hs).
  - pose proof (reconnectWiFi_led s) as H.
    destruct (reconnectWiFi env fuel s) as [ok s2| |]; run; auto.
    destruct H as (Ha & Hcases). destruct ok; run.
    + apply (deliver_alert_led state s2).
      destruct Hs as (Hl & Ho).
      destruct Hcases as [(_ & Hl2 & Ho2) | (_ & Hs2)]; [|exact Hs2].
      split; congruence.
    + unfold flip_alertState, show_alertState. run. intros _. split; run; auto.
Qed.

Lemma toggleAlertState_led :
  holds (fun _ => True) in_step (toggleAlertState env fuel).
Proof.
  intros s _. unfold toggleAlertState, flip_alertState, show_alertState. run.
  match goal with
  | |- context [sendAlert env fuel ?st ?s1] =>
      exact (sendAlert_led st s1 (conj eq_refl eq_refl))
  end.
Qed.

Lemma indicator_tick_led : holds in_step in_step (indicator_tick env).
Proof.
  intros s Hs. unfold indicator_tick. run.
  destruct (isBlinking s) eqn:Eb; run; [|exact Hs].
  unfold currentInterval, blinkLED. run.
  destruct (configured (config s)); run;
    rewrite ?Eb; unfold when; run;
    repeat match goal with
           | |- context [if ?c then _ else _] => destruct c; run
           end;
    unfold in_step; run; intros H; try (rewrite Eb in H); discriminate H.
Qed.

Lemma reset_button_check_led : holds in_step in_step (reset_button_check env).
Proof.
  intros s Hs. destruct (reset_due env s) eqn:E.
  - now rewrite reset_button_check_fires.
  - destruct (reset_button_check_idle env s E) as (t0 & ->). exact Hs.
Qed.

Lemma periodic_server_check_led :
  holds in_step in_step (periodic_server_check env fuel).
Proof.
  intros s Hs. unfold periodic_server_check. run.
  destruct (usub (wrap32 (clock s)) (lastServerCheckTime s) >? serverCheckInterval);
    run; [|exact Hs].
  unfold discoverServer. rewrite improvedDiscoverServer_spec by exact enough. run.
  destruct (first_packet env (udp_polls s) 60) as [[j p]|];
    [destruct (isEmpty (address_of p))|]; run;
    destruct (serverConnected s); run;
    destruct (isBlinking s) eqn:Eb; run; unfold blinkLED; run;
    unfold in_step, synced in *; run;
    try exact Hs; try (intros H; discriminate H);
    try (intros _; split; reflexivity);
    try (intros _; apply Hs; assumption).
Qed.

Lemma periodic_reconnect_led : holds in_step in_step (periodic_reconnect env fuel).
Proof.
  intros s Hs. unfold periodic_reconnect. run.
  destruct (usub (wrap32 (clock s)) (lastServerCheckTime s) >? serverCheckInterval);
    run; [|exact Hs].
  match goal with
  | |- context [reconnectWiFi env fuel ?s1] =>
      pose proof (reconnectWiFi_led s1) as H;
      destruct (reconnectWiFi env fuel s1) as [ok s2| |]; run; auto
  end.
  destruct H as (_ & [(Hb & _) | (_ & H)]); intros Hn; [congruence | exact H].
Qed.

Lemma alert_button_check_led : holds in_step in_step (alert_button_check env fuel).
Proof.
  intros s Hs. unfold alert_button_check, alert_button_due. run.
  destruct (serverConnected s
            && level_eqb (digital_in env buttonPin (clock s)) LOW
            && (usub (wrap32 (clock s)) (lastDebounceTime s) >? debounceDelay));
    run; [|exact Hs].
  match goal with
  | |- context [toggleAlertState env fuel ?s1] =>
      exact (toggleAlertState_led s1 I)
  end.
Qed.

Lemma holds_gets {A} (P : State -> Prop) (f : State -> A) : holds P P (gets f).
Proof. intros s H. exact H. Qed.

Lemma connection_tick_led : holds in_step in_step (connection_tick env fuel).
Proof.
  unfold connection_tick.
  eapply holds_bind; [apply holds_gets | intros cfg].
  eapply holds_bind; [apply (holds_gets in_step) | intros st].
  destruct (configured cfg && is_connected st).
  - eapply holds_bind; [apply periodic_server_check_led | intros _].
    apply alert_button_check_led.
  - eapply holds_bind; [apply holds_gets | intros cfg'].
    eapply holds_bind; [apply (holds_gets in_step) | intros st'].
    apply holds_when, periodic_reconnect_led.
Qed.

Lemma portal_tick_led : holds in_step in_step (portal_tick env).
Proof. apply in_step_led_same. resting. Qed.

Lemma loop_led : holds in_step in_step (loop env fuel).
Proof.
  unfold loop.
  eapply holds_bind; [apply indicator_tick_led | intros _].
  eapply holds_bind; [apply reset_button_check_led | intros _].
  eapply holds_bind; [apply connection_tick_led | intros _].
  apply portal_tick_led.
Qed.

Lemma run_loop_led gaps : holds in_step in_step (run_loop env fuel gaps).
Proof.
  induction gaps as [|gap gaps IH]; cbn [run_loop]; [apply holds_ret|].
  eapply holds_bind; [apply in_step_led_same; resting | intros _].
  eapply holds_bind; [apply loop_led | intros _]. exact IH.
Qed.

Lemma holds_while {L X} (P : State -> Prop) g (cond : L -> M bool)
      (body : L -> M (Flow L X)) :
  (forall l, holds P P (cond l)) -> (forall l, holds P P (body l)) ->
  forall l, holds P P (while g cond body l).
Proof.
  intros Hc Hb. induction g as [|g IH]; intros l.
  - intros s _. exact I.
  - rewrite while_S. eapply holds_bind; [apply Hc|].
    intros [|]; [|apply holds_ret].
    eapply holds_bind; [apply Hb|].
    intros [l'|x]; [apply IH | apply holds_ret].
Qed.

Lemma triggerReset_reboots s : exists s', triggerReset s = Rebooted s'.
Proof. unfold triggerReset. run. eexists. reflexivity. Qed.

Lemma checkForResetCondition_led :
  holds synced synced (checkForResetCondition env fuel).
Proof.
  unfold checkForResetCondition.
  eapply holds_bind; [apply holds_gets | intros l].
  apply holds_when.
  eapply holds_bind; [apply synced_led_same; resting | intros _].
  eapply holds_bind; [apply holds_gets | intros startTime].
  eapply holds_bind; [|intros _; apply holds_ret].
  apply holds_while; intros _.
  - apply synced_led_same. resting.
  - eapply holds_bind; [apply holds_gets | intros now].
    destruct (usub now startTime >? 3000); [|apply holds_ret].
    intros s _. cbn [bind]. destruct (triggerReset_reboots s) as (s' & ->).
    exact I.
Qed.

Lemma enhancedWiFiConnect_led :
  holds synced in_step (enhancedWiFiConnect env fuel).
Proof.
  intros s (Hl & Ho). unfold enhancedWiFiConnect. run.
  rewrite (await_link_spec env fuel 20) by lia. run.
  destruct (is_connected (wifi_status_at env _)); run.
  - unfold printNetworkInfo, discoverServer. run.
    rewrite improvedDiscoverServer_spec by exact enough. run.
    destruct (first_packet env (udp_polls s) 60) as [[j p]|];
      [destruct (isEmpty (address_of p))|]; run; unfold blinkLED; run;
      unfold in_step, synced; run;
      try (intros H; discriminate H); intros _; split; reflexivity.
  - unfold startCaptivePortal, improvedCaptivePortal. run.
    intros _. split; assumption.
Qed.

(** [setup()] leaves the LED in step, whatever it finds. *)
Lemma setup_led : holds (fun _ => True) in_step (setup env fuel).
Proof.
  intros s _. unfold setup. run.
  match goal with
  | |- context [checkForResetCondition env fuel ?s1] =>
      pose proof (checkForResetCondition_led s1 (conj eq_refl eq_refl)) as H;
      destruct (checkForResetCondition env fuel s1) as [[] s2| |]; run; auto
  end.
  destruct (configured (config s2)); run.
  - unfold connectToWiFi. run.
    match goal with
    | |- context [enhancedWiFiConnect env fuel ?s3] =>
        pose proof (enhancedWiFiConnect_led s3 H) as H3;
        destruct (enhancedWiFiConnect env fuel s3) as [ok s4| |]; run; auto
    end.
  - unfold startCaptivePortal, improvedCaptivePortal. run.
    intros E. discriminate E.
Qed.

(** Whenever the sketch is between two passes and the LED is not blinking,
    the LED shows the alert state. *)
Lemma solid_led_in_step flash gaps s :
  (setup env fuel ;; run_loop env fuel gaps) (power_on flash) = Ret tt s ->
  in_step s.
Proof.
  apply (holds_result (fun _ => True) in_step); [|exact I].
  eapply holds_bind; [apply setup_led | intros _]. apply run_loop_led.
Qed.

End Lockstep.

(** ** One pass of the loop, piece by piece *)

(** Lines 100-105: the pass leaves the LED alone or inverts it. *)
Lemma indicator_tick_effect env s :
  indicator_tick env s = Ret tt s \/
  indicator_tick env s =
  Ret tt (led_written (negb (ledState s)) (set_lastBlinkTime (wrap32 (clock s)) s)).
Proof.
  unfold indicator_tick, currentInterval, blinkLED. run.
  destruct (isBlinking s) eqn:Eb; run; [|left; same_state].
  destruct (configured (config s)); run;
    [destruct (is_connected (wifi_status_at env (clock s)) && negb (serverConnected s))|];
    change (serverBlinkInterval >? 0) with true;
    change (blinkInterval >? 0) with true; cbv iota; rewrite ?Eb; run;
    match goal with
    | |- context [usub ?a ?b >? ?p] => destruct (usub a b >? p)
    end; run; [right | left | right | left | right | left];
    unfold led_written; same_state.
Qed.

(** Neither outcome of lines 100-105 bears on the reset test. *)
Lemma reset_due_blink env s :
  reset_due env
    (led_written (negb (ledState s)) (set_lastBlinkTime (wrap32 (clock s)) s))
  = reset_due env s.
Proof. reflexivity. Qed.

(** Lines 119-164 on an unprovisioned device: nothing. *)
Lemma connection_tick_unprovisioned env fuel s :
  configured (config s) = false -> connection_tick env fuel s = Ret tt s.
Proof.
  intros H. unfold connection_tick. run. repeat (rewrite H; run). reflexivity.
Qed.

(** Lines 166-170 on a provisioned device: nothing. *)
Lemma portal_tick_provisioned env s :
  configured (config s) = true -> portal_tick env s = Ret tt s.
Proof. intros H. unfold portal_tick. run. rewrite H. run. reflexivity. Qed.

(** The events a written-out trace has on top of [base]. *)
Ltac trace_prefix t base :=
  lazymatch t with
  | base => constr:(@nil Event)
  | ?e :: ?r => let p := trace_prefix r base in constr:(e :: p)
  end.

Ltac adds_explicit :=
  unfold adds, reset_events; cbn [rev app]; run;
  lazymatch goal with
  | |- exists evs, ?t = evs ++ ?base /\ _ =>
      let p := trace_prefix t base in
      exists p; split; [reflexivity | repeat constructor]
  end.

(** ** How long the sketch blocks *)

Lemma takes_ret {A} d (a : A) : 0 <= d -> takes d (ret a).
Proof. intros H s. cbn. lia. Qed.

Lemma takes_gets {A} d (f : State -> A) : 0 <= d -> takes d (gets f).
Proof. intros H s. cbn. lia. Qed.

Lemma takes_halt {A} d : 0 <= d -> takes d (@halt A).
Proof. intros H s. cbn. lia. Qed.

Lemma takes_modify d (f : State -> State) :
  (forall s, clock s <= clock (f s) <= clock s + d) -> takes d (modify f).
Proof. intros H s. apply H. Qed.

Lemma takes_delay d ms : 0 <= ms <= d -> takes d (delay ms).
Proof. intros H s. cbn. lia. Qed.

Lemma takes_seq {A B} d1 d (m : M A) (f : A -> M B) :
  takes d1 m -> (forall a, takes (d - d1) (f a)) -> 0 <= d - d1 ->
  takes d (bind m f).
Proof.
  intros Hm Hf Hd s. unfold bind. specialize (Hm s).
  destruct (m s) as [a s1|s1|]; [|lia|exact Hm].
  specialize (Hf a s1). destruct (f a s1); [lia|lia|exact Hf].
Qed.

Lemma takes_when d (b : bool) (m : M unit) :
  0 <= d -> takes d m -> takes d (when b m).
Proof. destruct b; cbn [when]; auto using takes_ret. Qed.

Lemma takes_le {A} d d' (m : M A) : takes d m -> d <= d' -> takes d' m.
Proof. intros H Hd s. specialize (H s). destruct (m s); [lia|lia|exact H]. Qed.

Lemma improvedDiscoverServer_takes env fuel :
  (20 < fuel)%nat -> takes 3000 (discoverServer env fuel).
Proof.
  intros enough s. unfold discoverServer.
  rewrite improvedDiscoverServer_spec by exact enough.
  destruct (first_packet env (udp_polls s) 60) as [[j p]|] eqn:E; run; [|lia].
  apply first_packet_bound in E. lia.
Qed.

Lemma await_link_takes env fuel (n : nat) :
  (n < fuel)%nat -> takes (500 * Z.of_nat n) (await_link env fuel (Z.of_nat n)).
Proof.
  intros Hn s. rewrite await_link_spec by exact Hn. run.
  pose proof (link_wait_bound env n (clock s)). lia.
Qed.

Create HintDb blocking.

#[local] Hint Unfold log millis digitalRead digitalWrite WiFi_status
  udp_broadcast udp_parsePacket udp_read http_POST EEPROM_begin EEPROM_get
  EEPROM_put EEPROM_commit ESP_restart printNetworkInfo networkDiagnostics
  blinkLED flip_alertState show_alertState improvedCaptivePortal
  startCaptivePortal handleRoot currentInterval alert_button_due : blocking.

(** The time the sketch's blocking calls are known to take at most. *)
Ltac time_of m :=
  lazymatch m with
  | delay ?ms => constr:(ms)
  | discoverServer _ _ => constr:(3000)
  | await_link _ _ 5 => constr:(2500)
  | reconnectWiFi _ _ => constr:(5500)
  | deliver_alert _ _ _ => constr:(3000)
  | sendAlert _ _ _ => constr:(8500)
  | toggleAlertState _ _ => constr:(8500)
  | periodic_server_check _ _ => constr:(3000)
  | triggerReset => constr:(1000)
  | handleSave _ _ _ => constr:(2000)
  | _ => constr:(0)
  end.

(** Walks through a sketch function, giving each call the time it is known
    to take and what follows it the rest. *)
Ltac timing :=
  repeat autounfold with blocking;
  repeat
    (cbv beta;
     lazymatch goal with
     | |- takes _ (bind ?m _) =>
         let d1 := time_of m in apply (takes_seq d1); [|intro|lia]
     | |- takes _ (ret _) => apply takes_ret; lia
     | |- takes _ (gets _) => apply takes_gets; lia
     | |- takes _ halt => apply takes_halt; lia
     | |- takes _ (delay _) => apply takes_delay; lia
     | |- takes _ (modify _) => apply takes_modify; intro; run; lia
     | |- takes _ (when _ _) => apply takes_when; [lia|]
     | |- takes _ (match ?x with _ => _ end) => destruct x
     | |- takes _ _ => solve [eauto using takes_le with blocking zarith]
     end).

Lemma triggerReset_takes : takes 1000 triggerReset.
Proof. unfold triggerReset. timing. Qed.

Lemma handleSave_takes a b c : takes 2000 (handleSave a b c).
Proof. unfold handleSave. timing. Qed.

#[local] Hint Resolve triggerReset_takes handleSave_takes : blocking.

Lemma portal_tick_takes env : takes 2000 (portal_tick env).
Proof. unfold portal_tick, server_handleClient. timing. Qed.

Section Blocking.

Variable env : Env.
Variable fuel : nat.
Hypothesis enough : (20 < fuel)%nat.

Lemma discoverServer_takes : takes 3000 (discoverServer env fuel).
Proof. apply improvedDiscoverServer_takes, enough. Qed.

Lemma await_link_5_takes : takes 2500 (await_link env fuel 5).
Proof. apply (await_link_takes env fuel 5). lia. Qed.

#[local] Hint Resolve discoverServer_takes await_link_5_takes : blocking.

Lemma reconnectWiFi_takes : takes 5500 (reconnectWiFi env fuel).
Proof. unfold reconnectWiFi. timing. Qed.

#[local] Hint Resolve reconnectWiFi_takes : blocking.

Lemma deliver_alert_takes state : takes 3000 (deliver_alert env fuel state).
Proof. unfold deliver_alert. timing. Qed.

#[local] Hint Resolve deliver_alert_takes : blocking.

Lemma sendAlert_takes state : takes 8500 (sendAlert env fuel state).
Proof.
  unfold sendAlert.
  apply (takes_seq 0); [timing | intro st | lia].
  apply (takes_seq 5500); [destruct (negb (is_connected st)); timing | intro r | lia].
  timing.
Qed.

#[local] Hint Resolve sendAlert_takes : blocking.

Lemma toggleAlertState_takes : takes 8500 (toggleAlertState env fuel).
Proof. unfold toggleAlertState. timing. Qed.

#[local] Hint Resolve toggleAlertState_takes : blocking.

Lemma periodic_server_check_takes : takes 3000 (periodic_server_check env fuel).
Proof. unfold periodic_server_check. timing. Qed.

#[local] Hint Resolve periodic_server_check_takes : blocking.

Lemma alert_button_check_takes : takes 8500 (alert_button_check env fuel).
Proof. unfold alert_button_check. timing. Qed.

Lemma periodic_reconnect_takes : takes 5500 (periodic_reconnect env fuel).
Proof. unfold periodic_reconnect. timing. Qed.

#[local] Hint Resolve alert_button_check_takes periodic_reconnect_takes : blocking.

Lemma connection_tick_takes : takes 11500 (connection_tick env fuel).
Proof. unfold connection_tick. timing. Qed.

End Blocking.

(** ** More on lines 108-117 *)



(** ** Discovery that finds nothing *)

Lemma server_found_none env k :
  server_found env k = false ->
  match first_packet env k 60 with
  | Some (_, p) => isEmpty (address_of p) = true
  | None => True
  end.
Proof.
  unfold server_found.
  destruct (first_packet env k 60) as [[j p]|]; [|trivial].
  destruct (isEmpty (address_of p)); [reflexivity | discriminate].
Qed.

(** ** The body of the request *)

Lemma String_of_cbuf_ends l : forall rest,
  In x00 l -> String_of_cbuf (l ++ rest) = String_of_cbuf l.
Proof.
  induction l as [|c l IH]; intros rest H; [destruct H|].
  cbn [app String_of_cbuf]. destruct (Byte.eqb c x00) eqn:E; [reflexivity|].
  destruct H as [->|H]; [discriminate E|]. now rewrite IH.
Qed.

(** A name that is terminated inside its field is read as it stands. *)
Lemma alert_body_terminated env k c :
  In x00 (deviceName c) ->
  alert_body env k c = String.append "name=" (String_of_cbuf (deviceName c)).
Proof.
  intros H. unfold alert_body, String_deviceName.
  now rewrite String_of_cbuf_ends.
Qed.

(** ** What becomes of a toggle *)

Lemma send_fate_committed env k n :
  send_fate env k n = Committed -> 0 < http_code_at env n.
Proof.
  unfold send_fate. destruct (server_found env k); [|discriminate].
  destruct (Z.gtb_spec (http_code_at env n) 0); [auto | discriminate].
Qed.

Lemma send_fate_failed env k n :
  send_fate env k n = SendFailed -> http_code_at env n <= 0.
Proof.
  unfold send_fate. destruct (server_found env k); [|discriminate].
  destruct (Z.gtb_spec (http_code_at env n) 0); [discriminate | auto].
Qed.

Lemma send_fate_connected env k n : send_fate env k n <> NoConnectivity.
Proof.
  unfold send_fate. destruct (server_found env k); [|discriminate].
  destruct (http_code_at env n >? 0); discriminate.
Qed.

Lemma toggle_fate_committed env s :
  toggle_fate env s = Committed -> 0 < http_code_at env (http_reqs s).
Proof.
  unfold toggle_fate.
  destruct (is_connected (wifi_status_at env (clock s)));
    [|destruct (link_up_after env (clock s) 5); [|discriminate]];
    apply send_fate_committed.
Qed.

Lemma toggle_fate_failed env s :
  toggle_fate env s = SendFailed -> http_code_at env (http_reqs s) <= 0.
Proof.
  unfold toggle_fate.
  destruct (is_connected (wifi_status_at env (clock s)));
    [|destruct (link_up_after env (clock s) 5); [|discriminate]];
    apply send_fate_failed.
Qed.

Section Fated.

Variable env : Env.
Variable fuel : nat.
Hypothesis enough : (20 < fuel)%nat.

(** [reconnectWiFi] when the link comes back: its discovery uses up the
    polls it makes. *)
Lemma reconnectWiFi_up_polls s :
  link_up_after env (clock s) 5 = true ->
  exists s',
    reconnectWiFi env fuel s = Ret true s' /\
    udp_polls s' = (polls_used env (udp_polls s) + udp_polls s)%nat.
Proof.
  intros H. unfold link_up_after in H.
  unfold reconnectWiFi, polls_used. run.
  rewrite (await_link_spec env fuel 5) by lia. run.
  rewrite H. unfold printNetworkInfo, discoverServer. run.
  rewrite improvedDiscoverServer_spec by exact enough. run.
  destruct (first_packet env (udp_polls s) 60) as [[j p]|];
    [destruct (isEmpty (address_of p))|];
    run; unfold blinkLED; run; eexists; split; reflexivity.
Qed.

(** What [deliver_alert] comes to, read off the environment. *)
Lemma deliver_alert_fated state s :
  exists s',
    deliver_alert env fuel state s = Ret tt s' /\
    config s' = config s /\
    (udp_polls s < udp_polls s')%nat /\
    match send_fate env (udp_polls s) (http_reqs s) with
    | Committed =>
        alertState s' = alertState s /\ http_reqs s' = S (http_reqs s) /\
        posted (trace s') =
        posted (trace s) ++ [alert_body env (http_reqs s) (config s)]
    | SendFailed =>
        alertState s' = negb (alertState s) /\ http_reqs s' = S (http_reqs s) /\
        posted (trace s') =
        posted (trace s) ++ [alert_body env (http_reqs s) (config s)]
    | ServerUnreachable | NoConnectivity =>
        alertState s' = negb (alertState s) /\ http_reqs s' = http_reqs s /\
        posted (trace s') = posted (trace s) /\ serverConnected s' = false
    end.
Proof.
  unfold deliver_alert, discoverServer, send_fate, server_found. run.
  rewrite improvedDiscoverServer_spec by exact enough.
  destruct (first_packet env (udp_polls s) 60) as [[j p]|];
    [destruct (isEmpty (address_of p)) eqn:Eip|]; run;
    try rewrite Eip; unfold flip_alertState, show_alertState; run.
  - eexists. split; [reflexivity|]. run. rewrite posted_requests.
    repeat split; lia.
  - destruct (http_code_at env (http_reqs s) >? 0); run;
      (eexists; split; [reflexivity|]); run;
      cbn [posted]; rewrite posted_requests; repeat split; lia.
  - eexists. split; [reflexivity|]. run. rewrite posted_requests.
    repeat split; lia.
Qed.

(** What a toggle comes to, read off the environment. *)
Lemma toggle_fated s :
  exists s',
    toggleAlertState env fuel s = Ret tt s' /\
    config s' = config s /\
    match toggle_fate env s with
    | Committed =>
        alertState s' = negb (alertState s) /\ http_reqs s' = S (http_reqs s) /\
        posted (trace s') =
        posted (trace s) ++ [alert_body env (http_reqs s) (config s)]
    | SendFailed =>
        alertState s' = alertState s /\ http_reqs s' = S (http_reqs s) /\
        posted (trace s') =
        posted (trace s) ++ [alert_body env (http_reqs s) (config s)]
    | ServerUnreachable =>
        alertState s' = alertState s /\ http_reqs s' = http_reqs s /\
        posted (trace s') = posted (trace s) /\ serverConnected s' = false /\
        (udp_polls s < udp_polls s')%nat
    | NoConnectivity =>
        alertState s' = alertState s /\ http_reqs s' = http_reqs s /\
        posted (trace s') = posted (trace s) /\ serverConnected s' = false /\
        udp_polls s' = udp_polls s
    end.
Proof.
  unfold toggleAlertState, flip_alertState, show_alertState, sendAlert, toggle_fate.
  run.
  destruct (is_connected (wifi_status_at env (clock s))) eqn:Eup; run.
  - match goal with
    | |- context [deliver_alert env fuel ?st ?s1] =>
        destruct (deliver_alert_fated st s1) as (s' & E & Hc & Hk & H)
    end.
    exists s'. split; [exact E|]. cbn in Hc, Hk, H. split; [exact Hc|].
    pose proof (send_fate_connected env (udp_polls s) (http_reqs s)) as Hn.
    destruct (send_fate env (udp_polls s) (http_reqs s));
      rewrite ?negb_involutive in H; [tauto | tauto | tauto | congruence].
  - destruct (link_up_after env (clock s) 5) eqn:Elink.
    + match goal with
      | |- context [reconnectWiFi env fuel ?s1] =>
          destruct (reconnectWiFi_up_polls s1 Elink) as (s2 & E2 & Hk2);
          pose proof (keeps_result _ _ _ _ (reconnectWiFi_alertState env fuel) E2)
            as Ha;
          pose proof (keeps_result _ _ _ _ (reconnectWiFi_http_reqs env fuel) E2)
            as Hh;
          pose proof (keeps_result _ _ _ _ (reconnectWiFi_config env fuel) E2)
            as Hg;
          pose proof (keeps_result _ _ _ _ (reconnectWiFi_posted env fuel) E2) as Hp
      end.
      rewrite E2. run.
      destruct (deliver_alert_fated (negb (alertState s)) s2)
        as (s' & E & Hc & Hk & H).
      exists s'. split; [exact E|].
      unfold same in Ha, Hh, Hg, Hp. cbn in Ha, Hh, Hg, Hp, Hk2.
      rewrite Ha, Hh, Hg, Hp, Hk2 in H. rewrite Hg in Hc. split; [exact Hc|].
      pose proof (send_fate_connected env
                    (polls_used env (udp_polls s) + udp_polls s) (http_reqs s))
        as Hn.
      destruct (send_fate env (polls_used env (udp_polls s) + udp_polls s)
                  (http_reqs s));
        rewrite ?negb_involutive in H; [tauto | tauto | | congruence].
      repeat split; try tauto.
      rewrite Hk2 in Hk. lia.
    + rewrite (reconnectWiFi_down env fuel enough) by exact Elink. run.
      eexists. split; [reflexivity|]. run. rewrite negb_involutive.
      repeat split.
Qed.

End Fated.

(** ** Passes with the alert button up *)

Section Idle.

Variable env : Env.
Variable fuel : nat.
Hypothesis enough : (20 < fuel)%nat.
Variable t0 : Z.
Hypothesis button_up : forall t, t0 <= t -> digital_in env buttonPin t = HIGH.

Lemma idle_quiet {A} (m : M A) :
  finishes m -> keeps later m -> keeps undisturbed m -> idle_from t0 m.
Proof.
  intros Hf Hl Hu s _. specialize (Hf s). specialize (Hl s). specialize (Hu s).
  destruct (m s); auto.
Qed.

Lemma idle_bind {A B} (m : M A) (f : A -> M B) :
  idle_from t0 m -> (forall a, idle_from t0 (f a)) -> idle_from t0 (bind m f).
Proof.
  intros Hm Hf s Ht. unfold bind. specialize (Hm s Ht).
  destruct (m s) as [a s1| |]; auto.
  destruct Hm as [L1 U1]. unfold later in L1.
  assert (Ht1 : t0 <= clock s1) by lia. specialize (Hf a s1 Ht1).
  destruct (f a s1) as [b s2|s2|]; auto; destruct Hf as [L2 U2];
    (split; [etransitivity; eassumption | etransitivity; eassumption]).
Qed.

(** Lines 151-156 with the button up: the test fails, whatever the time. *)
Lemma alert_button_check_idle : idle_from t0 (alert_button_check env fuel).
Proof.
  intros s Ht. unfold alert_button_check, alert_button_due. run.
  rewrite (button_up _ Ht). run. rewrite andb_false_r. run.
  split; reflexivity.
Qed.

Lemma connection_tick_idle : idle_from t0 (connection_tick env fuel).
Proof.
  unfold connection_tick.
  apply idle_bind; [apply idle_quiet; [finishing | onward | resting] | intros cfg].
  apply idle_bind; [apply idle_quiet; [finishing | onward | resting] | intros st].
  destruct (configured cfg && is_connected st).
  - apply idle_bind; [apply idle_quiet; [finishing | onward | resting] | intros _].
    apply alert_button_check_idle.
  - apply idle_quiet; [finishing | onward | resting].
Qed.

Lemma loop_idle : idle_from t0 (loop env fuel).
Proof.
  unfold loop.
  apply idle_bind; [apply idle_quiet; [finishing | onward | resting] | intros _].
  apply idle_bind; [apply idle_quiet; [finishing | onward | resting] | intros _].
  apply idle_bind; [apply connection_tick_idle | intros _].
  apply idle_quiet; [finishing | onward | resting].
Qed.

Lemma run_loop_idle gaps :
  Forall (fun gap => 0 <= gap) gaps -> idle_from t0 (run_loop env fuel gaps).
Proof.
  induction 1 as [|gap gaps Hg _ IH]; cbn [run_loop].
  - apply idle_quiet; [finishing | onward | resting].
  - apply idle_bind; [apply idle_quiet; [finishing | onward | resting] | intros _].
    apply idle_bind; [apply loop_idle | intros _]. exact IH.
Qed.

End Idle.

(** ** Passes with the boot button up *)

Section Unpressed.

Variable env : Env.
Variable fuel : nat.





Section Enough.

Hypothesis enough : (20 < fuel)%nat.






End Enough.

End Unpressed.

(** ** Passes with the boot button held down *)




Section Hold.

Variable env : Env.
Variable fuel : nat.
Hypothesis enough : (20 < fuel)%nat.
Variable t1 : Z.
Hypothesis held : forall t, t1 <= t -> digital_in env bootButtonPin t = LOW.
Hypothesis in_range : 0 < t1 < 2 ^ 32.




End Hold.


(** * The claims *)

(** Settles a statement about a concrete run by running it. *)
Ltac by_running :=
  lazymatch goal with
  | |- exists _, _ => eexists; by_running
  | |- _ /\ _ => split; [by_running | by_running]
  | |- _ => vm_compute; reflexivity
  end.

(** ** Discovery *)

Lemma state_ready_reached :
  setup env_ready 21 (power_on door_config) = Ret tt state_ready.
Proof. vm_compute. reflexivity. Qed.

(** C5.  Discovery makes between one and three attempts, each a fresh
    broadcast of the request followed by the same window of 1000 ms; it
    returns the address in the first datagram any of its polls finds, or the
    empty string when the third window has run out, and in every case it is
    back within [3 * 1000] ms. *)
Theorem discovery_bounded (env : Env) (fuel : nat) (s : State) :
  (20 < fuel)%nat ->
  exists ip s' n,
    improvedDiscoverServer env fuel s = Ret ip s' /\
    (1 <= n <= 3)%nat /\
    trace s' = repeat request n ++ trace s /\
    clock s <= clock s' <= clock s + 3 * 1000 /\
    match first_packet env (udp_polls s) 60 with
    | Some (j, p) =>
        ip = address_of p /\ n = S (j / 20) /\
        clock s' = clock s + 1000 * Z.of_nat (j / 20) + 50 * Z.of_nat (j mod 20) /\
        (well_framed p -> ip = text_of p)
    | None =>
        ip = EmptyString /\ n = 3%nat /\ clock s' = clock s + 3 * 1000
    end.
Proof.
  intros Hf. rewrite improvedDiscoverServer_spec by exact Hf.
  destruct (first_packet env (udp_polls s) 60) as [[j p]|] eqn:E.
  - apply first_packet_bound in E.
    assert (Hq : (j / 20 <= 2)%nat).
    { apply Nat.lt_succ_r, Nat.Div0.div_lt_upper_bound. lia. }
    pose proof (Nat.div_mod_eq j 20) as Hj.
    exists (address_of p), (polled (S j) (skipn 15 p) (50 * Z.of_nat j)
                                   (S (j / 20)) s), (S (j / 20)).
    unfold polled. run.
    repeat split; try reflexivity; try lia.
    apply address_of_well_framed.
  - exists EmptyString, (polled 60 [] 3000 3 s), 3%nat.
    unfold polled. run. repeat split; try reflexivity; lia.
Qed.

Lemma discovery_bounded_witness :
  (20 < 21)%nat /\
  exists ip s' n,
    improvedDiscoverServer env_slow_server 21 state_ready = Ret ip s' /\
    (1 <= n <= 3)%nat /\
    trace s' = repeat request n ++ trace state_ready /\
    clock state_ready <= clock s' <= clock state_ready + 3 * 1000 /\
    match first_packet env_slow_server (udp_polls state_ready) 60 with
    | Some (j, p) =>
        ip = address_of p /\ n = S (j / 20) /\
        clock s' = clock state_ready + 1000 * Z.of_nat (j / 20)
                   + 50 * Z.of_nat (j mod 20) /\
        (well_framed p -> ip = text_of p)
    | None =>
        ip = EmptyString /\ n = 3%nat /\ clock s' = clock state_ready + 3 * 1000
    end.
Proof.
  split; [lia | apply (discovery_bounded env_slow_server 21 state_ready); lia].
Defined.

(** ** The alert toggle *)

(** C1.  A toggle always returns, and what it leaves of the alert state is
    decided by the environment alone ([toggle_fate]): the state is negated
    when the request was sent and a response came back; it is as it was
    before the call when the request was sent and no response came
    (transport failure), when the server was not found, and when the link
    was down and could not be restored.  In the first two cases one request
    has gone out, in the last two none, and in the last not even a
    discovery. *)
Theorem toggle_commits_or_reverts (env : Env) (fuel : nat) (s : State) :
  (20 < fuel)%nat ->
  exists s',
    toggleAlertState env fuel s = Ret tt s' /\
    match toggle_fate env s with
    | Committed =>
        alertState s' = negb (alertState s) /\
        http_reqs s' = S (http_reqs s) /\ 0 < http_code_at env (http_reqs s)
    | SendFailed =>
        alertState s' = alertState s /\
        http_reqs s' = S (http_reqs s) /\ http_code_at env (http_reqs s) <= 0
    | ServerUnreachable =>
        alertState s' = alertState s /\
        http_reqs s' = http_reqs s /\ serverConnected s' = false /\
        (udp_polls s < udp_polls s')%nat
    | NoConnectivity =>
        alertState s' = alertState s /\
        http_reqs s' = http_reqs s /\ serverConnected s' = false /\
        udp_polls s' = udp_polls s
    end.
Proof.
  intros Hf. destruct (toggle_fated env fuel Hf s) as (s' & E & _ & H).
  exists s'. split; [exact E|].
  pose proof (toggle_fate_committed env s) as Hc.
  pose proof (toggle_fate_failed env s) as Hn.
  destruct (toggle_fate env s); repeat split; try tauto; auto.
Qed.

Lemma toggle_commits_or_reverts_witness :
  (20 < 21)%nat /\
  exists s',
    toggleAlertState env_ready 21 state_ready = Ret tt s' /\
    match toggle_fate env_ready state_ready with
    | Committed =>
        alertState s' = negb (alertState state_ready) /\
        http_reqs s' = S (http_reqs state_ready) /\
        0 < http_code_at env_ready (http_reqs state_ready)
    | SendFailed =>
        alertState s' = alertState state_ready /\
        http_reqs s' = S (http_reqs state_ready) /\
        http_code_at env_ready (http_reqs state_ready) <= 0
    | ServerUnreachable =>
        alertState s' = alertState state_ready /\
        http_reqs s' = http_reqs state_ready /\ serverConnected s' = false /\
        (udp_polls state_ready < udp_polls s')%nat
    | NoConnectivity =>
        alertState s' = alertState state_ready /\
        http_reqs s' = http_reqs state_ready /\ serverConnected s' = false /\
        udp_polls s' = udp_polls state_ready
    end.
Proof.
  split; [lia | apply (toggle_commits_or_reverts env_ready 21 state_ready); lia].
Defined.

(** C2, as the specification has it, fails: the body of the request does not
    carry the alert state.  Switching the alert on and switching it off send
    the same body, ["name=door"] for the device named door. *)
Lemma body_ignores_alert_state : ~ body_encodes_alert_state.
Proof.
  intros (decode & H).
  assert (Hon : exists s',
             toggleAlertState env_ready 21 state_ready = Ret tt s' /\
             posted (trace s') = posted (trace state_ready) ++ ["name=door"] /\
             alertState s' = true)
    by by_running.
  assert (Hoff : exists s',
             toggleAlertState env_ready 21 (set_alertState true state_ready)
               = Ret tt s' /\
             posted (trace s') =
               posted (trace (set_alertState true state_ready)) ++ ["name=door"] /\
             alertState s' = false)
    by by_running.
  destruct Hon as (s1 & E1 & P1 & A1), Hoff as (s2 & E2 & P2 & A2).
  pose proof (H _ _ _ _ _ E1 P1) as D1.
  pose proof (H _ _ _ _ _ E2 P2) as D2.
  congruence.
Qed.

(** C2, amended.  A toggle sends one request when the link is there and the
    server is found, and none otherwise.  Its body is ["name="] followed by
    the C string that starts at [config.deviceName]: the bytes of the field,
    then [config.configured], then what lies behind [config], as far as the
    first zero byte.  When the field holds its terminator the body is
    ["name="] followed by the device name, and nothing else, whatever the
    alert state. *)
Theorem alert_body_names_device (env : Env) (fuel : nat) (s : State) :
  (20 < fuel)%nat ->
  exists s',
    toggleAlertState env fuel s = Ret tt s' /\
    posted (trace s') =
    posted (trace s) ++
      (if sends (toggle_fate env s)
       then [String.append "name="
               (String_of_cbuf (deviceName (config s)
                                ++ byte_of_bool (configured (config s))
                                   :: beyond_config env (http_reqs s)))]
       else []) /\
    (In x00 (deviceName (config s)) ->
     posted (trace s') =
     posted (trace s) ++
       (if sends (toggle_fate env s)
        then [String.append "name=" (String_of_cbuf (deviceName (config s)))]
        else [])).
Proof.
  intros Hf. destruct (toggle_fated env fuel Hf s) as (s' & E & _ & H).
  exists s'. split; [exact E|].
  assert (Hp : posted (trace s') =
               posted (trace s) ++
                 (if sends (toggle_fate env s)
                  then [alert_body env (http_reqs s) (config s)] else [])).
  { destruct (toggle_fate env s); cbn [sends];
      rewrite ?app_nil_r; tauto. }
  split; [exact Hp|].
  intros Hz. rewrite Hp. now rewrite alert_body_terminated.
Qed.

Lemma alert_body_names_device_witness :
  (20 < 21)%nat /\
  exists s',
    toggleAlertState env_ready 21 state_ready = Ret tt s' /\
    posted (trace s') =
    posted (trace state_ready) ++
      (if sends (toggle_fate env_ready state_ready)
       then [String.append "name="
               (String_of_cbuf
                  (deviceName (config state_ready)
                   ++ byte_of_bool (configured (config state_ready))
                      :: beyond_config env_ready (http_reqs state_ready)))]
       else []) /\
    (In x00 (deviceName (config state_ready)) ->
     posted (trace s') =
     posted (trace state_ready) ++
       (if sends (toggle_fate env_ready state_ready)
        then [String.append "name="
                (String_of_cbuf (deviceName (config state_ready)))]
        else [])).
Proof.
  split; [lia | apply (alert_body_names_device env_ready 21 state_ready); lia].
Defined.

(** ** Reconnecting *)

(** C7.  When the link is down at each of the six polls of the retry loop,
    [reconnectWiFi] gives up after 5 waits of 500 ms and returns [false]; no
    field of [config] has changed, nor has the EEPROM, and nothing but the
    reconnect request has gone out. *)
Theorem reconnect_failure_keeps_config (env : Env) (fuel : nat) (s : State) :
  (20 < fuel)%nat ->
  (forall k : nat,
      (k <= 5)%nat ->
      is_connected (wifi_status_at env (clock s + 500 * Z.of_nat k)) = false) ->
  exists s',
    reconnectWiFi env fuel s = Ret false s' /\
    clock s' = clock s + 5 * 500 /\
    ssid (config s') = ssid (config s) /\
    password (config s') = password (config s) /\
    deviceName (config s') = deviceName (config s) /\
    configured (config s') = configured (config s) /\
    eeprom_buf s' = eeprom_buf s /\
    eeprom_flash s' = eeprom_flash s /\
    trace s' = EvWifiReconnect :: trace s.
Proof.
  intros Hf Hdown.
  assert (Hk : link_wait env (clock s) 5 = 5%nat).
  { apply link_wait_exhausted. intros k Hk. apply Hdown. lia. }
  assert (Hup : link_up_after env (clock s) 5 = false).
  { unfold link_up_after. rewrite Hk. apply Hdown. lia. }
  rewrite reconnectWiFi_down by assumption.
  eexists. split; [reflexivity|]. run. repeat split; lia.
Qed.

Lemma reconnect_failure_keeps_config_witness :
  (20 < 21)%nat /\
  (forall k : nat,
      (k <= 5)%nat ->
      is_connected (wifi_status_at env_offline
                      (clock state_ready + 500 * Z.of_nat k)) = false) /\
  exists s',
    reconnectWiFi env_offline 21 state_ready = Ret false s' /\
    clock s' = clock state_ready + 5 * 500 /\
    ssid (config s') = ssid (config state_ready) /\
    password (config s') = password (config state_ready) /\
    deviceName (config s') = deviceName (config state_ready) /\
    configured (config s') = configured (config state_ready) /\
    eeprom_buf s' = eeprom_buf state_ready /\
    eeprom_flash s' = eeprom_flash state_ready /\
    trace s' = EvWifiReconnect :: trace state_ready.
Proof.
  assert (H : forall k : nat,
             (k <= 5)%nat ->
             is_connected (wifi_status_at env_offline
                             (clock state_ready + 500 * Z.of_nat k)) = false)
    by reflexivity.
  split; [lia | split; [exact H|]].
  apply (reconnect_failure_keeps_config env_offline 21 state_ready); [lia | exact H].
Defined.

(** ** The first connection *)



(** ** Factory reset *)




(** ** The indicator *)

(** C8 fails on the sketch.  The link drops between the loop's test of it
    and [sendAlert]'s; [reconnectWiFi] restores it but does not find the
    server and leaves the blink on; the discovery of [sendAlert] then finds
    the server and sets [serverConnected] (line 226) without stopping the
    blink, as lines 144, 289 and 477 do.  One pass later the link is up, the
    server connected, no toggle in flight, the alert on and the LED off,
    blinking. *)
Lemma link_drop_desynchronises_indicator :
  exists s',
    (setup env_link_drop 21 ;; run_loop env_link_drop 21 [10001; 400])
      (power_on door_config) = Ret tt s' /\
    connectivity env_link_drop s' = WifiUpServerUp /\
    alertState s' = true /\
    led_out s' = LOW /\
    isBlinking s' = true.
Proof. by_running. Qed.

(** C4, as the specification has it, fails: the indicator is not a function
    of the connectivity state.  One second after the link is lost the sketch
    is in WifiDown and the LED is solid; it stays so until the next periodic
    check, ten seconds after the last. *)
Lemma indicator_lags_connectivity : ~ indicator_is_pure.
Proof.
  intros H.
  assert (E : exists s,
             (setup env_link_lost 21 ;; run_loop env_link_lost 21 [1000; 300; 300])
               (power_on door_config) = Ret tt s /\
             indicator_of env_link_lost s = Solid LOW /\
             connectivity env_link_lost s = WifiDown)
    by by_running.
  destruct E as (s & E & Hi & Hc).
  specialize (H _ _ _ _ _ E). rewrite Hi, Hc in H. discriminate H.
Qed.

(** C4, amended.  Between two passes the indicator follows the stored flag
    [isBlinking] and, while that is set, the connectivity state.  With the
    flag set, in every state but WifiUpServerUp, the indicator is the one the
    state calls for: the pass inverts the LED when more than 300 ms
    (Unprovisioned, WifiDown) or more than 1000 ms (WifiUpNoServer) have
    gone by since it last did.  With the flag clear the LED is solid at the
    level of [alertState] and the pass leaves it so.  Stopping the blink
    ([blinkLED(true)], the entry into the solid state) clears the flag and
    writes the level of [alertState] in the same call, with no wait. *)
Theorem indicator_cadence (env : Env) (fuel : nat) (flash : Config)
        (gaps : list Z) (s : State) :
  (20 < fuel)%nat ->
  (setup env fuel ;; run_loop env fuel gaps) (power_on flash) = Ret tt s ->
  (if isBlinking s then
     connectivity env s = WifiUpServerUp \/
     (indicator_of env s = spec_indicator (connectivity env s) (alertState s) /\
      indicator_tick env s =
      if usub (wrap32 (clock s)) (lastBlinkTime s)
           >? period (spec_indicator (connectivity env s) (alertState s))
      then Ret tt (led_written (negb (ledState s))
                     (set_lastBlinkTime (wrap32 (clock s)) s))
      else Ret tt s)
   else
     indicator_of env s = Solid (level_of_bool (alertState s)) /\
     indicator_tick env s = Ret tt s) /\
  blinkLED true 0 s = Ret tt (led_written (alertState s) (set_isBlinking false s)).
Proof.
  intros Hf Hrun. pose proof (solid_led_in_step env fuel Hf flash gaps s Hrun) as Hstep.
  split.
  - unfold indicator_of, connectivity, indicator_tick, currentInterval, blinkLED.
    run. destruct (isBlinking s) eqn:Eb.
    2:{ destruct (Hstep Eb) as (_ & ->). split; reflexivity. }
    run. try rewrite Eb.
    destruct (configured (config s)) eqn:Ec; run;
      [destruct (is_connected (wifi_status_at env (clock s))) eqn:Eu; run;
       [destruct (serverConnected s) eqn:Es; run; [left; reflexivity|]|]|];
      right; (split; [reflexivity|]);
      cbn [spec_indicator period];
      change (serverBlinkInterval >? 0) with true;
      change (blinkInterval >? 0) with true; cbv iota;
      unfold serverBlinkInterval, blinkInterval; rewrite Eb; cbn [andb];
      match goal with
      | |- context [usub ?a ?b >? ?p] => destruct (usub a b >? p)
      end; unfold led_written; same_state.
  - unfold blinkLED, led_written. same_state.
Qed.

Lemma indicator_cadence_witness :
  (20 < 21)%nat /\
  (setup env_ready 21 ;; run_loop env_ready 21 []) (power_on door_config)
    = Ret tt state_ready /\
  (if isBlinking state_ready then
     connectivity env_ready state_ready = WifiUpServerUp \/
     (indicator_of env_ready state_ready =
        spec_indicator (connectivity env_ready state_ready)
                       (alertState state_ready) /\
      indicator_tick env_ready state_ready =
      if usub (wrap32 (clock state_ready)) (lastBlinkTime state_ready)
           >? period (spec_indicator (connectivity env_ready state_ready)
                                     (alertState state_ready))
      then Ret tt (led_written (negb (ledState state_ready))
                     (set_lastBlinkTime (wrap32 (clock state_ready)) state_ready))
      else Ret tt state_ready)
   else
     indicator_of env_ready state_ready =
       Solid (level_of_bool (alertState state_ready)) /\
     indicator_tick env_ready state_ready = Ret tt state_ready) /\
  blinkLED true 0 state_ready =
  Ret tt (led_written (alertState state_ready) (set_isBlinking false state_ready)).
Proof.
  assert (Hrun : (setup env_ready 21 ;; run_loop env_ready 21 [])
                   (power_on door_config) = Ret tt state_ready)
    by (vm_compute; reflexivity).
  split; [lia|]. split; [exact Hrun|].
  apply (indicator_cadence env_ready 21 door_config [] state_ready);
    [lia | exact Hrun].
Defined.

(** ** The alert button *)

(** C3, as the specification has it, fails: the sketch keeps no last
    reported level and takes no edges.  With the button held down, two passes
    501 ms apart report two events and send two requests. *)
Lemma held_button_reports_twice : ~ held_level_reports_once.
Proof.
  intros H.
  assert (E : exists s',
             run_loop env_button_held 21 [501; 501] state_ready = Ret tt s' /\
             List.length (posted (trace s')) = 2%nat)
    by by_running.
  destruct E as (s' & E & Hn).
  specialize (H env_button_held 21%nat _ _ _ (fun _ => eq_refl) E).
  rewrite Hn in H. cbn in H. lia.
Qed.

(** C3, amended.  The check of lines 151-156 reports an event only if
    [serverConnected] is set, the button reads low and more than 500 ms have
    gone by since the last reported event: when one of the three fails it
    does nothing at all.  No level is remembered.  Hence, over any run of
    passes after an event reported at [t0]: if the run is over within 500 ms
    of [t0], however the button moves, or if the button is up from the
    beginning of the run on, however long the run, no event is reported;
    the alert state, the time of the last report and the requests sent are
    as they were. *)
Theorem debounce_window (env : Env) (fuel : nat) (t0 : Z) (gaps : list Z)
        (s : State) :
  (20 < fuel)%nat ->
  lastDebounceTime s = wrap32 t0 ->
  t0 <= clock s ->
  Forall (fun gap => 0 <= gap) gaps ->
  (forall s0,
      serverConnected s0
      && level_eqb (digital_in env buttonPin (clock s0)) LOW
      && (usub (wrap32 (clock s0)) (lastDebounceTime s0) >? debounceDelay)
      = false ->
      alert_button_check env fuel s0 = Ret tt s0) /\
  match run_loop env fuel gaps s with
  | Ret _ s' | Rebooted s' =>
      clock s' <= t0 + debounceDelay \/
      (forall t, clock s <= t -> digital_in env buttonPin t = HIGH) ->
      alertState s' = alertState s /\
      lastDebounceTime s' = lastDebounceTime s /\
      http_reqs s' = http_reqs s /\
      posted (trace s') = posted (trace s)
  | OutOfFuel => False
  end.
Proof.
  intros Hf Hd Ht Hg. split.
  - intros s0 H0. unfold alert_button_check, alert_button_due. run.
    rewrite H0. reflexivity.
  - pose proof (run_loop_calm env fuel Hf t0 gaps Hg s) as H.
    assert (Hi : (forall t, clock s <= t -> digital_in env buttonPin t = HIGH) ->
                 idle_from (clock s) (run_loop env fuel gaps))
      by (intros Hup; apply run_loop_idle; assumption).
    destruct (run_loop env fuel gaps s) as [[] s'|s'|] eqn:E; auto;
      destruct H as [_ H]; (intros [Hc|Hup]; [apply H; assumption|]);
      specialize (Hi Hup s (Z.le_refl _)); rewrite E in Hi; apply Hi.
Qed.

Lemma debounce_window_witness :
  (20 < 21)%nat /\
  lastDebounceTime state_ready = wrap32 0 /\
  0 <= clock state_ready /\
  Forall (fun gap => 0 <= gap) [100; 100; 100] /\
  (forall s0,
      serverConnected s0
      && level_eqb (digital_in env_button_held buttonPin (clock s0)) LOW
      && (usub (wrap32 (clock s0)) (lastDebounceTime s0) >? debounceDelay)
      = false ->
      alert_button_check env_button_held 21 s0 = Ret tt s0) /\
  match run_loop env_button_held 21 [100; 100; 100] state_ready with
  | Ret _ s' | Rebooted s' =>
      clock s' <= 0 + debounceDelay \/
      (forall t, clock state_ready <= t ->
                 digital_in env_button_held buttonPin t = HIGH) ->
      alertState s' = alertState state_ready /\
      lastDebounceTime s' = lastDebounceTime state_ready /\
      http_reqs s' = http_reqs state_ready /\
      posted (trace s') = posted (trace state_ready)
  | OutOfFuel => False
  end.
Proof.
  assert (Hg : Forall (fun gap => 0 <= gap) [100; 100; 100])
    by (repeat constructor; lia).
  split; [lia|]. split; [reflexivity|]. split; [cbn; lia|]. split; [exact Hg|].
  apply (debounce_window env_button_held 21 0 [100; 100; 100] state_ready);
    [lia | reflexivity | cbn; lia | exact Hg].
Defined.

(** C10.  The button check takes the level, not an edge: in any state it
    toggles exactly when [serverConnected] is set, the button reads low and
    more than 500 ms have gone by since the last toggle, and it remembers
    nothing of the button but the time of that toggle.  So with the button
    held down without a break (and link, server and boot button as in
    [held_in_reach]), every pass that comes more than 500 ms after the last
    reported event reports one more: it toggles the alert state and sends a
    request, for as many passes as there are. *)
Theorem held_button_fires_every_pass (env : Env) (fuel : nat) (gaps : list Z)
        (s : State) :
  (20 < fuel)%nat ->
  held_in_reach env ->
  settled s ->
  Forall (fun gap => debounceDelay < gap < 2 ^ 32) gaps ->
  (forall s0,
      alert_button_check env fuel s0 =
      if serverConnected s0
         && level_eqb (digital_in env buttonPin (clock s0)) LOW
         && (usub (wrap32 (clock s0)) (lastDebounceTime s0) >? debounceDelay)
      then toggleAlertState env fuel (set_lastDebounceTime (wrap32 (clock s0)) s0)
      else Ret tt s0) /\
  exists s',
    run_loop env fuel gaps s = Ret tt s' /\
    settled s' /\
    alertState s' =
      (if Nat.even (List.length gaps) then alertState s else negb (alertState s)) /\
    http_reqs s' = (http_reqs s + List.length gaps)%nat /\
    posted (trace s') =
      posted (trace s)
      ++ map (fun k => alert_body env k (config s))
             (seq (http_reqs s) (List.length gaps)).
Proof.
  intros Hf (Hbtn & Hboot & Hlink & Hudp & Hhttp) Hs Hg. split.
  - intros s0. unfold alert_button_check, alert_button_due. run.
    destruct (serverConnected s0
              && level_eqb (digital_in env buttonPin (clock s0)) LOW
              && (usub (wrap32 (clock s0)) (lastDebounceTime s0) >? debounceDelay));
      reflexivity.
  - destruct (held_run env fuel Hf Hbtn Hboot Hlink Hudp Hhttp gaps s Hs Hg)
      as (s' & E & Hs' & _ & H).
    exists s'. auto.
Qed.

Lemma env_button_held_in_reach : held_in_reach env_button_held.
Proof.
  repeat split; try reflexivity.
  intros k. do 2 eexists. split; reflexivity.
Defined.

Lemma state_reported_settled : settled state_reported.
Proof. repeat split. Defined.

Lemma held_button_fires_every_pass_witness :
  (20 < 21)%nat /\
  held_in_reach env_button_held /\
  settled state_reported /\
  Forall (fun gap => debounceDelay < gap < 2 ^ 32) [501; 600; 501] /\
  (forall s0,
      alert_button_check env_button_held 21 s0 =
      if serverConnected s0
         && level_eqb (digital_in env_button_held buttonPin (clock s0)) LOW
         && (usub (wrap32 (clock s0)) (lastDebounceTime s0) >? debounceDelay)
      then toggleAlertState env_button_held 21
             (set_lastDebounceTime (wrap32 (clock s0)) s0)
      else Ret tt s0) /\
  exists s',
    run_loop env_button_held 21 [501; 600; 501] state_reported = Ret tt s' /\
    settled s' /\
    alertState s' =
      (if Nat.even (List.length [501; 600; 501]) then alertState state_reported
       else negb (alertState state_reported)) /\
    http_reqs s' = (http_reqs state_reported + List.length [501; 600; 501])%nat /\
    posted (trace s') =
      posted (trace state_reported)
      ++ map (fun k => alert_body env_button_held k (config state_reported))
             (seq (http_reqs state_reported) (List.length [501; 600; 501])).
Proof.
  assert (Hg : Forall (fun gap => debounceDelay < gap < 2 ^ 32) [501; 600; 501])
    by (repeat constructor; reflexivity).
  split; [lia|]. split; [exact env_button_held_in_reach|].
  split; [exact state_reported_settled|]. split; [exact Hg|].
  apply (held_button_fires_every_pass env_button_held 21 [501; 600; 501]
           state_reported);
    [lia | exact env_button_held_in_reach | exact state_reported_settled | exact Hg].
Defined.

(** * Beyond the claims *)

(** ** The fields of the configuration *)

Lemma strncpy32_length src : List.length (strncpy32 src) = 32%nat.
Proof.
  unfold strncpy32. rewrite length_firstn, length_app, repeat_length. lia.
Qed.

Lemma c_text_split src :
  exists rest, src = c_text src ++ rest /\ Forall (fun b => b <> x00) (c_text src).
Proof.
  induction src as [|c src (rest & E & F)]; cbn [c_text].
  - exists []. split; [reflexivity | constructor].
  - destruct (Byte.eqb c x00) eqn:Ec.
    + exists (c :: src). split; [reflexivity | constructor].
    + exists rest. split; [cbn [app]; now rewrite <- E|].
      constructor; [|exact F].
      intros ->. discriminate Ec.
Qed.

Lemma String_of_cbuf_padded src n :
  String_of_cbuf (c_text src ++ repeat x00 (S n)) = String_of_cbuf src.
Proof.
  induction src as [|c src IH]; cbn [c_text]; [reflexivity|].
  cbn [String_of_cbuf]. destruct (Byte.eqb c x00) eqn:Ec; [reflexivity|].
  cbn [app String_of_cbuf]. now rewrite Ec, IH.
Qed.

Lemma firstn_Forall {A} (P : A -> Prop) n (l : list A) :
  Forall P l -> Forall P (firstn n l).
Proof.
  intros H. revert n. induction H as [|x l Hx _ IH]; intros [|n]; cbn [firstn];
    constructor; auto.
Qed.

Lemma firstn_repeat {A} (x : A) k : forall n,
  firstn k (repeat x n) = repeat x (Nat.min k n).
Proof.
  induction k as [|k IH]; intros [|n]; cbn [firstn repeat Nat.min]; try reflexivity.
  now rewrite IH.
Qed.

Lemma strncpy32_stored src : stored_as src (strncpy32 src).
Proof.
  split; [apply strncpy32_length|].
  destruct (c_text_split src) as (rest & E & F).
  destruct (Nat.ltb_spec (List.length (c_text src)) 32) as [Hlt|Hge].
  - unfold strncpy32. rewrite firstn_app, firstn_all2 by lia.
    rewrite firstn_repeat.
    replace (Nat.min (32 - List.length (c_text src)) 32)
      with (S (31 - List.length (c_text src))) by lia.
    apply String_of_cbuf_padded.
  - assert (Hcut : strncpy32 src = firstn 32 (c_text src)).
    { unfold strncpy32. rewrite firstn_app.
      replace (32 - List.length (c_text src))%nat with 0%nat by lia.
      cbn [firstn]. now rewrite app_nil_r. }
    split.
    + rewrite Hcut. rewrite E at 2. rewrite firstn_app.
      replace (32 - List.length (c_text src))%nat with 0%nat by lia.
      cbn [firstn]. now rewrite app_nil_r.
    + rewrite Hcut. now apply firstn_Forall.
Qed.

(** X1.  Whatever the form holds, [handleSave()] stores three fields of
    exactly 32 bytes and sets the flag, and the flash holds them when the
    device restarts.  A text shorter than 32 bytes is stored whole and
    terminated; of a text of 32 bytes or more the first 32 bytes are stored,
    with no terminator after them. *)
Theorem saved_fields_fit (arg_ssid arg_password arg_deviceName : list byte)
        (s : State) :
  exists s',
    handleSave arg_ssid arg_password arg_deviceName s = Rebooted s' /\
    eeprom_flash s' = config s' /\
    stored_as arg_ssid (ssid (config s')) /\
    stored_as arg_password (password (config s')) /\
    stored_as arg_deviceName (deviceName (config s')) /\
    configured (config s') = true.
Proof.
  unfold handleSave. run. eexists. split; [reflexivity|]. run.
  repeat split; try apply strncpy32_stored; try apply strncpy32_length.
Qed.

(** ** Provisioning *)

(** X2.  On an unprovisioned device, the pass of the loop that finds a save
    request at the portal (and no factory reset due) stores the three fields
    with the flag set, commits them, answers the request with 200, waits
    2000 ms and restarts: the flash holds the new configuration before the
    restart, and the restart is the last thing the sketch does. *)
Theorem portal_save_restarts (env : Env) (fuel : nat) (s : State)
        (arg_ssid arg_password arg_deviceName : list byte) :
  configured (config s) = false ->
  reset_due env s = false ->
  portal_request_at env (portal_polls s)
    = Some (PostSave arg_ssid arg_password arg_deviceName) ->
  exists s' pre,
    loop env fuel s = Rebooted s' /\
    eeprom_buf s' = saved_config arg_ssid arg_password arg_deviceName /\
    eeprom_flash s' = saved_config arg_ssid arg_password arg_deviceName /\
    clock s' = clock s + 2000 /\
    history s' =
    history s ++ pre ++
      [EvEepromPut (saved_config arg_ssid arg_password arg_deviceName);
       EvEepromCommit; EvPortalSend 200; EvRestart] /\
    Forall (fun e => persists e = false) pre.
Proof.
  intros Hc Hr Hp. unfold loop. cbn [bind].
  destruct (indicator_tick_effect env s) as [E|E]; rewrite E; cbn [bind].
  - destruct (reset_button_check_idle env s Hr) as (t0 & E2). rewrite E2.
    cbn [bind]. rewrite connection_tick_unprovisioned by exact Hc.
    unfold portal_tick, server_handleClient, handleSave. run.
    rewrite Hc. run. rewrite Hp. run.
    eexists. exists []. split; [reflexivity|]. unfold history, saved_config. run.
    repeat split; try reflexivity.
    + cbn [rev app]. now rewrite <- !app_assoc.
    + constructor.
  - rewrite <- reset_due_blink in Hr.
    destruct (reset_button_check_idle env _ Hr) as (t0 & E2). rewrite E2.
    cbn [bind]. rewrite connection_tick_unprovisioned by exact Hc.
    unfold portal_tick, server_handleClient, handleSave, led_written. run.
    rewrite Hc. run. rewrite Hp. run.
    eexists. exists [EvDigitalWrite ledPin (level_of_bool (negb (ledState s)))].
    split; [reflexivity|]. unfold history, saved_config. run.
    repeat split; try reflexivity.
    + cbn [rev app]. now rewrite <- !app_assoc.
    + repeat constructor.
Qed.

Lemma state_portal_reached :
  (setup env_portal_save 21 ;; run_loop env_portal_save 21 [100; 100])
    (power_on blank) = Ret tt state_portal.
Proof. vm_compute. reflexivity. Qed.

Lemma portal_save_restarts_witness :
  configured (config state_portal) = false /\
  reset_due env_portal_save state_portal = false /\
  portal_request_at env_portal_save (portal_polls state_portal)
    = Some (PostSave (list_byte_of_string "home") (list_byte_of_string "secret")
                     (list_byte_of_string "door")) /\
  exists s' pre,
    loop env_portal_save 21 state_portal = Rebooted s' /\
    eeprom_buf s' = saved_config (list_byte_of_string "home")
                      (list_byte_of_string "secret") (list_byte_of_string "door") /\
    eeprom_flash s' = saved_config (list_byte_of_string "home")
                        (list_byte_of_string "secret") (list_byte_of_string "door") /\
    clock s' = clock state_portal + 2000 /\
    history s' =
    history state_portal ++ pre ++
      [EvEepromPut (saved_config (list_byte_of_string "home")
                      (list_byte_of_string "secret") (list_byte_of_string "door"));
       EvEepromCommit; EvPortalSend 200; EvRestart] /\
    Forall (fun e => persists e = false) pre.
Proof.
  split; [reflexivity|]. split; [reflexivity|]. split; [reflexivity|].
  apply (portal_save_restarts env_portal_save 21 state_portal); reflexivity.
Defined.

(** ** Passes of an unprovisioned device *)

#[export] Instance off_air_PreOrder : PreOrder off_air.
Proof.
  split.
  - intros s. repeat split. reflexivity.
  - intros s1 s2 s3 (A1 & B1 & C1 & D1 & E1) (A2 & B2 & C2 & D2 & E2).
    repeat split; try congruence. etransitivity; eassumption.
Qed.

Lemma unprovisioned_pass env fuel s :
  configured (config s) = false ->
  match loop env fuel s with
  | Ret _ s' =>
      off_air s s' /\ config s' = config s /\ isBlinking s' = isBlinking s /\
      serverConnected s' = serverConnected s
  | Rebooted s' => off_air s s'
  | OutOfFuel => False
  end.
Proof.
  intros Hc. unfold loop. cbn [bind].
  destruct (indicator_tick_effect env s) as [E|E]; rewrite E; cbn [bind];
    match goal with
    | |- context [reset_button_check env ?s1] =>
        destruct (reset_due env s1) eqn:Hr;
        [rewrite (reset_button_check_fires env s1 Hr)
        |destruct (reset_button_check_idle env s1 Hr) as (t0 & ->); cbn [bind];
         rewrite connection_tick_unprovisioned by exact Hc;
         unfold portal_tick, server_handleClient, handleRoot, handleSave,
           led_written; run; rewrite Hc; run;
         destruct (portal_request_at env (portal_polls s)) as [[uri|a b c]|];
         run; try destruct (existsb (String.eqb uri) root_pages); run]
    end;
    unfold off_air, led_written; run;
    repeat split; try reflexivity; adds_explicit.
Qed.

(** X3.  While the device is unprovisioned the loop blinks the LED, watches
    the boot button and serves the portal, and nothing else: whatever the
    alert button and the network do, and however many passes are made, no
    press is taken, no datagram is polled for, nothing goes out over the
    radio, and the configuration and the flags [isBlinking] and
    [serverConnected] stay as they were until a factory reset or a saved
    form restarts the device.  No pass needs any fuel: none of the
    sketch's waiting loops is entered. *)
Theorem unprovisioned_passes_stay_off_air (env : Env) (fuel : nat)
        (gaps : list Z) (s : State) :
  configured (config s) = false ->
  match run_loop env fuel gaps s with
  | Ret _ s' =>
      off_air s s' /\ config s' = config s /\ isBlinking s' = isBlinking s /\
      serverConnected s' = serverConnected s
  | Rebooted s' => off_air s s'
  | OutOfFuel => False
  end.
Proof.
  revert s. induction gaps as [|gap gaps IH]; intros s Hc; cbn [run_loop].
  - run. repeat split; reflexivity.
  - unfold advance. run.
    match goal with
    | |- context [loop env fuel ?s1] =>
        pose proof (unprovisioned_pass env fuel s1 Hc) as H1;
        assert (H0 : off_air s s1) by (unfold off_air; run; repeat split;
                                       try reflexivity; adds_explicit);
        destruct (loop env fuel s1) as [[] s2| s2 |]; [|etransitivity; [exact H0 | exact H1]|exact H1]
    end.
    cbn [bind]. destruct H1 as (H1 & Hc1 & Hb1 & Hs1). cbn in Hc1, Hb1, Hs1.
    assert (Hc2 : configured (config s2) = false) by now rewrite Hc1.
    specialize (IH s2 Hc2).
    destruct (run_loop env fuel gaps s2) as [[] s3| s3 |]; [| |exact IH].
    + destruct IH as (H2 & Hc3 & Hb3 & Hs3).
      split; [transitivity s2; [etransitivity; [exact H0 | exact H1] | exact H2]|].
      repeat split; congruence.
    + transitivity s2; [etransitivity; [exact H0 | exact H1] | exact IH].
Qed.

Lemma unprovisioned_passes_stay_off_air_witness :
  configured (config state_portal) = false /\
  match run_loop env_portal_save 0 [100; 100; 100] state_portal with
  | Ret _ s' =>
      off_air state_portal s' /\ config s' = config state_portal /\
      isBlinking s' = isBlinking state_portal /\
      serverConnected s' = serverConnected state_portal
  | Rebooted s' => off_air state_portal s'
  | OutOfFuel => False
  end.
Proof.
  split; [reflexivity|].
  apply (unprovisioned_passes_stay_off_air env_portal_save 0 [100; 100; 100]
           state_portal).
  reflexivity.
Defined.

(** ** Power-on *)

(** Lines 334-345 with the boot button up, at once or after the 100 ms of
    line 336. *)
Lemma checkForResetCondition_free env fuel s :
  (0 < fuel)%nat ->
  digital_in env bootButtonPin
    (clock s + (if level_eqb (digital_in env bootButtonPin (clock s)) LOW
                then 100 else 0)) = HIGH ->
  checkForResetCondition env fuel s =
  Ret tt (set_clock
            (clock s + (if level_eqb (digital_in env bootButtonPin (clock s)) LOW
                        then 100 else 0)) s).
Proof.
  intros Hf. unfold checkForResetCondition. run.
  destruct (level_eqb (digital_in env bootButtonPin (clock s)) LOW); run; intros H.
  - destruct fuel as [|f]; [lia|]. rewrite while_S. run. rewrite H. same_state.
  - same_state.
Qed.

Lemma Forall_repeat {A} (P : A -> Prop) (x : A) n : P x -> Forall P (repeat x n).
Proof. intros H. induction n; cbn [repeat]; constructor; auto. Qed.

Lemma history_on_top evs base s :
  trace s = evs ++ base -> history s = rev base ++ rev evs.
Proof. intros E. unfold history. now rewrite E, rev_app_distr. Qed.

(** X4.  Powered on with an unprovisioned flash and the boot button up, the
    sketch starts the access point and the portal and nothing else: it does
    not try the network, the configuration in memory is the flash's, the
    alert is off, the LED is low and set to blink, and [setup()] is over as
    soon as the boot button has been looked at. *)
Theorem boot_unprovisioned (env : Env) (fuel : nat) (flash : Config) :
  (0 < fuel)%nat ->
  configured flash = false ->
  boot_button_free env ->
  exists s,
    setup env fuel (power_on flash) = Ret tt s /\
    config s = flash /\ eeprom_flash s = flash /\
    alertState s = false /\ serverConnected s = false /\
    isBlinking s = true /\ led_out s = LOW /\
    clock s = boot_check_time env /\
    history s =
    [EvDigitalWrite ledPin LOW; EvSoftAP "EMERGENCY ALERT SETUP"; EvPortalStart].
Proof.
  intros Hf Hc Hfree. unfold boot_button_free, boot_check_time in *.
  unfold setup, power_on. run.
  rewrite checkForResetCondition_free by (run; assumption). run.
  rewrite Hc. run.
  unfold startCaptivePortal, improvedCaptivePortal, networkDiagnostics,
    printNetworkInfo. run.
  eexists. split; [reflexivity|]. unfold history. run. repeat split.
Qed.

Lemma boot_unprovisioned_witness :
  (0 < 1)%nat /\
  configured blank = false /\
  boot_button_free env_portal_save /\
  exists s,
    setup env_portal_save 1 (power_on blank) = Ret tt s /\
    config s = blank /\ eeprom_flash s = blank /\
    alertState s = false /\ serverConnected s = false /\
    isBlinking s = true /\ led_out s = LOW /\
    clock s = boot_check_time env_portal_save /\
    history s =
    [EvDigitalWrite ledPin LOW; EvSoftAP "EMERGENCY ALERT SETUP"; EvPortalStart].
Proof.
  split; [lia|]. split; [reflexivity|]. split; [reflexivity|].
  apply (boot_unprovisioned env_portal_save 1 blank); [lia | reflexivity | reflexivity].
Defined.

(** X5.  Powered on with a provisioned flash and the boot button up, the
    sketch loads the configuration and joins the network with the stored
    name and secret.  If the link comes up within the 20 waits, the
    configuration and the flash stay as they were, discovery runs once, and
    the sketch ends up connected to the server with the LED solid and low,
    or not connected and blinking, as discovery found the server or not.  If
    the link stays down the device is unprovisioned, in memory and in the
    flash, and the portal is started. *)
Theorem boot_provisioned (env : Env) (fuel : nat) (flash : Config) :
  (20 < fuel)%nat ->
  configured flash = true ->
  boot_button_free env ->
  exists s rest,
    setup env fuel (power_on flash) = Ret tt s /\
    history s =
    [EvDigitalWrite ledPin LOW; EvWifiDisconnect;
     EvWifiBegin (ssid flash) (password flash)] ++ rest /\
    alertState s = false /\ led_out s = LOW /\
    if link_up_after env (boot_check_time env + 100) 20 then
      config s = flash /\ eeprom_flash s = flash /\
      serverConnected s = server_found env 0 /\
      isBlinking s = negb (server_found env 0) /\
      Forall (fun e => e = request \/ e = EvDigitalWrite ledPin LOW) rest
    else
      config s = set_configured false flash /\
      eeprom_flash s = set_configured false flash /\
      serverConnected s = false /\ isBlinking s = true /\
      clock s = boot_check_time env + 100 + 20 * 500 /\
      rest = [EvEepromPut (set_configured false flash); EvEepromCommit;
              EvSoftAP "EMERGENCY ALERT SETUP"; EvPortalStart].
Proof.
  intros Hf Hc Hfree. unfold boot_button_free, boot_check_time in *.
  unfold setup, power_on. run.
  rewrite checkForResetCondition_free by (run; lia || assumption). run.
  rewrite Hc. run.
  unfold connectToWiFi, enhancedWiFiConnect. run.
  rewrite (await_link_spec env fuel 20) by lia. run.
  set (dt := if level_eqb (digital_in env bootButtonPin 0) LOW then 100 else 0) in *.
  change (0 + dt) with dt.
  destruct (link_up_after env (dt + 100) 20) eqn:Eup;
    pose proof Eup as Est; unfold link_up_after in Est; rewrite Est; run.
  - unfold printNetworkInfo, discoverServer, networkDiagnostics, server_found. run.
    rewrite improvedDiscoverServer_spec by exact Hf. run.
    destruct (first_packet env 0 60) as [[j p]|];
      [destruct (isEmpty (address_of p))|]; run; unfold blinkLED; run;
      unfold printNetworkInfo; run;
      eexists; eexists; (split; [reflexivity|]);
      (split; [eapply (history_on_top _ [EvWifiBegin (ssid flash) (password flash);
                                         EvWifiDisconnect; EvDigitalWrite ledPin LOW]);
               run;
               lazymatch goal with
               | |- repeat request _ ++ _ = _ => reflexivity
               | |- ?e :: repeat request ?n ++ ?b = _ =>
                   exact (eq_refl ((e :: repeat request n) ++ b))
               end|]);
      repeat split;
      try (cbn [rev]; rewrite ?Forall_app; repeat split);
      try (apply Forall_rev, Forall_repeat; left; reflexivity);
      try (constructor; [right; reflexivity | constructor]).
  - pose proof (link_down_exhausted env _ _ Eup) as Hk. rewrite Hk.
    unfold startCaptivePortal, improvedCaptivePortal, networkDiagnostics,
      printNetworkInfo. run.
    eexists. eexists. split; [reflexivity|].
    split; [apply (history_on_top
                     [EvPortalStart; EvSoftAP "EMERGENCY ALERT SETUP";
                      EvEepromCommit; EvEepromPut (set_configured false flash)]
                     [EvWifiBegin (ssid flash) (password flash);
                      EvWifiDisconnect; EvDigitalWrite ledPin LOW]);
            run; reflexivity|].
    unfold set_configured. run. repeat split; try reflexivity; lia.
Qed.

Lemma boot_provisioned_witness :
  (20 < 21)%nat /\
  configured door_config = true /\
  boot_button_free env_ready /\
  exists s rest,
    setup env_ready 21 (power_on door_config) = Ret tt s /\
    history s =
    [EvDigitalWrite ledPin LOW; EvWifiDisconnect;
     EvWifiBegin (ssid door_config) (password door_config)] ++ rest /\
    alertState s = false /\ led_out s = LOW /\
    if link_up_after env_ready (boot_check_time env_ready + 100) 20 then
      config s = door_config /\ eeprom_flash s = door_config /\
      serverConnected s = server_found env_ready 0 /\
      isBlinking s = negb (server_found env_ready 0) /\
      Forall (fun e => e = request \/ e = EvDigitalWrite ledPin LOW) rest
    else
      config s = set_configured false door_config /\
      eeprom_flash s = set_configured false door_config /\
      serverConnected s = false /\ isBlinking s = true /\
      clock s = boot_check_time env_ready + 100 + 20 * 500 /\
      rest = [EvEepromPut (set_configured false door_config); EvEepromCommit;
              EvSoftAP "EMERGENCY ALERT SETUP"; EvPortalStart].
Proof.
  split; [lia|]. split; [reflexivity|]. split; [reflexivity|].
  apply (boot_provisioned env_ready 21 door_config); [lia | reflexivity | reflexivity].
Defined.

(** ** Passes in which nothing is due *)

Lemma quiet_pass env fuel s t1 :
  configured (config s) = true ->
  isBlinking s = false ->
  buttonPressStartTime s = 0 ->
  lastServerCheckTime s = wrap32 t1 ->
  t1 <= clock s <= t1 + serverCheckInterval ->
  digital_in env bootButtonPin (clock s) = HIGH ->
  digital_in env buttonPin (clock s) = HIGH ->
  loop env fuel s = Ret tt s.
Proof.
  intros Hc Hb Hp Hl Ht Hboot Hbtn.
  assert (Hdue : (usub (wrap32 (clock s)) (lastServerCheckTime s)
                    >? serverCheckInterval) = false).
  { rewrite Hl. replace (clock s) with (t1 + (clock s - t1)) by lia.
    unfold serverCheckInterval in *. rewrite usub_elapsed by lia.
    destruct (Z.gtb_spec (clock s - t1) 10000); [lia | reflexivity]. }
  unfold loop, indicator_tick. run. rewrite Hb. run.
  unfold reset_button_check. run. rewrite Hboot. run.
  unfold connection_tick. run. rewrite Hc. run.
  destruct (is_connected (wifi_status_at env (clock s))) eqn:Eup; run.
  - unfold periodic_server_check. run. rewrite Hdue. run.
    unfold alert_button_check, alert_button_due. run. rewrite Hbtn. run.
    rewrite andb_false_r. run.
    unfold portal_tick. run. rewrite Hc. run. same_state.
  - rewrite Hc, Eup. run. unfold periodic_reconnect. run. rewrite Hdue. run.
    unfold portal_tick. run. rewrite Hc. run. same_state.
Qed.

(** X6.  On a provisioned device that is not blinking, with both buttons up,
    passes made within 10 s of the last periodic check do nothing at all:
    whatever the link and the server do meanwhile, the sketch reads no
    datagram, sends nothing, writes no pin and changes no variable.  Only
    time has passed. *)
Theorem quiet_passes_change_nothing (env : Env) (fuel : nat) (gaps : list Z)
        (s : State) (t1 : Z) :
  configured (config s) = true ->
  isBlinking s = false ->
  buttonPressStartTime s = 0 ->
  lastServerCheckTime s = wrap32 t1 ->
  t1 <= clock s ->
  Forall (fun gap => 0 <= gap) gaps ->
  clock s + total gaps <= t1 + serverCheckInterval ->
  (forall t, clock s <= t <= clock s + total gaps ->
             digital_in env bootButtonPin t = HIGH /\
             digital_in env buttonPin t = HIGH) ->
  run_loop env fuel gaps s = Ret tt (set_clock (clock s + total gaps) s).
Proof.
  intros Hc Hb Hp Hl Ht Hg. revert s Hc Hb Hp Hl Ht.
  induction Hg as [|gap gaps Hgap Hg IH]; intros s Hc Hb Hp Hl Ht Hend Hup;
    cbn [run_loop total fold_right] in *.
  - run. same_state.
  - fold (total gaps) in *.
    assert (Hrest : 0 <= total gaps).
    { clear -Hg. induction Hg; cbn [total fold_right]; [lia|].
      fold (total l). lia. }
    unfold advance. run.
    rewrite (quiet_pass env fuel _ t1); run; try assumption; try lia;
      try (apply Hup; lia).
    rewrite IH; run; try assumption; try lia.
    + same_state.
    + intros t Hti. apply Hup. lia.
Qed.

Lemma quiet_passes_change_nothing_witness :
  configured (config state_ready) = true /\
  isBlinking state_ready = false /\
  buttonPressStartTime state_ready = 0 /\
  lastServerCheckTime state_ready = wrap32 0 /\
  0 <= clock state_ready /\
  Forall (fun gap => 0 <= gap) [4000; 5000; 900] /\
  clock state_ready + total [4000; 5000; 900] <= 0 + serverCheckInterval /\
  (forall t, clock state_ready <= t <= clock state_ready + total [4000; 5000; 900] ->
             digital_in env_link_lost bootButtonPin t = HIGH /\
             digital_in env_link_lost buttonPin t = HIGH) /\
  run_loop env_link_lost 21 [4000; 5000; 900] state_ready =
  Ret tt (set_clock (clock state_ready + total [4000; 5000; 900]) state_ready).
Proof.
  assert (Hg : Forall (fun gap => 0 <= gap) [4000; 5000; 900])
    by (repeat constructor; discriminate).
  assert (Hup : forall t,
             clock state_ready <= t <= clock state_ready + total [4000; 5000; 900] ->
             digital_in env_link_lost bootButtonPin t = HIGH /\
             digital_in env_link_lost buttonPin t = HIGH)
    by (intros t _; split; reflexivity).
  assert (Hend : clock state_ready + total [4000; 5000; 900]
                 <= 0 + serverCheckInterval)
    by (vm_compute; discriminate).
  split; [reflexivity|]. split; [reflexivity|]. split; [reflexivity|].
  split; [reflexivity|]. split; [vm_compute; discriminate|].
  split; [exact Hg|]. split; [exact Hend|]. split; [exact Hup|].
  apply (quiet_passes_change_nothing env_link_lost 21 [4000; 5000; 900]
           state_ready 0);
    [reflexivity | reflexivity | reflexivity | reflexivity
    | vm_compute; discriminate | exact Hg | exact Hend | exact Hup].
Defined.

(** ** How long a pass blocks *)

(** X7.  No pass of the loop blocks for more than 11.5 s of the time that
    [delay()] spends, whatever the network does: 3 s for the periodic
    discovery, then, for a press, 2.5 s of reconnecting, 3 s for the
    discovery after it and 3 s for the discovery before the request.  Every
    pass ends, in a return to the scheduler or in a restart. *)
Theorem pass_blocks_at_most_11500ms (env : Env) (fuel : nat) :
  (20 < fuel)%nat -> takes 11500 (loop env fuel).
Proof.
  intros enough s. unfold loop. cbn [bind].
  assert (Hpass : forall s1,
             clock s1 = clock s ->
             match (reset_button_check env ;; connection_tick env fuel ;;
                    portal_tick env) s1 with
             | Ret _ s' | Rebooted s' => clock s <= clock s' <= clock s + 11500
             | OutOfFuel => False
             end).
  { intros s1 Hc. cbn [bind]. destruct (reset_due env s1) eqn:Hr.
    - rewrite (reset_button_check_fires env s1 Hr). run. lia.
    - destruct (reset_button_check_idle env s1 Hr) as (t0 & ->). cbn [bind].
      destruct (configured (config s1)) eqn:Hcfg.
      + match goal with
        | |- context [connection_tick env fuel ?s2] =>
            pose proof (connection_tick_takes env fuel enough s2) as Ht;
            pose proof (connection_tick_config env fuel s2) as Hk;
            destruct (connection_tick env fuel s2) as [[] s3|s3|];
            cbn in Ht; [|lia|exact Ht]
        end.
        unfold same in Hk. cbn in Hk.
        rewrite portal_tick_provisioned by congruence. lia.
      + rewrite connection_tick_unprovisioned by exact Hcfg.
        match goal with
        | |- context [portal_tick env ?s2] =>
            pose proof (portal_tick_takes env s2) as Ht;
            destruct (portal_tick env s2); cbn in Ht; [lia|lia|exact Ht]
        end. }
  destruct (indicator_tick_effect env s) as [E|E]; rewrite E;
    apply Hpass; reflexivity.
Qed.

Lemma pass_blocks_at_most_11500ms_witness :
  (20 < 21)%nat /\ takes 11500 (loop env_link_drop 21).
Proof.
  split; [lia|]. apply (pass_blocks_at_most_11500ms env_link_drop 21). lia.
Defined.

(** ** What a provisioned device never does *)

Section Provisioned.

Variable env : Env.
Variable fuel : nat.
Hypothesis enough : (20 < fuel)%nat.

Lemma provisioned_pass s :
  configured (config s) = true ->
  digital_in env bootButtonPin (clock s) = HIGH ->
  exists s',
    loop env fuel s = Ret tt s' /\
    config s' = config s /\ eeprom_flash s' = eeprom_flash s /\
    eeprom_buf s' = eeprom_buf s /\
    adds (fun e => negb (persists e)) s s'.
Proof.
  intros Hc Hboot. unfold loop. cbn [bind].
  assert (Hrest : forall s1,
             config s1 = config s -> clock s1 = clock s ->
             exists s',
               (reset_button_check env ;; connection_tick env fuel ;;
                portal_tick env) s1 = Ret tt s' /\
               config s' = config s1 /\ eeprom_flash s' = eeprom_flash s1 /\
               eeprom_buf s' = eeprom_buf s1 /\
               adds (fun e => negb (persists e)) s1 s').
  { intros s1 Hc1 Ht1. unfold reset_button_check. run. rewrite Ht1, Hboot. run.
    match goal with
    | |- context [connection_tick env fuel ?s2] =>
        destruct (connection_tick_returns env fuel enough s2) as ([] & s3 & E3);
        pose proof (keeps_result _ _ _ _ (connection_tick_config env fuel) E3) as Hg3;
        pose proof (keeps_result _ _ _ _ (connection_tick_flash env fuel) E3) as Hf3;
        pose proof (keeps_result _ _ _ _ (connection_tick_buf env fuel) E3) as Hb3;
        pose proof (keeps_result _ _ _ _ (connection_tick_quiet env fuel) E3) as Hq3
    end.
    rewrite E3. unfold same in *. cbn in Hg3, Hf3, Hb3.
    rewrite portal_tick_provisioned by congruence.
    exists s3. split; [reflexivity|]. split; [exact Hg3|].
    split; [exact Hf3|]. split; [exact Hb3|].
    destruct Hq3 as (evs & Et & Fevs). exists evs. split; assumption. }
  destruct (indicator_tick_effect env s) as [E|E]; rewrite E; cbn [bind].
  - apply Hrest; reflexivity.
  - destruct (Hrest (led_written (negb (ledState s))
                              (set_lastBlinkTime (wrap32 (clock s)) s))
                      eq_refl eq_refl) as (s' & E' & Hg & Hf & Hb & Hq).
    exists s'. split; [exact E'|]. repeat split; try assumption.
    transitivity
      (led_written (negb (ledState s)) (set_lastBlinkTime (wrap32 (clock s)) s));
      [unfold led_written; adds_explicit | exact Hq].
Qed.

Lemma connection_tick_offline s :
  is_connected (wifi_status_at env (clock s)) = false ->
  connection_tick env fuel s =
  when (configured (config s)) (periodic_reconnect env fuel) s.
Proof.
  intros H. unfold connection_tick. run. rewrite H, andb_false_r. run.
  rewrite H, andb_true_r. reflexivity.
Qed.

Lemma offline_rest_quiet b :
  forall s,
    match (when b (periodic_reconnect env fuel) ;; portal_tick env) s with
    | Ret _ s' | Rebooted s' => undisturbed s s'
    | OutOfFuel => False
    end.
Proof.
  intros s.
  assert (Hf : finishes (when b (periodic_reconnect env fuel) ;; portal_tick env))
    by finishing.
  assert (Hk : keeps undisturbed
                 (when b (periodic_reconnect env fuel) ;; portal_tick env))
    by resting.
  specialize (Hf s). specialize (Hk s).
  destruct ((when b (periodic_reconnect env fuel) ;; portal_tick env) s);
    auto.
Qed.

End Provisioned.

(** X8.  On a provisioned device whose boot button is left alone, failures
    are never fatal: every pass returns to the scheduler, whatever the link,
    the server and the alert button do.  The loop does not restart the
    device, does not change the configuration and does not write the
    EEPROM. *)
Theorem failures_never_restart (env : Env) (fuel : nat) (gaps : list Z)
        (s : State) :
  (20 < fuel)%nat ->
  configured (config s) = true ->
  (forall t, digital_in env bootButtonPin t = HIGH) ->
  exists s',
    run_loop env fuel gaps s = Ret tt s' /\
    config s' = config s /\ eeprom_flash s' = eeprom_flash s /\
    eeprom_buf s' = eeprom_buf s /\
    adds (fun e => negb (persists e)) s s'.
Proof.
  intros enough Hc Hboot. revert s Hc.
  induction gaps as [|gap gaps IH]; intros s Hc; cbn [run_loop].
  - exists s. run. repeat split. reflexivity.
  - unfold advance. run.
    match goal with
    | |- context [loop env fuel ?s1] =>
        destruct (provisioned_pass env fuel enough s1 Hc (Hboot _))
          as (s2 & E2 & Hg2 & Hf2 & Hb2 & Hq2)
    end.
    rewrite E2. cbn [bind]. cbn in Hg2, Hf2, Hb2.
    destruct (IH s2) as (s' & E' & Hg & Hf & Hb & Hq); [congruence|].
    exists s'. split; [exact E'|]. repeat split; try congruence.
    etransitivity; [|exact Hq].
    etransitivity; [|exact Hq2]. adds_explicit.
Qed.

Lemma failures_never_restart_witness :
  (20 < 21)%nat /\
  configured (config state_ready) = true /\
  (forall t, digital_in env_offline bootButtonPin t = HIGH) /\
  exists s',
    run_loop env_offline 21 [10001; 10001] state_ready = Ret tt s' /\
    config s' = config state_ready /\
    eeprom_flash s' = eeprom_flash state_ready /\
    eeprom_buf s' = eeprom_buf state_ready /\
    adds (fun e => negb (persists e)) state_ready s'.
Proof.
  split; [lia|]. split; [reflexivity|]. split; [reflexivity|].
  apply (failures_never_restart env_offline 21 [10001; 10001] state_ready);
    [lia | reflexivity | reflexivity].
Defined.

(** X9.  A pass that finds the link down takes no press: whatever the alert
    button reads, the alert state, the time of the last press and the
    requests sent are after the pass what they were before it.  The press is
    dropped, not kept for later. *)
Theorem press_without_link_is_dropped (env : Env) (fuel : nat) (s : State) :
  (20 < fuel)%nat ->
  is_connected (wifi_status_at env (clock s)) = false ->
  match loop env fuel s with
  | Ret _ s' | Rebooted s' => undisturbed s s'
  | OutOfFuel => False
  end.
Proof.
  intros enough Hdown. unfold loop. cbn [bind].
  assert (Hrest : forall s1,
             clock s1 = clock s -> undisturbed s s1 ->
             match (reset_button_check env ;; connection_tick env fuel ;;
                    portal_tick env) s1 with
             | Ret _ s' | Rebooted s' => undisturbed s s'
             | OutOfFuel => False
             end).
  { intros s1 Ht1 Hu1. cbn [bind]. destruct (reset_due env s1) eqn:Hr.
    - rewrite (reset_button_check_fires env s1 Hr).
      etransitivity; [exact Hu1|].
      unfold undisturbed, reset_events. cbn [rev app]. run. repeat split.
    - destruct (reset_button_check_idle env s1 Hr) as (t0 & ->). cbn [bind].
      rewrite connection_tick_offline by (run; now rewrite Ht1).
      match goal with
      | |- context [when ?b _ ?s2] =>
          pose proof (offline_rest_quiet env fuel enough b s2) as H;
          cbn [bind] in H;
          destruct (when b (periodic_reconnect env fuel) s2) as [[] s3|s3|];
          [destruct (portal_tick env s3)|idtac|idtac]
      end;
        try exact H;
        (etransitivity; [exact Hu1|]);
        (etransitivity; [|exact H]); repeat split. }
  destruct (indicator_tick_effect env s) as [E|E]; rewrite E; apply Hrest;
    try reflexivity; unfold led_written; repeat split.
Qed.

Lemma press_without_link_is_dropped_witness :
  (20 < 21)%nat /\
  is_connected (wifi_status_at env_offline (clock state_ready)) = false /\
  match loop env_offline 21 state_ready with
  | Ret _ s' | Rebooted s' => undisturbed state_ready s'
  | OutOfFuel => False
  end.
Proof.
  split; [lia|]. split; [reflexivity|].
  apply (press_without_link_is_dropped env_offline 21 state_ready);
    [lia | reflexivity].
Defined.

(** ** What discovery makes of a reply *)

Lemma String_of_cbuf_c_text b : String_of_cbuf b = text_of (c_text b).
Proof.
  unfold text_of. induction b as [|c b IH]; cbn [String_of_cbuf c_text];
    [reflexivity|].
  destruct (Byte.eqb c x00); [reflexivity|].
  cbn [map string_of_list_ascii]. now rewrite IH.
Qed.

Lemma text_of_length l : String.length (text_of l) = List.length l.
Proof.
  unfold text_of. induction l as [|c l IH];
    cbn [map string_of_list_ascii String.length List.length]; congruence.
Qed.

Lemma c_text_length b : (List.length (c_text b) <= List.length b)%nat.
Proof.
  induction b as [|c b IH]; cbn [c_text]; [lia|].
  destruct (Byte.eqb c x00); cbn [List.length]; lia.
Qed.

Lemma address_of_length p : (String.length (address_of p) <= 15)%nat.
Proof.
  unfold address_of. rewrite String_of_cbuf_c_text, text_of_length.
  pose proof (c_text_length (firstn 15 p)) as H.
  rewrite length_firstn in H. lia.
Qed.

Lemma address_of_empty p : isEmpty (address_of p) = Byte.eqb (hd x00 p) x00.
Proof.
  destruct p as [|b p]; [reflexivity|].
  unfold address_of. cbn [firstn String_of_cbuf hd].
  destruct (Byte.eqb b x00); reflexivity.
Qed.

(** X10.  Whatever datagram answers, the address discovery returns fits the
    16-byte buffer of line 319: it is the text of the first 15 bytes of the
    first datagram found that is not empty, up to the first NUL among them,
    so it is at most 15 characters long.  It is the empty string, which every
    caller takes for "no server", when no such datagram came in the 60 polls
    or when the datagram begins with a NUL.  Discovery stops polling at the
    datagram it reads. *)
Theorem discovered_address_fits (env : Env) (fuel : nat) (s : State) :
  (20 < fuel)%nat ->
  exists ip s',
    improvedDiscoverServer env fuel s = Ret ip s' /\
    (String.length ip <= 15)%nat /\
    match first_packet env (udp_polls s) 60 with
    | Some (j, p) =>
        ip = text_of (c_text (firstn 15 p)) /\
        isEmpty ip = Byte.eqb (hd x00 p) x00 /\
        udp_polls s' = (S j + udp_polls s)%nat /\ (j < 60)%nat
    | None => ip = EmptyString /\ udp_polls s' = (60 + udp_polls s)%nat
    end.
Proof.
  intros enough. rewrite improvedDiscoverServer_spec by exact enough.
  destruct (first_packet env (udp_polls s) 60) as [[j p]|] eqn:E.
  - do 2 eexists. split; [reflexivity|].
    split; [apply address_of_length|].
    split; [apply String_of_cbuf_c_text|].
    split; [apply address_of_empty|].
    split; [reflexivity|]. exact (first_packet_bound env _ _ _ _ E).
  - do 2 eexists. split; [reflexivity|]. cbn. repeat split. lia.
Qed.

Lemma discovered_address_fits_witness :
  (20 < 21)%nat /\
  exists ip s',
    improvedDiscoverServer env_slow_server 21 state_ready = Ret ip s' /\
    (String.length ip <= 15)%nat /\
    match first_packet env_slow_server (udp_polls state_ready) 60 with
    | Some (j, p) =>
        ip = text_of (c_text (firstn 15 p)) /\
        isEmpty ip = Byte.eqb (hd x00 p) x00 /\
        udp_polls s' = (S j + udp_polls state_ready)%nat /\ (j < 60)%nat
    | None => ip = EmptyString /\ udp_polls s' = (60 + udp_polls state_ready)%nat
    end.
Proof.
  split; [lia|].
  apply (discovered_address_fits env_slow_server 21 state_ready). lia.
Defined.

(** ** The request *)

Lemma rev_repeat_same {A} (x : A) n : rev (repeat x n) = repeat x n.
Proof.
  induction n as [|n IH]; [reflexivity|].
  cbn [repeat rev]. rewrite IH. symmetry. apply repeat_cons.
Qed.

(** X11.  With the link up and an address discovered, [sendAlert()] sends
    one request, framed the same way whether it is answered or not: the
    request goes to port 5000, path /alert, of the address this very
    discovery returned, as a form, with the body line 235 builds from the
    device name, and the connection is closed after it.  When no response comes the LED is set
    back before the connection is closed. *)
Theorem alert_request_is_framed (env : Env) (fuel : nat) (state : bool)
        (s : State) (j : nat) (p : list byte) :
  (20 < fuel)%nat ->
  is_connected (wifi_status_at env (clock s)) = true ->
  first_packet env (udp_polls s) 60 = Some (j, p) ->
  isEmpty (address_of p) = false ->
  exists s',
    sendAlert env fuel state s = Ret tt s' /\
    serverConnected s' = true /\
    http_reqs s' = S (http_reqs s) /\
    history s' =
    history s ++ repeat request (S (j / 20)) ++
      [EvHttpBegin
         (String.append "http://" (String.append (address_of p) ":5000/alert"));
       EvHttpHeader "Content-Type" "application/x-www-form-urlencoded";
       EvHttpPost (alert_body env (http_reqs s) (config s))] ++
      (if http_code_at env (http_reqs s) >? 0 then []
       else [EvDigitalWrite ledPin (level_of_bool (negb (alertState s)))]) ++
      [EvHttpEnd].
Proof.
  intros enough Hup Hp Hne. unfold sendAlert. run. rewrite Hup. run.
  unfold deliver_alert, discoverServer. run.
  rewrite improvedDiscoverServer_spec by exact enough. rewrite Hp. run.
  rewrite Hne. run.
  destruct (http_code_at env (http_reqs s) >? 0); run;
    unfold flip_alertState, show_alertState; run;
    (eexists; split; [reflexivity|]); run;
    (split; [reflexivity|]); (split; [reflexivity|]);
    unfold history, alert_body; run;
    cbn [rev]; rewrite rev_app_distr, rev_repeat_same;
    cbn [repeat app]; rewrite <- ?app_assoc; reflexivity.
Qed.

Lemma alert_request_is_framed_witness :
  (20 < 21)%nat /\
  is_connected (wifi_status_at env_ready (clock state_ready)) = true /\
  first_packet env_ready (udp_polls state_ready) 60 = Some (0%nat, server_reply) /\
  isEmpty (address_of server_reply) = false /\
  exists s',
    sendAlert env_ready 21 true state_ready = Ret tt s' /\
    serverConnected s' = true /\
    http_reqs s' = S (http_reqs state_ready) /\
    history s' =
    history state_ready ++ repeat request (S (0 / 20)) ++
      [EvHttpBegin
         (String.append "http://"
            (String.append (address_of server_reply) ":5000/alert"));
       EvHttpHeader "Content-Type" "application/x-www-form-urlencoded";
       EvHttpPost (alert_body env_ready (http_reqs state_ready)
                     (config state_ready))] ++
      (if http_code_at env_ready (http_reqs state_ready) >? 0 then []
       else [EvDigitalWrite ledPin
               (level_of_bool (negb (alertState state_ready)))]) ++
      [EvHttpEnd].
Proof.
  split; [lia|]. split; [reflexivity|]. split; [reflexivity|].
  split; [reflexivity|].
  apply (alert_request_is_framed env_ready 21 true state_ready 0 server_reply);
    [lia | reflexivity | reflexivity | reflexivity].
Defined.

(** ** Losing and finding the server *)

(** Lines 122-149, every case. *)
Lemma periodic_server_check_outcome (env : Env) (fuel : nat) (s : State) :
  (20 < fuel)%nat ->
  exists s',
    periodic_server_check env fuel s = Ret tt s' /\
    if usub (wrap32 (clock s)) (lastServerCheckTime s) >? serverCheckInterval
    then
      lastServerCheckTime s' = wrap32 (clock s) /\
      alertState s' = alertState s /\ config s' = config s /\
      serverConnected s' = server_found env (udp_polls s) /\
      isBlinking s' =
        (if server_found env (udp_polls s)
         then serverConnected s && isBlinking s else true) /\
      if server_found env (udp_polls s) && negb (serverConnected s)
         && isBlinking s
      then ledState s' = alertState s /\
           led_out s' = level_of_bool (alertState s)
      else ledState s' = ledState s /\ led_out s' = led_out s
    else s' = s.
Proof.
  intros enough. unfold periodic_server_check. run.
  destruct (usub (wrap32 (clock s)) (lastServerCheckTime s) >? serverCheckInterval);
    run; [|exists s; split; reflexivity].
  unfold discoverServer, server_found.
  rewrite improvedDiscoverServer_spec by exact enough. run.
  destruct (first_packet env (udp_polls s) 60) as [[j p]|];
    [destruct (isEmpty (address_of p))|]; run;
    destruct (serverConnected s) eqn:Es; run;
    destruct (isBlinking s) eqn:Eb; run; unfold blinkLED; run;
    (eexists; split; [reflexivity|]); run; repeat split; auto.
Qed.


(** X12.  The periodic check runs discovery when more than 10 s have gone by
    since the last check or reconnection attempt, and not before.  When it
    runs, [serverConnected] becomes what discovery found.  A server that is
    lost starts the blink; a server that is found again stops it and puts
    the LED at the level of the alert state at once.  A server found while
    [serverConnected] was already set changes nothing: a blink that is on
    then stays on.  The alert state is never touched. *)
Theorem periodic_check_outcome (env : Env) (fuel : nat) (s : State) :
  (20 < fuel)%nat ->
  exists s',
    periodic_server_check env fuel s = Ret tt s' /\
    if usub (wrap32 (clock s)) (lastServerCheckTime s) >? serverCheckInterval
    then
      lastServerCheckTime s' = wrap32 (clock s) /\
      alertState s' = alertState s /\ config s' = config s /\
      serverConnected s' = server_found env (udp_polls s) /\
      isBlinking s' =
        (if server_found env (udp_polls s)
         then serverConnected s && isBlinking s else true) /\
      if server_found env (udp_polls s) && negb (serverConnected s)
         && isBlinking s
      then ledState s' = alertState s /\
           led_out s' = level_of_bool (alertState s)
      else ledState s' = ledState s /\ led_out s' = led_out s
    else s' = s.
Proof. apply periodic_server_check_outcome. Qed.

Lemma periodic_check_outcome_witness :
  (20 < 21)%nat /\
  exists s',
    periodic_server_check env_offline 21 (set_clock 10001 state_ready)
      = Ret tt s' /\
    if usub (wrap32 (clock (set_clock 10001 state_ready)))
            (lastServerCheckTime (set_clock 10001 state_ready))
         >? serverCheckInterval
    then
      lastServerCheckTime s' = wrap32 (clock (set_clock 10001 state_ready)) /\
      alertState s' = alertState (set_clock 10001 state_ready) /\
      config s' = config (set_clock 10001 state_ready) /\
      serverConnected s' =
        server_found env_offline (udp_polls (set_clock 10001 state_ready)) /\
      isBlinking s' =
        (if server_found env_offline (udp_polls (set_clock 10001 state_ready))
         then serverConnected (set_clock 10001 state_ready)
              && isBlinking (set_clock 10001 state_ready)
         else true) /\
      if server_found env_offline (udp_polls (set_clock 10001 state_ready))
         && negb (serverConnected (set_clock 10001 state_ready))
         && isBlinking (set_clock 10001 state_ready)
      then ledState s' = alertState (set_clock 10001 state_ready) /\
           led_out s' = level_of_bool (alertState (set_clock 10001 state_ready))
      else ledState s' = ledState (set_clock 10001 state_ready) /\
           led_out s' = led_out (set_clock 10001 state_ready)
    else s' = set_clock 10001 state_ready.
Proof.
  split; [lia|].
  apply (periodic_check_outcome env_offline 21 (set_clock 10001 state_ready)).
  lia.
Defined.

(** X13.  When the link is back within the 5 waits, [reconnectWiFi()]
    returns [true] and has run discovery once: [serverConnected] is what
    discovery found, the blink is off with the LED at the level of the alert
    state if the server was found and on if it was not, as after the first
    connection.  The alert state, the configuration and the EEPROM are left
    alone, and the call is over within 5.5 s. *)
Theorem reconnect_success_rediscovers (env : Env) (fuel : nat) (s : State) :
  (20 < fuel)%nat ->
  link_up_after env (clock s) 5 = true ->
  exists s',
    reconnectWiFi env fuel s = Ret true s' /\
    alertState s' = alertState s /\ config s' = config s /\
    eeprom_buf s' = eeprom_buf s /\ eeprom_flash s' = eeprom_flash s /\
    serverConnected s' =
      server_found env (udp_polls s) /\
    isBlinking s' = negb (server_found env (udp_polls s)) /\
    (if server_found env (udp_polls s) then synced s'
     else ledState s' = ledState s /\ led_out s' = led_out s) /\
    clock s <= clock s' <= clock s + 5500.
Proof.
  intros enough Hup. pose proof Hup as Hst. unfold link_up_after in Hst.
  pose proof (link_wait_bound env 5 (clock s)) as Hw.
  unfold reconnectWiFi. run.
  rewrite (await_link_spec env fuel 5) by lia. run.
  rewrite Hst. unfold printNetworkInfo, discoverServer, server_found. run.
  rewrite improvedDiscoverServer_spec by exact enough. run.
  destruct (first_packet env (udp_polls s) 60) as [[j p]|] eqn:E;
    [apply first_packet_bound in E; destruct (isEmpty (address_of p))|];
    run; unfold blinkLED; run;
    (eexists; split; [reflexivity|]); unfold synced; run;
    repeat split; auto; lia.
Qed.

Lemma reconnect_success_rediscovers_witness :
  (20 < 21)%nat /\
  link_up_after env_ready (clock state_ready) 5 = true /\
  exists s',
    reconnectWiFi env_ready 21 state_ready = Ret true s' /\
    alertState s' = alertState state_ready /\ config s' = config state_ready /\
    eeprom_buf s' = eeprom_buf state_ready /\
    eeprom_flash s' = eeprom_flash state_ready /\
    serverConnected s' = server_found env_ready (udp_polls state_ready) /\
    isBlinking s' = negb (server_found env_ready (udp_polls state_ready)) /\
    (if server_found env_ready (udp_polls state_ready) then synced s'
     else ledState s' = ledState state_ready /\ led_out s' = led_out state_ready) /\
    clock state_ready <= clock s' <= clock state_ready + 5500.
Proof.
  split; [lia|]. split; [reflexivity|].
  apply (reconnect_success_rediscovers env_ready 21 state_ready);
    [lia | reflexivity].
Defined.

(** ** The alert state and the requests, over a whole run *)

Section Ledger.

Variable env : Env.
Variable fuel : nat.
Hypothesis enough : (20 < fuel)%nat.
Variable flash : Config.

Lemma ledger_kept {A} (m : M A) :
  keeps undisturbed m -> keeps (same config) m ->
  holds (ledger env flash) (ledger env flash) m.
Proof.
  intros Hu Hc s (Hb & Hp & Hn & Hg). specialize (Hu s). specialize (Hc s).
  destruct (m s) as [a s'| |]; auto.
  destruct Hu as (Ha & _ & Hh & Ht). unfold same in Hc.
  unfold ledger, in_balance. rewrite Ha, Hh, Ht, Hc. auto.
Qed.

(** A toggle is entered in the books.  It is made on a provisioned device
    only, whose configuration is the one of the flash. *)
Lemma toggleAlertState_ledger s :
  ledger env flash s -> configured (config s) = true ->
  match toggleAlertState env fuel s with
  | Ret _ s' => ledger env flash s'
  | _ => True
  end.
Proof.
  intros (Hb & Hp & Hn & Hg) Hc1. unfold in_balance in Hb.
  destruct (toggle_outcome env fuel enough s) as (s' & E & Hc & H).
  rewrite E. unfold ledger, in_balance. rewrite Hc.
  rewrite (Hg Hc1) in H.
  destruct H as [(Ha & Hh & Hk & Ht) | [(Ha & Hh & Hk & Ht) | (Ha & Hh & _ & Ht)]];
    rewrite Ha, Hh, Ht, Hp; cbn [acked].
  - destruct (Z.gtb_spec (http_code_at env (http_reqs s)) 0) as [_|]; [|lia].
    rewrite Nat.odd_succ, <- Nat.negb_odd, <- Hb.
    repeat split; auto. now rewrite seq_S, map_app.
  - destruct (Z.gtb_spec (http_code_at env (http_reqs s)) 0) as [|_]; [lia|].
    repeat split; auto. now rewrite seq_S, map_app.
  - repeat split; auto.
Qed.

Lemma alert_button_check_ledger s :
  ledger env flash s -> configured (config s) = true ->
  match alert_button_check env fuel s with
  | Ret _ s' => ledger env flash s'
  | _ => True
  end.
Proof.
  intros Hs Hc. unfold alert_button_check, alert_button_due. run.
  destruct (serverConnected s
            && level_eqb (digital_in env buttonPin (clock s)) LOW
            && (usub (wrap32 (clock s)) (lastDebounceTime s) >? debounceDelay));
    run; [|exact Hs].
  match goal with
  | |- context [toggleAlertState env fuel ?s1] =>
      exact (toggleAlertState_ledger s1 Hs Hc)
  end.
Qed.

Lemma connection_tick_ledger :
  holds (ledger env flash) (ledger env flash) (connection_tick env fuel).
Proof.
  intros s Hs. unfold connection_tick. run.
  destruct (configured (config s)) eqn:Ec; run; rewrite ?Ec; run; [|exact Hs].
  destruct (is_connected (wifi_status_at env (clock s))) eqn:Eu; run;
    rewrite ?Ec, ?Eu; run.
  - assert (Hk : holds (ledger env flash) (ledger env flash)
                   (periodic_server_check env fuel))
      by (apply ledger_kept; [resting | unchanged]).
    assert (Hg : keeps (same config) (periodic_server_check env fuel))
      by unchanged.
    specialize (Hk s Hs). specialize (Hg s).
    destruct (periodic_server_check env fuel s) as [[] s1| |]; auto.
    apply alert_button_check_ledger; [exact Hk|].
    unfold same in Hg. now rewrite Hg.
  - assert (Hk : holds (ledger env flash) (ledger env flash)
                   (periodic_reconnect env fuel))
      by (apply ledger_kept; [resting | unchanged]).
    exact (Hk s Hs).
Qed.

Lemma portal_tick_ledger :
  holds (ledger env flash) (ledger env flash) (portal_tick env).
Proof.
  intros s Hs. unfold portal_tick, server_handleClient, handleRoot, handleSave.
  run. destruct (configured (config s)); run; [exact Hs|].
  destruct (portal_request_at env (portal_polls s)) as [[uri|a b c]|]; run;
    try destruct (existsb (String.eqb uri) root_pages); run; exact Hs || exact I.
Qed.

Lemma reset_button_check_ledger :
  holds (ledger env flash) (ledger env flash) (reset_button_check env).
Proof.
  intros s Hs. destruct (reset_due env s) eqn:E.
  - now rewrite reset_button_check_fires.
  - destruct (reset_button_check_idle env s E) as (t0 & ->). exact Hs.
Qed.

Lemma indicator_tick_ledger :
  holds (ledger env flash) (ledger env flash) (indicator_tick env).
Proof.
  intros s Hs. destruct (indicator_tick_effect env s) as [-> | ->]; exact Hs.
Qed.

Lemma run_loop_ledger gaps :
  holds (ledger env flash) (ledger env flash) (run_loop env fuel gaps).
Proof.
  induction gaps as [|gap gaps IH]; cbn [run_loop]; [apply holds_ret|].
  eapply holds_bind; [apply ledger_kept; [resting | unchanged] | intros _].
  eapply holds_bind; [|intros _; exact IH].
  unfold loop.
  eapply holds_bind; [apply indicator_tick_ledger | intros _].
  eapply holds_bind; [apply reset_button_check_ledger | intros _].
  eapply holds_bind; [apply connection_tick_ledger | intros _].
  apply portal_tick_ledger.
Qed.

End Ledger.

(** The first connection leaves the books alone and the device name; it
    leaves the configuration as it is or unprovisioned. *)
Lemma enhancedWiFiConnect_books env fuel s :
  (20 < fuel)%nat ->
  match enhancedWiFiConnect env fuel s with
  | Ret _ s' =>
      undisturbed s s' /\ deviceName (config s') = deviceName (config s) /\
      (configured (config s') = true -> config s' = config s)
  | _ => True
  end.
Proof.
  intros enough. unfold enhancedWiFiConnect. run.
  rewrite (await_link_spec env fuel 20) by lia. run.
  destruct (is_connected (wifi_status_at env _)); run.
  - unfold printNetworkInfo, discoverServer. run.
    rewrite improvedDiscoverServer_spec by exact enough. run.
    destruct (first_packet env (udp_polls s) 60) as [[j p]|];
      [destruct (isEmpty (address_of p))|]; run; unfold blinkLED; run;
      unfold undisturbed; run; cbn [posted]; rewrite posted_requests;
      repeat split.
  - unfold startCaptivePortal, improvedCaptivePortal. run.
    unfold undisturbed. run. repeat split. intros H. discriminate H.
Qed.

(** What [setup()] makes of the books of a device just powered on. *)
Lemma setup_ledger env fuel flash :
  (20 < fuel)%nat ->
  match setup env fuel (power_on flash) with
  | Ret _ s => ledger env flash s
  | _ => True
  end.
Proof.
  intros enough. unfold setup, power_on. run.
  match goal with
  | |- context [checkForResetCondition env fuel ?s1] =>
      assert (Hk : keeps undisturbed (checkForResetCondition env fuel)) by resting;
      assert (Hg : keeps (same config) (checkForResetCondition env fuel))
        by unchanged;
      specialize (Hk s1); specialize (Hg s1);
      destruct (checkForResetCondition env fuel s1) as [[] s2| |]; run; auto
  end.
  destruct Hk as (Ha & _ & Hh & Hp). unfold same in Hg. cbn in Ha, Hh, Hp, Hg.
  assert (Hs2 : ledger env flash s2).
  { unfold ledger, in_balance. rewrite Ha, Hh, Hp, Hg. repeat split. }
  assert (Hend : forall s3,
             undisturbed s2 s3 -> deviceName (config s3) = deviceName (config s2) ->
             (configured (config s3) = true -> config s3 = config s2) ->
             match networkDiagnostics env s3 with
             | Ret _ s => ledger env flash s
             | _ => True
             end).
  { intros s3 (Ha3 & _ & Hh3 & Hp3) Hn3 Hc3.
    unfold networkDiagnostics, printNetworkInfo. run.
    destruct Hs2 as (Hb2 & Hp2 & Hn2 & Hg2).
    unfold ledger, in_balance in *. rewrite Ha3, Hh3, Hp3, Hn3.
    repeat split; auto. intros H. rewrite (Hc3 H). exact Hg. }
  destruct (configured (config s2)); run.
  - unfold connectToWiFi. run.
    match goal with
    | |- context [enhancedWiFiConnect env fuel ?s3] =>
        pose proof (enhancedWiFiConnect_books env fuel s3 enough) as H3;
        destruct (enhancedWiFiConnect env fuel s3) as [ok s4| |]; run; auto
    end.
    destruct H3 as (Hu & Hn & Hc). apply Hend; [|exact Hn|exact Hc].
    etransitivity; [|exact Hu]. repeat split.
  - unfold startCaptivePortal, improvedCaptivePortal. run.
    apply Hend; repeat split.
Qed.

Lemma ledger_reachable env fuel flash gaps s :
  (20 < fuel)%nat ->
  (setup env fuel ;; run_loop env fuel gaps) (power_on flash) = Ret tt s ->
  ledger env flash s.
Proof.
  intros enough E. cbn [bind] in E.
  pose proof (setup_ledger env fuel flash enough) as H0.
  destruct (setup env fuel (power_on flash)) as [[] s0| |]; try discriminate E.
  exact (holds_result _ _ _ _ _ _ (run_loop_ledger env fuel enough _ gaps) H0 E).
Qed.

Lemma map_seq_same {A} (f : nat -> A) (c : A) n : forall a,
  (forall k, f k = c) -> map f (seq a n) = repeat c n.
Proof.
  induction n as [|n IH]; intros a H; [reflexivity|].
  cbn [seq map repeat]. now rewrite H, IH.
Qed.

(** X14.  Between two passes the alert is on exactly when an odd number of
    the requests sent since power-on got a response: the alert state starts
    off, every toggle that is answered flips it, and a toggle that is not
    answered, or not sent, leaves it. *)
Theorem alert_state_is_ack_parity (env : Env) (fuel : nat) (flash : Config)
        (gaps : list Z) (s : State) :
  (20 < fuel)%nat ->
  (setup env fuel ;; run_loop env fuel gaps) (power_on flash) = Ret tt s ->
  alertState s = Nat.odd (acked env (http_reqs s)).
Proof. intros enough E. exact (proj1 (ledger_reachable _ _ _ _ _ enough E)). Qed.

(** X15.  There is one request for every call of [http.POST()], and the
    body of each is what line 235 makes of the configuration the flash held
    at power-on: ["name="] followed by the C string that starts at its device
    name, which runs on into [configured] and what lies behind [config] if
    the name fills its field.  If the name is terminated inside the field,
    every request has the same body, ["name="] followed by the name.  The
    device name in memory stays the one of the flash. *)
Theorem every_request_names_the_device (env : Env) (fuel : nat)
        (flash : Config) (gaps : list Z) (s : State) :
  (20 < fuel)%nat ->
  (setup env fuel ;; run_loop env fuel gaps) (power_on flash) = Ret tt s ->
  posted (trace s) =
    map (fun k =>
           String.append "name="
             (String_of_cbuf (deviceName flash
                              ++ byte_of_bool (configured flash)
                                 :: beyond_config env k)))
        (seq 0 (http_reqs s)) /\
  (In x00 (deviceName flash) ->
   posted (trace s) =
     repeat (String.append "name=" (String_of_cbuf (deviceName flash)))
            (http_reqs s)) /\
  deviceName (config s) = deviceName flash.
Proof.
  intros enough E.
  destruct (ledger_reachable _ _ _ _ _ enough E) as (_ & Hp & Hn & _).
  split; [exact Hp|]. split; [|exact Hn].
  intros Hz. rewrite Hp. apply map_seq_same.
  intros k. now apply alert_body_terminated.
Qed.

Lemma state_pressed_thrice_reached :
  (setup env_button_held 21 ;; run_loop env_button_held 21 [501; 600; 501])
    (power_on door_config) = Ret tt state_pressed_thrice.
Proof. vm_compute. reflexivity. Qed.

Lemma alert_state_is_ack_parity_witness :
  (20 < 21)%nat /\
  (setup env_button_held 21 ;; run_loop env_button_held 21 [501; 600; 501])
    (power_on door_config) = Ret tt state_pressed_thrice /\
  alertState state_pressed_thrice =
  Nat.odd (acked env_button_held (http_reqs state_pressed_thrice)).
Proof.
  split; [lia|]. split; [exact state_pressed_thrice_reached|].
  apply (alert_state_is_ack_parity env_button_held 21 door_config
           [501; 600; 501] state_pressed_thrice);
    [lia | exact state_pressed_thrice_reached].
Defined.

Lemma every_request_names_the_device_witness :
  (20 < 21)%nat /\
  (setup env_button_held 21 ;; run_loop env_button_held 21 [501; 600; 501])
    (power_on door_config) = Ret tt state_pressed_thrice /\
  posted (trace state_pressed_thrice) =
    map (fun k =>
           String.append "name="
             (String_of_cbuf (deviceName door_config
                              ++ byte_of_bool (configured door_config)
                                 :: beyond_config env_button_held k)))
        (seq 0 (http_reqs state_pressed_thrice)) /\
  (In x00 (deviceName door_config) ->
   posted (trace state_pressed_thrice) =
     repeat (String.append "name=" (String_of_cbuf (deviceName door_config)))
            (http_reqs state_pressed_thrice)) /\
  deviceName (config state_pressed_thrice) = deviceName door_config.
Proof.
  split; [lia|]. split; [exact state_pressed_thrice_reached|].
  apply (every_request_names_the_device env_button_held 21 door_config
           [501; 600; 501] state_pressed_thrice);
    [lia | exact state_pressed_thrice_reached].
Defined.

(** ** What the sketch does to the outside *)

Ltac conforms_leaf :=
  first [ exists []; split; [reflexivity | constructor]
        | eexists [_]; split;
          [reflexivity | constructor; [reflexivity | constructor]] ].

Ltac conforming := keeps_with conforms_leaf.

Lemma setup_conforms env fuel : keeps (adds conforms) (setup env fuel).
Proof. conforming. Qed.

Lemma loop_conforms env fuel : keeps (adds conforms) (loop env fuel).
Proof. conforming. Qed.

Lemma run_loop_conforms env fuel gaps :
  keeps (adds conforms) (run_loop env fuel gaps).
Proof.
  induction gaps as [|gap gaps IH]; cbn [run_loop]; [apply keeps_ret|].
  apply keeps_bind; [conforming | intros _].
  apply keeps_bind; [apply loop_conforms | intros _]. exact IH.
Qed.

(** X16.  From power-on to any return to the scheduler or restart, across
    [setup()] and any number of passes, the sketch drives no pin but the
    LED's, broadcasts nothing but the discovery request to port 12345 of
    255.255.255.255, opens no connection but to an http address, posts
    nothing but a form that begins with ["name="], and answers the portal
    with 200 or 302 only. *)
Theorem outputs_conform (env : Env) (fuel : nat) (flash : Config)
        (gaps : list Z) :
  match (setup env fuel ;; run_loop env fuel gaps) (power_on flash) with
  | Ret _ s | Rebooted s => Forall (fun e => conforms e = true) (trace s)
  | OutOfFuel => True
  end.
Proof.
  assert (H : keeps (adds conforms) (setup env fuel ;; run_loop env fuel gaps)).
  { apply keeps_bind; [apply setup_conforms | intros _; apply run_loop_conforms]. }
  specialize (H (power_on flash)).
  destruct ((setup env fuel ;; run_loop env fuel gaps) (power_on flash))
    as [[] s|s|]; auto;
    destruct H as (evs & E & F); rewrite E; cbn [power_on trace];
    now rewrite app_nil_r.
Qed.

(** ** The EEPROM *)

#[export] Instance stays_durable_PreOrder : PreOrder stays_durable.
Proof. split; unfold stays_durable; auto. Qed.

Lemma durable_kept {A} (m : M A) :
  keeps (same eeprom_buf) m -> keeps (same eeprom_flash) m ->
  keeps stays_durable m.
Proof.
  intros Hb Hf s. specialize (Hb s). specialize (Hf s).
  destruct (m s); auto; unfold stays_durable, durable, same in *; congruence.
Qed.

(** Takes the statements that leave the EEPROM alone off the front of a
    function. *)
Ltac past_the_untouched :=
  repeat (apply keeps_bind; [solve [apply durable_kept; unchanged] | intro]).

Lemma triggerReset_durable : keeps stays_durable triggerReset.
Proof. intros s. unfold triggerReset. run. intros _. reflexivity. Qed.

Lemma handleSave_durable a b c : keeps stays_durable (handleSave a b c).
Proof. intros s. unfold handleSave. run. intros _. reflexivity. Qed.

Section Durable.

Variable env : Env.
Variable fuel : nat.

Lemma checkForResetCondition_durable :
  keeps stays_durable (checkForResetCondition env fuel).
Proof.
  unfold checkForResetCondition. past_the_untouched.
  apply keeps_when. past_the_untouched.
  apply keeps_bind; [|intro; apply keeps_ret].
  apply keeps_while; intro.
  - apply durable_kept; unchanged.
  - past_the_untouched.
    match goal with
    | |- keeps _ (if ?c then _ else _) => destruct c
    end; [|apply keeps_ret].
    apply keeps_bind; [apply triggerReset_durable | intro; apply keeps_ret].
Qed.

Lemma enhancedWiFiConnect_durable :
  keeps stays_durable (enhancedWiFiConnect env fuel).
Proof.
  unfold enhancedWiFiConnect. past_the_untouched.
  match goal with
  | |- keeps _ (if ?c then _ else _) => destruct c
  end; [apply durable_kept; unchanged|].
  intros s. unfold startCaptivePortal, improvedCaptivePortal. run.
  intros _. reflexivity.
Qed.

Lemma reset_button_check_durable : keeps stays_durable (reset_button_check env).
Proof.
  unfold reset_button_check. past_the_untouched.
  match goal with
  | |- keeps _ (if ?c then _ else _) => destruct c
  end; [|apply durable_kept; unchanged].
  past_the_untouched.
  match goal with
  | |- keeps _ (if ?c then _ else _) => destruct c
  end; [apply durable_kept; unchanged|].
  past_the_untouched. apply keeps_when, triggerReset_durable.
Qed.

Lemma portal_tick_durable : keeps stays_durable (portal_tick env).
Proof.
  unfold portal_tick, server_handleClient. past_the_untouched.
  apply keeps_when. past_the_untouched.
  match goal with
  | |- keeps _ (match ?r with _ => _ end) => destruct r as [[uri|x y z]|]
  end; [apply durable_kept; unchanged | apply handleSave_durable | apply keeps_ret].
Qed.

Lemma loop_durable : keeps stays_durable (loop env fuel).
Proof.
  unfold loop.
  apply keeps_bind; [apply durable_kept; unchanged | intros _].
  apply keeps_bind; [apply reset_button_check_durable | intros _].
  apply keeps_bind; [apply durable_kept; unchanged | intros _].
  apply portal_tick_durable.
Qed.

Lemma run_loop_durable gaps : keeps stays_durable (run_loop env fuel gaps).
Proof.
  induction gaps as [|gap gaps IH]; cbn [run_loop]; [apply keeps_ret|].
  apply keeps_bind; [apply durable_kept; unchanged | intros _].
  apply keeps_bind; [apply loop_durable | intros _]. exact IH.
Qed.

(** [setup()] loads the buffer from the flash, whatever it held before. *)
Lemma setup_durable s :
  match setup env fuel s with
  | Ret _ s' | Rebooted s' => durable s'
  | OutOfFuel => True
  end.
Proof.
  unfold setup. run.
  match goal with
  | |- context [checkForResetCondition env fuel ?s1] =>
      pose proof (checkForResetCondition_durable s1) as H1;
      destruct (checkForResetCondition env fuel s1) as [[] s2|s2|]; run; auto;
      [|exact (H1 eq_refl)]
  end.
  assert (H2 : durable s2) by exact (H1 eq_refl).
  unfold networkDiagnostics, printNetworkInfo.
  destruct (configured (config s2)); run.
  - unfold connectToWiFi. run.
    match goal with
    | |- context [enhancedWiFiConnect env fuel ?s3] =>
        pose proof (enhancedWiFiConnect_durable s3) as H3;
        destruct (enhancedWiFiConnect env fuel s3) as [ok s4|s4|]; run; auto;
        exact (H3 H2)
    end.
  - unfold startCaptivePortal, improvedCaptivePortal. run. exact H2.
Qed.

End Durable.

(** X17.  Whenever the sketch returns to the scheduler or restarts the
    device, the flash holds what the EEPROM library's buffer holds: the
    sketch never leaves a [put] without its [commit], so a restart, wherever
    it comes from, loses no write. *)
Theorem every_put_is_committed (env : Env) (fuel : nat) (flash : Config)
        (gaps : list Z) :
  match (setup env fuel ;; run_loop env fuel gaps) (power_on flash) with
  | Ret _ s | Rebooted s => eeprom_buf s = eeprom_flash s
  | OutOfFuel => True
  end.
Proof.
  cbn [bind]. pose proof (setup_durable env fuel (power_on flash)) as H0.
  destruct (setup env fuel (power_on flash)) as [[] s0|s0|]; auto.
  pose proof (run_loop_durable env fuel gaps s0) as H1.
  destruct (run_loop env fuel gaps s0); auto; exact (H1 H0).
Qed.

(** ** The factory reset, over a run *)

Section ResetRun.

Variable env : Env.
Variable fuel : nat.
Hypothesis enough : (20 < fuel)%nat.
Variable t : Z.



End ResetRun.



(** ** A toggle that does not find the server *)

(** X19.  When the link is up and the discovery of [sendAlert()] finds no
    server, the toggle sends nothing and takes the alert state back, but not
    the LED: lines 217-220 set [serverConnected] and [isBlinking] and revert
    [alertState] only, where the two other failure paths (lines 205-207 and
    252-254) also write the LED.  The LED is left at the level of the alert
    state that was not reached, and blinks from there. *)
Theorem toggle_without_server_leaves_led (env : Env) (fuel : nat) (s : State) :
  (20 < fuel)%nat ->
  is_connected (wifi_status_at env (clock s)) = true ->
  server_found env (udp_polls s) = false ->
  exists s',
    toggleAlertState env fuel s = Ret tt s' /\
    alertState s' = alertState s /\ http_reqs s' = http_reqs s /\
    serverConnected s' = false /\ isBlinking s' = true /\
    ledState s' = negb (alertState s) /\
    led_out s' = level_of_bool (negb (alertState s)) /\
    clock s <= clock s' <= clock s + 3000.
Proof.
  intros enough Hup Hnone. apply server_found_none in Hnone.
  unfold toggleAlertState, flip_alertState, show_alertState, sendAlert. run.
  rewrite Hup. run. unfold deliver_alert, discoverServer. run.
  rewrite improvedDiscoverServer_spec by exact enough. run.
  destruct (first_packet env (udp_polls s) 60) as [[j p]|] eqn:E.
  - apply first_packet_bound in E. rewrite Hnone. run.
    unfold flip_alertState. run.
    eexists. split; [reflexivity|]. run.
    rewrite negb_involutive. repeat split; lia.
  - run. unfold flip_alertState. run.
    eexists. split; [reflexivity|]. run.
    rewrite negb_involutive. repeat split; lia.
Qed.

Lemma toggle_without_server_leaves_led_witness :
  (20 < 21)%nat /\
  is_connected (wifi_status_at env_no_server (clock state_ready)) = true /\
  server_found env_no_server (udp_polls state_ready) = false /\
  exists s',
    toggleAlertState env_no_server 21 state_ready = Ret tt s' /\
    alertState s' = alertState state_ready /\
    http_reqs s' = http_reqs state_ready /\
    serverConnected s' = false /\ isBlinking s' = true /\
    ledState s' = negb (alertState state_ready) /\
    led_out s' = level_of_bool (negb (alertState state_ready)) /\
    clock state_ready <= clock s' <= clock state_ready + 3000.
Proof.
  assert (Hnone : server_found env_no_server (udp_polls state_ready) = false)
    by (vm_compute; reflexivity).
  split; [lia|]. split; [reflexivity|]. split; [exact Hnone|].
  apply (toggle_without_server_leaves_led env_no_server 21 state_ready);
    [lia | reflexivity | exact Hnone].
Defined.

(** ** The variable [ledState] and the pin *)

Lemma mirrors_led_same {A} (m : M A) :
  keeps led_same m -> holds mirrors mirrors m.
Proof.
  intros H s Hs. specialize (H s). destruct (m s) as [a s'| |]; auto.
  destruct H as (_ & Hl & Ho & _). unfold mirrors in *. now rewrite Hl, Ho.
Qed.

Section Mirror.

Variable env : Env.
Variable fuel : nat.
Hypothesis enough : (20 < fuel)%nat.

Lemma reconnectWiFi_mirrors : holds mirrors mirrors (reconnectWiFi env fuel).
Proof.
  intros s Hs. pose proof (reconnectWiFi_led env fuel enough s) as H.
  destruct (reconnectWiFi env fuel s) as [ok s'| |]; auto.
  destruct H as (_ & [(_ & Hl & Ho) | (_ & Hl & Ho)]); unfold mirrors in *.
  - now rewrite Hl, Ho.
  - now rewrite Hl, Ho.
Qed.

Lemma deliver_alert_mirrors state :
  holds mirrors mirrors (deliver_alert env fuel state).
Proof.
  intros s Hs. unfold deliver_alert, discoverServer. run.
  rewrite improvedDiscoverServer_spec by exact enough. run.
  destruct (first_packet env (udp_polls s) 60) as [[j p]|];
    [destruct (isEmpty (address_of p))|]; run;
    unfold flip_alertState, show_alertState; run; try exact Hs.
  destruct (http_code_at env (http_reqs s) >? 0); run;
    [exact Hs | reflexivity].
Qed.

Lemma sendAlert_mirrors state : holds mirrors mirrors (sendAlert env fuel state).
Proof.
  intros s Hs. unfold sendAlert. run.
  destruct (is_connected (wifi_status_at env (clock s))); run.
  - exact (deliver_alert_mirrors state s Hs).
  - pose proof (reconnectWiFi_mirrors s Hs) as H.
    destruct (reconnectWiFi env fuel s) as [ok s2| |]; run; auto.
    destruct ok; run.
    + exact (deliver_alert_mirrors state s2 H).
    + unfold flip_alertState, show_alertState. run. reflexivity.
Qed.

Lemma toggleAlertState_mirrors :
  holds (fun _ => True) mirrors (toggleAlertState env fuel).
Proof.
  intros s _. unfold toggleAlertState, flip_alertState, show_alertState. run.
  match goal with
  | |- context [sendAlert env fuel ?st ?s1] =>
      exact (sendAlert_mirrors st s1 eq_refl)
  end.
Qed.

Lemma periodic_server_check_mirrors :
  holds mirrors mirrors (periodic_server_check env fuel).
Proof.
  intros s Hs.
  destruct (periodic_server_check_outcome env fuel s enough) as (s' & -> & H).
  destruct (usub (wrap32 (clock s)) (lastServerCheckTime s) >? serverCheckInterval);
    [|now subst].
  destruct H as (_ & _ & _ & _ & _ & H).
  destruct (server_found env (udp_polls s) && negb (serverConnected s)
            && isBlinking s); destruct H as (Hl & Ho); unfold mirrors in *.
  - now rewrite Hl, Ho.
  - now rewrite Hl, Ho.
Qed.

Lemma connection_tick_mirrors :
  holds mirrors mirrors (connection_tick env fuel).
Proof.
  unfold connection_tick.
  eapply holds_bind; [apply holds_gets | intros cfg].
  eapply holds_bind; [apply (holds_gets mirrors) | intros st].
  destruct (configured cfg && is_connected st).
  - eapply holds_bind; [apply periodic_server_check_mirrors | intros _].
    intros s Hs. unfold alert_button_check, alert_button_due. run.
    destruct (serverConnected s
              && level_eqb (digital_in env buttonPin (clock s)) LOW
              && (usub (wrap32 (clock s)) (lastDebounceTime s) >? debounceDelay));
      run; [|exact Hs].
    match goal with
    | |- context [toggleAlertState env fuel ?s1] =>
        exact (toggleAlertState_mirrors s1 I)
    end.
  - eapply holds_bind; [apply holds_gets | intros cfg'].
    eapply holds_bind; [apply (holds_gets mirrors) | intros st'].
    apply holds_when. intros s Hs. unfold periodic_reconnect. run.
    destruct (usub (wrap32 (clock s)) (lastServerCheckTime s)
                >? serverCheckInterval); run; [|exact Hs].
    match goal with
    | |- context [reconnectWiFi env fuel ?s1] =>
        pose proof (reconnectWiFi_mirrors s1 Hs) as H;
        destruct (reconnectWiFi env fuel s1) as [ok s2| |]; run; auto
    end.
Qed.

Lemma indicator_tick_mirrors : holds mirrors mirrors (indicator_tick env).
Proof.
  intros s Hs. destruct (indicator_tick_effect env s) as [-> | ->];
    [exact Hs | reflexivity].
Qed.

Lemma reset_button_check_mirrors : holds mirrors mirrors (reset_button_check env).
Proof.
  intros s Hs. destruct (reset_due env s) eqn:E.
  - now rewrite reset_button_check_fires.
  - destruct (reset_button_check_idle env s E) as (t0 & ->). exact Hs.
Qed.

Lemma loop_mirrors : holds mirrors mirrors (loop env fuel).
Proof.
  unfold loop.
  eapply holds_bind; [apply indicator_tick_mirrors | intros _].
  eapply holds_bind; [apply reset_button_check_mirrors | intros _].
  eapply holds_bind; [apply connection_tick_mirrors | intros _].
  apply mirrors_led_same. resting.
Qed.

Lemma run_loop_mirrors gaps : holds mirrors mirrors (run_loop env fuel gaps).
Proof.
  induction gaps as [|gap gaps IH]; cbn [run_loop]; [apply holds_ret|].
  eapply holds_bind; [apply mirrors_led_same; resting | intros _].
  eapply holds_bind; [apply loop_mirrors | intros _]. exact IH.
Qed.

Lemma checkForResetCondition_mirrors :
  holds mirrors mirrors (checkForResetCondition env fuel).
Proof.
  unfold checkForResetCondition.
  eapply holds_bind; [apply holds_gets | intros l].
  apply holds_when.
  eapply holds_bind; [apply mirrors_led_same; resting | intros _].
  eapply holds_bind; [apply holds_gets | intros startTime].
  eapply holds_bind; [|intros _; apply holds_ret].
  apply holds_while; intros _.
  - apply mirrors_led_same. resting.
  - eapply holds_bind; [apply holds_gets | intros now].
    destruct (usub now startTime >? 3000); [|apply holds_ret].
    intros s _. cbn [bind]. destruct (triggerReset_reboots s) as (s' & ->).
    exact I.
Qed.

Lemma setup_mirrors : holds (fun _ => True) mirrors (setup env fuel).
Proof.
  intros s _. unfold setup. run.
  match goal with
  | |- context [checkForResetCondition env fuel ?s1] =>
      pose proof (checkForResetCondition_mirrors s1 eq_refl) as H;
      destruct (checkForResetCondition env fuel s1) as [[] s2| |]; run; auto
  end.
  unfold networkDiagnostics, printNetworkInfo.
  destruct (configured (config s2)); run.
  - unfold connectToWiFi, enhancedWiFiConnect. run.
    rewrite (await_link_spec env fuel 20) by lia. run.
    destruct (is_connected (wifi_status_at env _)); run.
    + unfold printNetworkInfo, discoverServer. run.
      rewrite improvedDiscoverServer_spec by exact enough. run.
      destruct (first_packet env (udp_polls s2) 60) as [[j p]|];
        [destruct (isEmpty (address_of p))|]; run; unfold blinkLED; run;
        unfold printNetworkInfo; run; exact H || reflexivity.
    + unfold startCaptivePortal, improvedCaptivePortal. run. exact H.
  - unfold startCaptivePortal, improvedCaptivePortal. run. exact H.
Qed.

End Mirror.

(** X20.  Between two passes the variable [ledState] says what the LED pin
    shows: every assignment to it is followed by the write of the same level
    to the pin, and the one write that does not follow an assignment, in
    [triggerReset()], is followed by the restart.  (The alert state is
    another matter: it can differ from both.) *)
Theorem ledState_mirrors_the_pin (env : Env) (fuel : nat) (flash : Config)
        (gaps : list Z) (s : State) :
  (20 < fuel)%nat ->
  (setup env fuel ;; run_loop env fuel gaps) (power_on flash) = Ret tt s ->
  led_out s = level_of_bool (ledState s).
Proof.
  intros enough.
  apply (holds_result (fun _ => True) mirrors); [|exact I].
  eapply holds_bind; [apply setup_mirrors, enough | intros _].
  apply run_loop_mirrors, enough.
Qed.

Lemma ledState_mirrors_the_pin_witness :
  (20 < 21)%nat /\
  (setup env_button_held 21 ;; run_loop env_button_held 21 [501; 600; 501])
    (power_on door_config) = Ret tt state_pressed_thrice /\
  led_out state_pressed_thrice = level_of_bool (ledState state_pressed_thrice).
Proof.
  split; [lia|]. split; [exact state_pressed_thrice_reached|].
  apply (ledState_mirrors_the_pin env_button_held 21 door_config
           [501; 600; 501] state_pressed_thrice);
    [lia | exact state_pressed_thrice_reached].
Defined.

(** ** When the debounce time starts *)

(** X21.  The time of a press is taken before the press is handled (line
    153), and handling it can block for up to 8.5 s.  So the 500 ms of the
    debounce run from the start of the handling, whether the toggle went
    through or not: when the handling has taken more than 500 ms and the
    button is still down and the server connected, the test of line 152 is
    met again at once. *)
Theorem debounce_runs_from_the_start (env : Env) (fuel : nat) (s : State) :
  (20 < fuel)%nat ->
  serverConnected s = true ->
  digital_in env buttonPin (clock s) = LOW ->
  debounceDelay < usub (wrap32 (clock s)) (lastDebounceTime s) ->
  exists s',
    alert_button_check env fuel s = Ret tt s' /\
    lastDebounceTime s' = wrap32 (clock s) /\
    clock s <= clock s' <= clock s + 8500 /\
    (debounceDelay < clock s' - clock s ->
     serverConnected s' = true ->
     digital_in env buttonPin (clock s') = LOW ->
     alert_button_due env s' = Ret true s').
Proof.
  intros enough Hsc Hlow Hdue.
  unfold alert_button_check, alert_button_due. run.
  rewrite Hsc, Hlow. run.
  destruct (Z.gtb_spec (usub (wrap32 (clock s)) (lastDebounceTime s)) debounceDelay)
    as [_|]; [|lia].
  run.
  match goal with
  | |- context [toggleAlertState env fuel ?s1] =>
      destruct (toggleAlertState_returns env fuel enough s1) as ([] & s' & E);
      pose proof (toggleAlertState_takes env fuel enough s1) as Ht;
      assert (Hk : keeps (same lastDebounceTime) (toggleAlertState env fuel))
        by unchanged;
      apply (fun H => keeps_result _ _ _ _ H E) in Hk
  end.
  rewrite E in Ht |- *. unfold same in Hk. cbn in Hk, Ht.
  exists s'. split; [reflexivity|]. split; [exact Hk|]. split; [exact Ht|].
  intros Hlong Hsc' Hlow'. run. rewrite Hsc', Hlow', Hk. run.
  replace (clock s') with (clock s + (clock s' - clock s)) by lia.
  unfold debounceDelay in *. rewrite usub_elapsed by lia.
  destruct (Z.gtb_spec (clock s' - clock s) 500); [reflexivity | lia].
Qed.

Lemma debounce_runs_from_the_start_witness :
  (20 < 21)%nat /\
  serverConnected (set_clock 601 state_ready) = true /\
  digital_in env_button_held buttonPin (clock (set_clock 601 state_ready)) = LOW /\
  debounceDelay < usub (wrap32 (clock (set_clock 601 state_ready)))
                       (lastDebounceTime (set_clock 601 state_ready)) /\
  exists s',
    alert_button_check env_button_held 21 (set_clock 601 state_ready) = Ret tt s' /\
    lastDebounceTime s' = wrap32 (clock (set_clock 601 state_ready)) /\
    clock (set_clock 601 state_ready) <= clock s'
      <= clock (set_clock 601 state_ready) + 8500 /\
    (debounceDelay < clock s' - clock (set_clock 601 state_ready) ->
     serverConnected s' = true ->
     digital_in env_button_held buttonPin (clock s') = LOW ->
     alert_button_due env_button_held s' = Ret true s').
Proof.
  split; [lia|]. split; [reflexivity|]. split; [reflexivity|].
  split; [reflexivity|].
  apply (debounce_runs_from_the_start env_button_held 21
           (set_clock 601 state_ready));
    [lia | reflexivity | reflexivity | reflexivity].
Defined.
